(** * V-Pet: the pet simulation and its care report, verified against the
    TypeScript sources.

    The development follows the sources file by file:
    - [JS]         the handful of JavaScript primitives the code relies on;
    - [PetConfig]  [src/lib/petConfig.ts], the four care profiles;
    - [ReportLogic] [src/lib/reportLogic.ts], scoring and grading;
    - [Dashboard]  [src/components/Dashboard.tsx], the component state, its
                   timers and click handlers, written as a state machine;
    - [ReportFeedback] the averages and feedback texts of
                   [src/lib/reportLogic.ts] and the grade colours of
                   [src/components/Report.tsx];
    - [DashboardEffects] the stat history of the save effect and the
                   countdown labels of [Dashboard.tsx];
    - [Index]      [src/pages/Index.tsx], the stats a new pet starts with;
    - [StatBar]    [src/components/StatBar.tsx], the clamp of the bar.

    JavaScript numbers are modelled as exact rationals ([Q]); integral
    quantities that the code never divides (costs, durations in seconds,
    epoch milliseconds, hours of the day, counters) are integers ([Z]).
    Rational results are compared with [==]. *)

From Stdlib Require Import QArith Qminmax Qround Qabs ZArith.
From Stdlib Require Import String Ascii List Bool Lia Lqa DecimalString.
Import ListNotations.

Open Scope string_scope.
Open Scope list_scope.
Open Scope Q_scope.

(** Concatenation inside template strings. *)
Infix "+++" := String.append (right associativity, at level 60).

(** ** JavaScript primitives *)

Module JS.

Definition Math_max (a b : Q) : Q := Qmax a b.
Definition Math_min (a b : Q) : Q := Qmin a b.
Definition Math_abs (a : Q) : Q := Qabs a.
Definition Math_floor (a : Q) : Z := Qfloor a.
Definition Math_ceil (a : Q) : Z := Qceiling a.

(** [Math.round] rounds to the nearest integer, ties towards +infinity. *)
Definition Math_round (a : Q) : Z := Qfloor (a + (1 # 2)).

(** [a < b] and [a >= b] on numbers. *)
Definition ltb (a b : Q) : bool := negb (Qle_bool b a).
Definition geb (a b : Q) : bool := Qle_bool b a.

(** Truthiness of an optional numeric field: [undefined] and [0] are
    falsy. *)
Definition truthy (o : option Q) : bool :=
  match o with
  | Some x => negb (Qeq_bool x 0)
  | None => false
  end.

(** [o || d] for an optional number [o]. *)
Definition or_default (o : option Q) (d : Q) : Q :=
  match o with
  | Some x => if Qeq_bool x 0 then d else x
  | None => d
  end.

(** The value of an optional field once it is known to be truthy. *)
Definition num (o : option Q) : Q :=
  match o with Some x => x | None => 0 end.

Definition lower_ascii (c : ascii) : ascii :=
  let n := nat_of_ascii c in
  if ((65 <=? n) && (n <=? 90))%nat then ascii_of_nat (n + 32) else c.

(** [String.prototype.toLowerCase], on the ASCII range. *)
Fixpoint toLowerCase (s : string) : string :=
  match s with
  | EmptyString => EmptyString
  | String c r => String (lower_ascii c) (toLowerCase r)
  end.

(** [String.prototype.includes]. *)
Fixpoint includes (s sub : string) : bool :=
  if String.prefix sub s then true
  else match s with
       | EmptyString => false
       | String _ r => includes r sub
       end.

(** Decimal rendering of an integer inside a template string. *)
Definition string_of_Z (z : Z) : string :=
  NilZero.string_of_int (Z.to_int z).

End JS.

(** ** The stat vector *)

Record PetStats : Type := mkStats {
  hunger : Q;
  happiness : Q;
  hygiene : Q;
  energy : Q;
  thirst : Q
}.

(** A stat lies in the band the bars display. *)
Definition in_band (x : Q) : Prop := 0 <= x /\ x <= 100.

Definition stats_in_range (s : PetStats) : Prop :=
  in_band (hunger s) /\ in_band (happiness s) /\ in_band (hygiene s) /\
  in_band (energy s) /\ in_band (thirst s).

(** Field-wise rational equality of two stat vectors. *)
Definition stats_eq (a b : PetStats) : Prop :=
  hunger a == hunger b /\ happiness a == happiness b /\
  hygiene a == hygiene b /\ energy a == energy b /\ thirst a == thirst b.

(** ** petConfig.ts *)

Module PetConfig.

Record DecayRates : Type := mkDecay {
  decay_hunger : Q;      (* -1% every X minutes *)
  decay_happiness : Q;
  decay_hygiene : Q;
  decay_energy : Q;
  decay_thirst : Q
}.

Record SleepHours : Type := mkSleep { sleep_start : Z; sleep_end : Z }.

Record FeedCfg : Type := mkFeed {
  feed_cost : Z;
  feed_duration : Z;
  feed_hunger : Q;
  feed_happiness : option Q;
  feed_energy : option Q;
  feed_triggerThreshold : Q
}.

Record WaterCfg : Type := mkWater {
  water_cost : Z;
  water_duration : Z;
  water_thirst : Q;
  water_happiness : option Q;
  water_triggerThreshold : Q
}.

Record ExerciseCfg : Type := mkExercise {
  exercise_cost : Z;
  exercise_duration : Z;
  exercise_energy : Q;
  exercise_happiness : Q;
  exercise_hygiene : option Q;
  exercise_thirst : Q;
  exercise_hunger : Q;
  exercise_minEnergy : Q;
  exercise_cooldownHours : Q
}.

Record PlayCfg : Type := mkPlay {
  play_cost : Z;
  play_duration : Z;
  play_happiness : Q;
  play_energy : Q;
  play_hygiene : option Q;
  play_thirst : Q;
  play_hunger : Q;
  play_requiresToy : bool;
  play_minEnergy : Q
}.

(** [bath] and [grooming] have the same shape. *)
Record WashCfg : Type := mkWash {
  wash_cost : Z;
  wash_duration : Z;
  wash_hygiene : Q;
  wash_happiness : option Q;
  wash_triggerThreshold : Q;
  wash_cooldownDays : Q
}.

Record VetCfg : Type := mkVet {
  vet_cost : Z;
  vet_duration : Z;
  vet_hygiene : Q;
  vet_happiness : Q;
  vet_energy : Q
}.

Record Actions : Type := mkActions {
  feed : FeedCfg;
  water : WaterCfg;
  exercise : ExerciseCfg;
  play : PlayCfg;
  bath : WashCfg;
  grooming : WashCfg;
  vetVisit : VetCfg
}.

Record PetConfig : Type := mkConfig {
  decayRates : DecayRates;
  sleepHours : SleepHours;
  initialStats : PetStats;
  actions : Actions
}.

Definition dog : PetConfig :=
  mkConfig
    (mkDecay 6.75 45 120 10 3.5)
    (mkSleep 22 6)
    (mkStats 80 80 90 80 80)
    (mkActions
       (mkFeed 0 5 90 (Some 5) (Some 12) 35)
       (mkWater 0 5 80 (Some 3) 70)
       (mkExercise 0 5 (-20) 15 (Some (-7)) (-35) (-8) 20 12)
       (mkPlay 0 5 15 (-20) (Some (-3)) (-30) (-6) true 20)
       (mkWash 2 (35 * 60) 100 (Some (-5)) 35 14)
       (mkWash 10 (30 * 60) 15 (Some (-3)) 35 30)
       (mkVet 100 (45 * 60) 30 10 20)).

Definition cat : PetConfig :=
  mkConfig
    (mkDecay 8 50 180 12 4)
    (mkSleep 20 6)
    (mkStats 75 75 95 70 75)
    (mkActions
       (mkFeed 2 5 85 (Some 3) (Some 10) 40)
       (mkWater 0 5 75 (Some 2) 70)
       (mkExercise 0 5 (-15) 20 (Some (-2)) (-30) (-7) 15 8)
       (mkPlay 0 5 20 (-15) (Some (-2)) (-25) (-5) true 15)
       (mkWash 3 (40 * 60) 100 (Some (-10)) 30 21)
       (mkWash 5 (20 * 60) 20 (Some 5) 40 7)
       (mkVet 120 (45 * 60) 25 5 15)).

Definition parrot : PetConfig :=
  mkConfig
    (mkDecay 5 30 200 8 3)
    (mkSleep 20 7)
    (mkStats 70 70 85 75 70)
    (mkActions
       (mkFeed 4 5 80 (Some 8) (Some 15) 30)
       (mkWater 0 5 75 (Some 2) 65)
       (mkExercise 0 5 (-25) 25 (Some (-5)) (-40) (-10) 25 6)
       (mkPlay 0 5 25 (-20) (Some (-3)) (-35) (-8) true 20)
       (mkWash 1 (15 * 60) 100 (Some 10) 40 3)
       (mkWash 15 (25 * 60) 20 (Some (-5)) 40 60)
       (mkVet 150 (50 * 60) 35 15 25)).

Definition rabbit : PetConfig :=
  mkConfig
    (mkDecay 4 40 150 9 3.5)
    (mkSleep 22 6)
    (mkStats 85 75 80 70 80)
    (mkActions
       (mkFeed 2 5 75 (Some 5) (Some 8) 50)
       (mkWater 0 5 80 (Some 2) 70)
       (mkExercise 0 5 (-18) 18 (Some (-8)) (-32) (-9) 18 10)
       (mkPlay 0 5 18 (-18) (Some (-4)) (-28) (-7) true 18)
       (mkWash 1 (20 * 60) 90 (Some (-8)) 40 30)
       (mkWash 8 (25 * 60) 25 (Some 3) 40 14)
       (mkVet 110 (40 * 60) 30 8 18)).

(** [petConfigs[pet.type as PetType] || petConfigs.dog]: an archetype
    outside the table falls back to the dog profile. *)
Definition petConfigs (type : string) : PetConfig :=
  if String.eqb type "dog" then dog
  else if String.eqb type "cat" then cat
  else if String.eqb type "parrot" then parrot
  else if String.eqb type "rabbit" then rabbit
  else dog.

End PetConfig.

(** ** reportLogic.ts *)

Module ReportLogic.

Record EventEntry : Type := mkEvent { message : string; timestamp : Z }.

Record ActionCounts : Type := mkCounts {
  c_feed : Z;
  c_water : Z;
  c_walk : Z;
  c_play : Z;
  c_bath : Z;
  c_vet : Z;
  c_groom : Z
}.

Inductive ReportTimeRange : Type := Range1 | Range7 | Range30 | RangeAll.

(** [now] stands for [Date.now()]. *)
Definition getRangeStartMs (now : Z) (range : ReportTimeRange) : Z :=
  match range with
  | RangeAll => 0
  | Range1 => now - 1 * 24 * 60 * 60 * 1000
  | Range7 => now - 7 * 24 * 60 * 60 * 1000
  | Range30 => now - 30 * 24 * 60 * 60 * 1000
  end%Z.

Definition filterEventsByRange (now : Z) (events : list EventEntry)
    (range : ReportTimeRange) : list EventEntry :=
  let start := getRangeStartMs now range in
  filter (fun e => (start <=? timestamp e)%Z) events.

Definition bump (b : bool) (n : Z) : Z := if b then (n + 1)%Z else n.

(** One pass of the [for] loop of [getActionCounts]. *)
Definition countEvent (counts : ActionCounts) (e : EventEntry)
    : ActionCounts :=
  let m := JS.toLowerCase (message e) in
  let has := JS.includes m in
  mkCounts
    (bump (has "feeding" || has "feed") (c_feed counts))
    (bump (has "water" || has "giving water") (c_water counts))
    (bump (has "walk" || has "run" || has "fly" || has "exercise")
          (c_walk counts))
    (bump (has "play" || has "playing") (c_play counts))
    (bump (has "bath" || has "shower" || has "spot clean") (c_bath counts))
    (bump (has "vet" || has "checkup") (c_vet counts))
    (bump (has "trim" || has "brush" || has "groom" || has "nail"
           || has "beak") (c_groom counts)).

Definition getActionCounts (events : list EventEntry) : ActionCounts :=
  fold_left countEvent events (mkCounts 0 0 0 0 0 0 0).

Definition getGrade (score : Q) : string :=
  if JS.geb score 97 then "A+"
  else if JS.geb score 93 then "A"
  else if JS.geb score 90 then "A-"
  else if JS.geb score 87 then "B+"
  else if JS.geb score 83 then "B"
  else if JS.geb score 80 then "B-"
  else if JS.geb score 77 then "C+"
  else if JS.geb score 73 then "C"
  else if JS.geb score 70 then "C-"
  else if JS.geb score 67 then "D+"
  else if JS.geb score 63 then "D"
  else if JS.geb score 60 then "D-"
  else "F".

Definition getOverallScore (stats : PetStats) (counts : ActionCounts) : Z :=
  let avgStat :=
    (hunger stats + thirst stats + happiness stats + hygiene stats
     + energy stats) / 5 in
  let variety :=
    List.length
      (filter (fun c => (0 <? c)%Z)
         [c_feed counts; c_water counts; c_walk counts; c_play counts;
          c_bath counts; c_groom counts]) in
  let varietyBonus :=
    JS.Math_min 10 (inject_Z (Z.of_nat variety) * 2) in
  JS.Math_round (JS.Math_min 100 (avgStat + varietyBonus)).

(** *** The spec's reading of the score and of the grade order *)





(** The threshold table, best grade first. *)
Definition gradeTable : list (Q * string) :=
  [ (97, "A+"); (93, "A"); (90, "A-"); (87, "B+"); (83, "B"); (80, "B-");
    (77, "C+"); (73, "C"); (70, "C-"); (67, "D+"); (63, "D"); (60, "D-") ].

(** Position of a grade on the scale: F is 0, A+ is 12. *)
Definition gradeRank (g : string) : nat :=
  let fix go (l : list (Q * string)) : nat :=
    match l with
    | [] => 0%nat
    | (_, g') :: r => if String.eqb g g' then S (List.length r) else go r
    end in
  go gradeTable.

End ReportLogic.

(** ** Dashboard.tsx *)

Module Dashboard.

Import PetConfig.
Export ReportLogic.

Inductive Emotion : Type :=
  happy | sad | okay | grumpy | neutral | sleeping.

Record Pet : Type := mkPet {
  type : string;
  name : string;
  stats : PetStats;
  emotion : Emotion
}.

(** [Partial<typeof pet.stats>]: the fields an action overwrites when it
    completes. *)
Record StatChanges : Type := mkChanges {
  ch_hunger : option Q;
  ch_happiness : option Q;
  ch_hygiene : option Q;
  ch_energy : option Q;
  ch_thirst : option Q
}.

Definition noChanges : StatChanges := mkChanges None None None None None.

Definition over (o : option Q) (x : Q) : Q :=
  match o with Some y => y | None => x end.

(** [{ ...stats, ...statChanges }]. *)
Definition applyChanges (s : PetStats) (c : StatChanges) : PetStats :=
  mkStats (over (ch_hunger c) (hunger s))
          (over (ch_happiness c) (happiness s))
          (over (ch_hygiene c) (hygiene s))
          (over (ch_energy c) (energy s))
          (over (ch_thirst c) (thirst s)).

(** *** Closures

    A callback handed to [setTimeout] or to [handleAction] is a closure
    over the render in which the click handler ran.  Each one is
    represented by a constructor that carries the values it captured. *)

Inductive TimeoutCallback : Type :=
| HappinessBonus (msg : string) (amount : Q)
| HygieneMess (msg : string) (loss : Q)
| ToyPenalty (hasToy_captured : bool) (petName : string).

Record Timeout : Type := mkTimeout {
  timeout_id : nat;
  timeout_delay : Q;           (* milliseconds *)
  timeout_callback : TimeoutCallback
}.

Inductive ExtraEffects : Type :=
| NoEffects
| FeedDone
| ExerciseDone (eventTimers : list nat) (label petName : string)
| PlayDone (eventTimers : list nat) (toyBreaks hasToy_captured : bool)
           (petName : string)
| BuyToyDone
| BathDone
| VetDone (petName : string)
| GroomDone (finishLabel petName : string).

(** The countdown interval [handleAction] starts, with what its callback
    closes over. *)
Record ActionRun : Type := mkRun {
  run_id : nat;
  run_action : string;
  run_statChanges : StatChanges;
  run_extraEffects : ExtraEffects
}.

(** The [useState] cells of the component, followed by the timers that
    are pending in the browser.  The four countdown strings other than
    [walkCountdown] are only ever displayed and are left out, as are
    [statHistory], the tutorial flags and the toasts. *)
Record State : Type := mkState {
  pet : Pet;
  totalSpent : Z;
  events : list EventEntry;
  activeAction : option string;
  actionTimer : Z;
  isSleeping : bool;
  lastRestTime : Z;
  walkCountdown : option string;
  hasToy : bool;
  lastWalkTime : Z;
  lastBathTime : Z;
  lastTrimNailsTime : Z;
  feedCount : Z;
  intervals : list ActionRun;
  timeouts : list Timeout;
  nextTimerId : nat
}.

Definition setPet (v : Pet) (st : State) : State :=
  mkState v (totalSpent st) (events st) (activeAction st) (actionTimer st)
    (isSleeping st) (lastRestTime st) (walkCountdown st) (hasToy st)
    (lastWalkTime st) (lastBathTime st) (lastTrimNailsTime st) (feedCount st)
    (intervals st) (timeouts st) (nextTimerId st).

Definition setTotalSpent (v : Z) (st : State) : State :=
  mkState (pet st) v (events st) (activeAction st) (actionTimer st)
    (isSleeping st) (lastRestTime st) (walkCountdown st) (hasToy st)
    (lastWalkTime st) (lastBathTime st) (lastTrimNailsTime st) (feedCount st)
    (intervals st) (timeouts st) (nextTimerId st).

Definition setEvents (v : list EventEntry) (st : State) : State :=
  mkState (pet st) (totalSpent st) v (activeAction st) (actionTimer st)
    (isSleeping st) (lastRestTime st) (walkCountdown st) (hasToy st)
    (lastWalkTime st) (lastBathTime st) (lastTrimNailsTime st) (feedCount st)
    (intervals st) (timeouts st) (nextTimerId st).

Definition setActiveAction (v : option string) (st : State) : State :=
  mkState (pet st) (totalSpent st) (events st) v (actionTimer st)
    (isSleeping st) (lastRestTime st) (walkCountdown st) (hasToy st)
    (lastWalkTime st) (lastBathTime st) (lastTrimNailsTime st) (feedCount st)
    (intervals st) (timeouts st) (nextTimerId st).

Definition setActionTimer (v : Z) (st : State) : State :=
  mkState (pet st) (totalSpent st) (events st) (activeAction st) v
    (isSleeping st) (lastRestTime st) (walkCountdown st) (hasToy st)
    (lastWalkTime st) (lastBathTime st) (lastTrimNailsTime st) (feedCount st)
    (intervals st) (timeouts st) (nextTimerId st).

Definition setIsSleeping (v : bool) (st : State) : State :=
  mkState (pet st) (totalSpent st) (events st) (activeAction st)
    (actionTimer st) v (lastRestTime st) (walkCountdown st) (hasToy st)
    (lastWalkTime st) (lastBathTime st) (lastTrimNailsTime st) (feedCount st)
    (intervals st) (timeouts st) (nextTimerId st).

Definition setLastRestTime (v : Z) (st : State) : State :=
  mkState (pet st) (totalSpent st) (events st) (activeAction st)
    (actionTimer st) (isSleeping st) v (walkCountdown st) (hasToy st)
    (lastWalkTime st) (lastBathTime st) (lastTrimNailsTime st) (feedCount st)
    (intervals st) (timeouts st) (nextTimerId st).

Definition setWalkCountdown (v : option string) (st : State) : State :=
  mkState (pet st) (totalSpent st) (events st) (activeAction st)
    (actionTimer st) (isSleeping st) (lastRestTime st) v (hasToy st)
    (lastWalkTime st) (lastBathTime st) (lastTrimNailsTime st) (feedCount st)
    (intervals st) (timeouts st) (nextTimerId st).

Definition setHasToy (v : bool) (st : State) : State :=
  mkState (pet st) (totalSpent st) (events st) (activeAction st)
    (actionTimer st) (isSleeping st) (lastRestTime st) (walkCountdown st) v
    (lastWalkTime st) (lastBathTime st) (lastTrimNailsTime st) (feedCount st)
    (intervals st) (timeouts st) (nextTimerId st).

Definition setLastWalkTime (v : Z) (st : State) : State :=
  mkState (pet st) (totalSpent st) (events st) (activeAction st)
    (actionTimer st) (isSleeping st) (lastRestTime st) (walkCountdown st)
    (hasToy st) v (lastBathTime st) (lastTrimNailsTime st) (feedCount st)
    (intervals st) (timeouts st) (nextTimerId st).

Definition setLastBathTime (v : Z) (st : State) : State :=
  mkState (pet st) (totalSpent st) (events st) (activeAction st)
    (actionTimer st) (isSleeping st) (lastRestTime st) (walkCountdown st)
    (hasToy st) (lastWalkTime st) v (lastTrimNailsTime st) (feedCount st)
    (intervals st) (timeouts st) (nextTimerId st).

Definition setLastTrimNailsTime (v : Z) (st : State) : State :=
  mkState (pet st) (totalSpent st) (events st) (activeAction st)
    (actionTimer st) (isSleeping st) (lastRestTime st) (walkCountdown st)
    (hasToy st) (lastWalkTime st) (lastBathTime st) v (feedCount st)
    (intervals st) (timeouts st) (nextTimerId st).

Definition setFeedCount (v : Z) (st : State) : State :=
  mkState (pet st) (totalSpent st) (events st) (activeAction st)
    (actionTimer st) (isSleeping st) (lastRestTime st) (walkCountdown st)
    (hasToy st) (lastWalkTime st) (lastBathTime st) (lastTrimNailsTime st) v
    (intervals st) (timeouts st) (nextTimerId st).

Definition setIntervals (v : list ActionRun) (st : State) : State :=
  mkState (pet st) (totalSpent st) (events st) (activeAction st)
    (actionTimer st) (isSleeping st) (lastRestTime st) (walkCountdown st)
    (hasToy st) (lastWalkTime st) (lastBathTime st) (lastTrimNailsTime st)
    (feedCount st) v (timeouts st) (nextTimerId st).

Definition setTimeouts (v : list Timeout) (st : State) : State :=
  mkState (pet st) (totalSpent st) (events st) (activeAction st)
    (actionTimer st) (isSleeping st) (lastRestTime st) (walkCountdown st)
    (hasToy st) (lastWalkTime st) (lastBathTime st) (lastTrimNailsTime st)
    (feedCount st) (intervals st) v (nextTimerId st).

Definition setNextTimerId (v : nat) (st : State) : State :=
  mkState (pet st) (totalSpent st) (events st) (activeAction st)
    (actionTimer st) (isSleeping st) (lastRestTime st) (walkCountdown st)
    (hasToy st) (lastWalkTime st) (lastBathTime st) (lastTrimNailsTime st)
    (feedCount st) (intervals st) (timeouts st) v.

(** What [new Date()] and [Date.now()] return when a callback runs. *)
Record Clock : Type := mkClock {
  now : Z;            (* epoch milliseconds *)
  getHours : Z;       (* local hour of the day, 0..23 *)
  getMinutes : Z      (* minute of the hour, 0..59 *)
}.

Definition petConfig (st : State) : PetConfig :=
  petConfigs (type (pet st)).

(** [!!activeAction]: a non-empty label. *)
Definition isActive (st : State) : bool :=
  match activeAction st with
  | Some EmptyString => false
  | Some _ => true
  | None => false
  end.

Definition addEvent (message : string) (c : Clock) (st : State) : State :=
  setEvents (firstn 20 (mkEvent message (now c) :: events st)) st.

Definition updateEmotion (stats : PetStats) (sleeping : bool) : Emotion :=
  if sleeping then Dashboard.sleeping
  else if JS.geb (happiness stats) 80 then happy
  else if JS.geb (happiness stats) 50 then okay
  else if JS.geb (happiness stats) 20 then sad
  else grumpy.

Definition setStats (s : PetStats) (e : Emotion) (st : State) : State :=
  setPet (mkPet (type (pet st)) (name (pet st)) s e) st.

(** *** The sleep cycle *)

Definition shouldBeSleeping (h : SleepHours) (currentHour : Z) : bool :=
  if (sleep_start h >? sleep_end h)%Z
  then (currentHour >=? sleep_start h)%Z || (currentHour <? sleep_end h)%Z
  else (currentHour >=? sleep_start h)%Z && (currentHour <? sleep_end h)%Z.

Definition checkSleepCycle (c : Clock) (st : State) : State :=
  let currentHour := getHours c in
  let should := shouldBeSleeping (sleepHours (petConfig st)) currentHour in
  if should && negb (isSleeping st) then
    addEvent (name (pet st) +++ " fell asleep") c (setIsSleeping true st)
  else if negb should && isSleeping st then
    addEvent (name (pet st) +++ " woke up!") c (setIsSleeping false st)
  else st.

(** *** The decay clock *)

Definition isDaytime (h : SleepHours) (c : Clock) : bool :=
  let totalMinutesFromMidnight := (getHours c * 60 + getMinutes c)%Z in
  let sleepStartMinutes := (sleep_start h * 60)%Z in
  let sleepEndMinutes := (sleep_end h * 60)%Z in
  if (sleep_start h >? sleep_end h)%Z
  then (totalMinutesFromMidnight <? sleepStartMinutes)%Z
       && (totalMinutesFromMidnight >=? sleepEndMinutes)%Z
  else (totalMinutesFromMidnight >=? sleepEndMinutes)%Z
       && (totalMinutesFromMidnight <? sleepStartMinutes)%Z.

(** [newStats] of the awake branch. *)
Definition awakeStats (cfg : PetConfig) (daytime : bool)
    (minutesSinceRest : Q) (s : PetStats) : PetStats :=
  let hungerMultiplier := if JS.ltb (hunger s) 25 then 1.5 else 1 in
  let hygieneMultiplier := if JS.ltb (hygiene s) 40 then 1.5 else 1 in
  let decay := decayRates cfg in
  let energyChange :=
    if daytime then - (1 / decay_energy decay) * 0.5
    else JS.Math_min 2 (minutesSinceRest / 10) in
  mkStats
    (JS.Math_max 0 (hunger s - (1 / decay_hunger decay) * 0.5))
    (JS.Math_max 0
       (happiness s
        - ((1 / decay_happiness decay) * 0.5 * hungerMultiplier
           * hygieneMultiplier)))
    (JS.Math_max 0 (hygiene s - (1 / (decay_hygiene decay * 2)) * 0.5))
    (JS.Math_min 100 (JS.Math_max 0 (energy s + energyChange)))
    (JS.Math_max 0 (thirst s - (1 / decay_thirst decay) * 0.5)).

Definition totalSleepMinutes (h : SleepHours) : Z :=
  let sleepDuration :=
    if (sleep_start h >? sleep_end h)%Z
    then (24 - sleep_start h + sleep_end h)%Z
    else (sleep_end h - sleep_start h)%Z in
  (sleepDuration * 60)%Z.

(** [newStats] of the asleep branch. *)
Definition asleepStats (cfg : PetConfig) (s : PetStats) : PetStats :=
  let totalSleepMinutes := inject_Z (totalSleepMinutes (sleepHours cfg)) in
  let hungerAtSleep := hunger s in
  let targetHungerByMorning := 20 in
  let hungerDecayRate :=
    JS.Math_max 0
      ((hungerAtSleep - targetHungerByMorning) / totalSleepMinutes) in
  let decay := decayRates cfg in
  mkStats
    (JS.Math_max 20 (hunger s - (hungerDecayRate * 0.5)))
    (JS.Math_max 0
       (happiness s - ((1 / decay_happiness decay) * 0.5 * 0.3)))
    (JS.Math_max 0
       (hygiene s - ((1 / (decay_hygiene decay * 2)) * 0.5 * 0.5)))
    (JS.Math_min 100 (energy s + 0.8))
    (JS.Math_max 15
       (thirst s - ((thirst s - 15) / totalSleepMinutes * 0.5))).

(** The body of [decayInterval]. *)
Definition decayInterval (c : Clock) (st : State) : State :=
  let cfg := petConfig st in
  if negb (isActive st) && negb (isSleeping st) then
    let timeSinceLastRest := (now c - lastRestTime st)%Z in
    let minutesSinceRest := inject_Z timeSinceLastRest / (1000 * 60) in
    let newStats :=
      awakeStats cfg (isDaytime (sleepHours cfg) c) minutesSinceRest
        (stats (pet st)) in
    setLastRestTime (now c)
      (setStats newStats (updateEmotion newStats (isSleeping st)) st)
  else if isSleeping st then
    let newStats := asleepStats cfg (stats (pet st)) in
    setStats newStats (updateEmotion newStats true) st
  else st.

(** *** Timers *)

(** [setTimeout(callback, delay)]; returns the timer handle. *)
Definition setTimeout (cb : TimeoutCallback) (delay : Q) (st : State)
    : nat * State :=
  let id := nextTimerId st in
  (id,
   setNextTimerId (S id)
     (setTimeouts (timeouts st ++ [mkTimeout id delay cb]) st)).

Definition clearTimeout (id : nat) (st : State) : State :=
  setTimeouts
    (filter (fun t => negb (Nat.eqb (timeout_id t) id)) (timeouts st)) st.

Definition clearInterval (id : nat) (st : State) : State :=
  setIntervals
    (filter (fun r => negb (Nat.eqb (run_id r) id)) (intervals st)) st.

(** [if (cond) eventTimers.push(setTimeout(cb, delay))]. *)
Definition pushTimeoutIf (cond : bool) (cb : TimeoutCallback) (delay : Q)
    (acc : list nat * State) : list nat * State :=
  if cond then
    let (id, st') := setTimeout cb delay (snd acc) in
    (fst acc ++ [id], st')
  else acc.

(** The body of a timeout callback. *)
Definition runTimeout (cb : TimeoutCallback) (c : Clock) (st : State)
    : State :=
  let s := stats (pet st) in
  match cb with
  | HappinessBonus msg amount =>
      let st := addEvent msg c st in
      setStats
        (mkStats (hunger s) (JS.Math_min 100 (happiness s + amount))
           (hygiene s) (energy s) (thirst s))
        (emotion (pet st)) st
  | HygieneMess msg loss =>
      let st := addEvent msg c st in
      setStats
        (mkStats (hunger s) (happiness s)
           (JS.Math_max 0 (hygiene s - loss)) (energy s) (thirst s))
        (emotion (pet st)) st
  | ToyPenalty hasToy petName =>
      if negb hasToy then
        let st :=
          setStats
            (mkStats (hunger s) (JS.Math_max 0 (happiness s - 30))
               (hygiene s) (energy s) (thirst s))
            (emotion (pet st)) st in
        addEvent (petName +++ " is sad without a toy. -30 Happiness") c st
      else st
  end.

(** *** handleAction and the countdown *)

(** [extraEffects()], run when the countdown reaches zero. *)
Definition runExtraEffects (e : ExtraEffects) (c : Clock) (st : State)
    : State :=
  match e with
  | NoEffects => st
  | FeedDone => setFeedCount (feedCount st + 1) st
  | ExerciseDone eventTimers label petName =>
      let st := fold_left (fun s t => clearTimeout t s) eventTimers st in
      let st := setLastWalkTime (now c) st in
      addEvent (petName +++ " is back from " +++ label) c st
  | PlayDone eventTimers toyBreaks hasToy petName =>
      let st := fold_left (fun s t => clearTimeout t s) eventTimers st in
      if toyBreaks then
        let st := setHasToy false st in
        let st :=
          addEvent
            "The toy broke! Buy a new one or happiness will drop!" c st in
        snd (setTimeout (ToyPenalty hasToy petName) (60 * 60 * 1000) st)
      else st
  | BuyToyDone =>
      let st := setHasToy true st in
      addEvent "Got a new toy!" c st
  | BathDone => setLastBathTime (now c) st
  | VetDone petName =>
      addEvent (petName +++ " got a checkup! All healthy!") c st
  | GroomDone finishLabel petName =>
      let st := setLastTrimNailsTime (now c) st in
      addEvent (petName +++ "'s " +++ finishLabel +++ "!") c st
  end.

Definition handleAction (action : string) (cost duration : Z)
    (statChanges : StatChanges) (extraEffects : ExtraEffects)
    (c : Clock) (st : State) : State :=
  let st := setActiveAction (Some action) st in
  let st := setActionTimer duration st in
  let st := setTotalSpent (totalSpent st + cost) st in
  let st :=
    if (cost >? 0)%Z then
      addEvent
        ("Spent $" +++ JS.string_of_Z cost +++ " on "
         +++ JS.toLowerCase action) c st
    else st in
  let id := nextTimerId st in
  setNextTimerId (S id)
    (setIntervals
       (intervals st ++ [mkRun id action statChanges extraEffects]) st).

(** One firing of the one-second countdown of run [r]. *)
Definition countdown (r : ActionRun) (c : Clock) (st : State) : State :=
  if (actionTimer st <=? 1)%Z then
    let st := clearInterval (run_id r) st in
    let st := setActiveAction None st in
    let newStats := applyChanges (stats (pet st)) (run_statChanges r) in
    let st := setStats newStats (updateEmotion newStats false) st in
    let st := runExtraEffects (run_extraEffects r) c st in
    let st :=
      addEvent ("Finished " +++ JS.toLowerCase (run_action r)) c st in
    setActionTimer 0 st
  else setActionTimer (actionTimer st - 1) st.

(** *** The action buttons *)

Inductive ActionKind : Type :=
  Feed | Water | Exercise | Play | BuyToy | Bath | VetVisit | Grooming.

Definition isDog (st : State) : bool := String.eqb (type (pet st)) "dog".

(** The [cost] expression of the Feed button, also used by its handler. *)
Definition feedCost (st : State) : Z :=
  if isDog st then (if (feedCount st >=? 120)%Z then 25 else 0)%Z
  else feed_cost (feed (actions (petConfig st))).

(** The [disabled] attribute of each button. *)
Definition disabled (k : ActionKind) (st : State) : bool :=
  let a := actions (petConfig st) in
  let s := stats (pet st) in
  match k with
  | Feed =>
      isActive st || isSleeping st
      || JS.geb (hunger s) (feed_triggerThreshold (feed a))
  | Water =>
      isActive st || isSleeping st
      || JS.geb (thirst s) (water_triggerThreshold (water a))
  | Exercise =>
      isActive st || isSleeping st
      || JS.ltb (energy s) (exercise_minEnergy (exercise a))
      || ((lastWalkTime st >? 0)%Z
          && match walkCountdown st with Some _ => true | None => false end)
  | Play =>
      isActive st || isSleeping st
      || JS.ltb (energy s) (play_minEnergy (play a))
      || (play_requiresToy (play a) && negb (hasToy st))
  | BuyToy => isActive st || isSleeping st || hasToy st
  | Bath =>
      isActive st || isSleeping st
      || JS.geb (hygiene s) (wash_triggerThreshold (bath a))
  | VetVisit => isActive st || isSleeping st
  | Grooming =>
      isActive st || isSleeping st
      || JS.geb (hygiene s) (wash_triggerThreshold (grooming a))
  end.

(** [x ? Math.abs(x) : 0] for an optional and for a mandatory delta. *)
Definition absIfSet (o : option Q) : Q :=
  if JS.truthy o then JS.Math_abs (JS.num o) else 0.

Definition absIfNonzero (x : Q) : Q :=
  if JS.truthy (Some x) then JS.Math_abs x else 0.

(** [if (x > 0) statChanges.f = v]. *)
Definition whenPositive (x v : Q) : option Q :=
  if JS.ltb 0 x then Some v else None.

(** [if (delta) statChanges.f = v]. *)
Definition whenSet (delta : option Q) (v : Q) : option Q :=
  if JS.truthy delta then Some v else None.

Definition onFeed (c : Clock) (st : State) : State :=
  let feed := feed (actions (petConfig st)) in
  let s := stats (pet st) in
  let isDogNeedsRestock := isDog st && (feedCount st >=? 120)%Z in
  let feedCost := feedCost st in
  let feedDuration :=
    if isDogNeedsRestock then (5 + 60)%Z else feed_duration feed in
  let statChanges :=
    mkChanges
      (Some (JS.Math_min 100 (hunger s + feed_hunger feed)))
      (whenSet (feed_happiness feed)
         (JS.Math_min 100 (happiness s + JS.num (feed_happiness feed))))
      None
      (whenSet (feed_energy feed)
         (JS.Math_min 100 (energy s + JS.num (feed_energy feed))))
      None in
  handleAction
    (if isDogNeedsRestock then "Getting food & Feeding" else "Feeding")
    feedCost feedDuration statChanges
    (if isDog st then FeedDone else NoEffects) c st.

Definition onWater (c : Clock) (st : State) : State :=
  let water := water (actions (petConfig st)) in
  let s := stats (pet st) in
  let statChanges :=
    mkChanges None
      (whenSet (water_happiness water)
         (JS.Math_min 100 (happiness s + JS.num (water_happiness water))))
      None None
      (Some (JS.Math_min 100 (thirst s + water_thirst water))) in
  handleAction "Giving Water" (water_cost water) (water_duration water)
    statChanges NoEffects c st.

(** [actionLabels[pet.type] || "exercise"]. *)
Definition exerciseLabel (type : string) : string :=
  if String.eqb type "dog" then "walk"
  else if String.eqb type "cat" then "play session"
  else if String.eqb type "parrot" then "flight"
  else if String.eqb type "rabbit" then "run"
  else "exercise".

(** [eventMessages[pet.type] || eventMessages.dog]. *)
Definition exerciseMessages (type name : string) : string * string * string :=
  if String.eqb type "cat" then
    (name +++ " caught a toy! +10 Happiness",
     name +++ " is having fun! +15 Happiness",
     name +++ " got a bit messy. -5 Hygiene")
  else if String.eqb type "parrot" then
    (name +++ " flew beautifully! +10 Happiness",
     name +++ " is exploring! +15 Happiness",
     name +++ " needs a quick preen. -5 Hygiene")
  else if String.eqb type "rabbit" then
    (name +++ " hopped around happily! +10 Happiness",
     name +++ " is full of energy! +15 Happiness",
     name +++ " got a bit dirty. -8 Hygiene")
  else
    (name +++ " found a stick! +10 Happiness",
     name +++ " met another dog! +15 Happiness",
     name +++ " stepped in mud! -10 Hygiene").

(** The exercise handler; [rnd i] is the value of the [i]-th call of
    [Math.random()].  Every message is a non-empty string, so the
    [&& messages[i]] guards are always true. *)
Definition onExercise (rnd : nat -> Q) (c : Clock) (st : State) : State :=
  let exercise := exercise (actions (petConfig st)) in
  let p := pet st in
  let s := stats p in
  let energyCost := JS.Math_abs (exercise_energy exercise) in
  let hygieneLoss := absIfSet (exercise_hygiene exercise) in
  let happinessGain := exercise_happiness exercise in
  let thirstDecrease := absIfNonzero (exercise_thirst exercise) in
  let hungerDecrease := absIfNonzero (exercise_hunger exercise) in
  let label := exerciseLabel (type p) in
  let st := addEvent (name p +++ " is going on a " +++ label) c st in
  let '(m0, m1, m2) := exerciseMessages (type p) (name p) in
  let duration := inject_Z (exercise_duration exercise) in
  let acc := ([], st) in
  let acc :=
    pushTimeoutIf (JS.ltb (rnd 0%nat) 0.10) (HappinessBonus m0 10)
      (duration * 0.4) acc in
  let acc :=
    pushTimeoutIf (JS.ltb (rnd 1%nat) 0.08) (HappinessBonus m1 15)
      (duration * 0.6) acc in
  let acc :=
    pushTimeoutIf (JS.ltb (rnd 2%nat) 0.12)
      (HygieneMess m2 (JS.or_default (Some hygieneLoss) 5))
      (duration * 0.5) acc in
  let '(eventTimers, st) := acc in
  let statChanges :=
    mkChanges
      (whenPositive hungerDecrease
         (JS.Math_max 0 (hunger s - hungerDecrease)))
      (Some (JS.Math_min 100 (happiness s + happinessGain)))
      (whenPositive hygieneLoss (JS.Math_max 0 (hygiene s - hygieneLoss)))
      (Some (JS.Math_max 0 (energy s - energyCost)))
      (whenPositive thirstDecrease
         (JS.Math_max 0 (thirst s - thirstDecrease))) in
  handleAction
    (if String.eqb (type p) "dog" then "Walking"
     else if String.eqb (type p) "cat" then "Playing"
     else if String.eqb (type p) "parrot" then "Flying"
     else "Running")
    (exercise_cost exercise) (exercise_duration exercise) statChanges
    (ExerciseDone eventTimers label (name p)) c st.

Definition onPlay (rnd : nat -> Q) (c : Clock) (st : State) : State :=
  let play := play (actions (petConfig st)) in
  let p := pet st in
  let s := stats p in
  let hasToy := hasToy st in
  let energyCost := JS.Math_abs (play_energy play) in
  let hygieneLoss := absIfSet (play_hygiene play) in
  let thirstDecrease := absIfNonzero (play_thirst play) in
  let hungerDecrease := absIfNonzero (play_hunger play) in
  let st := addEvent (name p +++ " is playing!") c st in
  let duration := inject_Z (play_duration play) in
  let acc := ([], st) in
  let acc :=
    pushTimeoutIf (JS.ltb (rnd 0%nat) 0.10)
      (HappinessBonus (name p +++ " is having great fun! +10 Happiness")
         10)
      (duration * 0.4) acc in
  let acc :=
    pushTimeoutIf (JS.ltb (rnd 1%nat) 0.08 && JS.ltb 0 hygieneLoss)
      (HygieneMess (name p +++ " got a bit messy.") hygieneLoss)
      (duration * 0.6) acc in
  let '(eventTimers, st) := acc in
  let toyBreaks := JS.ltb (rnd 2%nat) 0.10 && play_requiresToy play in
  let statChanges :=
    mkChanges
      (whenPositive hungerDecrease
         (JS.Math_max 0 (hunger s - hungerDecrease)))
      (Some (JS.Math_min 100 (happiness s + play_happiness play)))
      (whenPositive hygieneLoss (JS.Math_max 0 (hygiene s - hygieneLoss)))
      (Some (JS.Math_max 0 (energy s - energyCost)))
      (whenPositive thirstDecrease
         (JS.Math_max 0 (thirst s - thirstDecrease))) in
  handleAction "Playing" (play_cost play) (play_duration play) statChanges
    (PlayDone eventTimers toyBreaks hasToy (name p)) c st.

Definition onBuyToy (c : Clock) (st : State) : State :=
  let p := pet st in
  let s := stats p in
  let st := addEvent ("Buying a new toy for " +++ name p) c st in
  handleAction "Buying Toy" 15 (5 * 60)
    (mkChanges None (Some (JS.Math_min 100 (happiness s + 20))) None None
       None)
    BuyToyDone c st.

Definition washChanges (w : WashCfg) (s : PetStats) : StatChanges :=
  mkChanges None
    (whenSet (wash_happiness w)
       (JS.Math_max 0
          (JS.Math_min 100 (happiness s + JS.num (wash_happiness w)))))
    (Some (JS.Math_min 100 (hygiene s + wash_hygiene w)))
    None None.

Definition onBath (c : Clock) (st : State) : State :=
  let bath := bath (actions (petConfig st)) in
  let p := pet st in
  let actionLabel :=
    if String.eqb (type p) "parrot" then "Shower"
    else if String.eqb (type p) "rabbit" then "Spot Clean"
    else "Bath" in
  let st :=
    addEvent (name p +++ " is getting a " +++ JS.toLowerCase actionLabel)
      c st in
  handleAction actionLabel (wash_cost bath) (wash_duration bath)
    (washChanges bath (stats p)) BathDone c st.

Definition onVetVisit (c : Clock) (st : State) : State :=
  let vet := vetVisit (actions (petConfig st)) in
  let p := pet st in
  let s := stats p in
  let st := addEvent ("Taking " +++ name p +++ " to the vet") c st in
  handleAction "Vet Visit" (vet_cost vet) (vet_duration vet)
    (mkChanges None
       (Some (JS.Math_min 100 (happiness s + vet_happiness vet)))
       (Some (JS.Math_min 100 (hygiene s + vet_hygiene vet)))
       (Some (JS.Math_min 100 (energy s + vet_energy vet)))
       None)
    (VetDone (name p)) c st.

Definition onGrooming (c : Clock) (st : State) : State :=
  let grooming := grooming (actions (petConfig st)) in
  let p := pet st in
  let actionLabel :=
    if String.eqb (type p) "parrot" then "Trimming Beak/Claws"
    else if String.eqb (type p) "cat" then "Brushing"
    else if String.eqb (type p) "rabbit" then "Brushing"
    else "Trimming Nails" in
  let finishLabel :=
    if String.eqb (type p) "parrot" then "beak and claws are trimmed"
    else if String.eqb (type p) "cat" then "is brushed"
    else if String.eqb (type p) "rabbit" then "is brushed"
    else "nails are trimmed" in
  let st := addEvent (actionLabel +++ " " +++ name p) c st in
  handleAction actionLabel (wash_cost grooming) (wash_duration grooming)
    (washChanges grooming (stats p)) (GroomDone finishLabel (name p)) c st.

Definition onClick (k : ActionKind) (rnd : nat -> Q) (c : Clock)
    (st : State) : State :=
  match k with
  | Feed => onFeed c st
  | Water => onWater c st
  | Exercise => onExercise rnd c st
  | Play => onPlay rnd c st
  | BuyToy => onBuyToy c st
  | Bath => onBath c st
  | VetVisit => onVetVisit c st
  | Grooming => onGrooming c st
  end.

(** A click on an action button: a disabled button does not call its
    handler. *)
Definition attempt (k : ActionKind) (rnd : nat -> Q) (c : Clock)
    (st : State) : State :=
  if disabled k st then st else onClick k rnd c st.

(** *** Cooldown projection *)

(** The exercise part of [updateCountdowns]; the button gate reads the
    string it leaves in [walkCountdown], and only whether there is one.
    The digits of the label are computed here without the rounding of
    the code's doubles, which can print a neighbouring minute;
    [DashboardEffects.walkCountdownParts] writes the rounding out. *)
Definition updateCountdowns (c : Clock) (st : State) : State :=
  let config := actions (petConfig st) in
  let hoursSinceLastExercise :=
    inject_Z (now c - lastWalkTime st) / (1000 * 60 * 60) in
  if JS.geb hoursSinceLastExercise (exercise_cooldownHours (exercise config))
     || (lastWalkTime st =? 0)%Z
  then setWalkCountdown None st
  else
    let hoursUntilExercise :=
      exercise_cooldownHours (exercise config) - hoursSinceLastExercise in
    let hours := JS.Math_floor hoursUntilExercise in
    let minutes :=
      JS.Math_ceil ((hoursUntilExercise - inject_Z hours) * 60) in
    setWalkCountdown
      (Some
         (if (hours >? 0)%Z
          then JS.string_of_Z hours +++ "h " +++ JS.string_of_Z minutes
               +++ "m"
          else JS.string_of_Z minutes +++ "m"))
      st.

(** *** Persistence and offline catch-up *)

(** The stats of a parsed record; a record written before thirst existed
    has no [thirst] field. *)
Record SavedStats : Type := mkSavedStats {
  saved_hunger : Q;
  saved_happiness : Q;
  saved_hygiene : Q;
  saved_energy : Q;
  saved_thirst : option Q
}.

Record SavedData : Type := mkSaved {
  saved_type : string;
  saved_name : string;
  saved_stats : SavedStats;
  saved_emotion : Emotion;
  saved_totalSpent : Z;
  saved_events : list EventEntry;
  saved_hasToy : bool;
  saved_lastWalkTime : Z;
  saved_lastBathTime : Z;
  saved_lastTrimNailsTime : Z;
  saved_feedCount : Z;
  lastSaved : Z
}.

(** [dataToSave], as [JSON.parse] gives it back; [savedAt] is the time of
    the write. *)
Definition dataToSave (savedAt : Z) (st : State) : SavedData :=
  let s := stats (pet st) in
  mkSaved (type (pet st)) (name (pet st))
    (mkSavedStats (hunger s) (happiness s) (hygiene s) (energy s)
       (Some (thirst s)))
    (emotion (pet st)) (totalSpent st) (events st) (hasToy st)
    (lastWalkTime st) (lastBathTime st) (lastTrimNailsTime st)
    (feedCount st) savedAt.

Definition calculateDecay (c : Clock) (stat decayRate hours : Q) : Q :=
  let currentHour := getHours c in
  let isNighttime := (currentHour >=? 22)%Z || (currentHour <? 6)%Z in
  if isNighttime && (Qeq_bool decayRate 1 || Qeq_bool decayRate 0.5) then
    JS.Math_max 0 (stat - (decayRate * 0.2 * hours))
  else JS.Math_max 0 (stat - (decayRate * hours)).

(** [newStats] of the restore effect. *)
Definition catchUpStats (c : Clock) (saved : SavedStats) (hoursElapsed : Q)
    : PetStats :=
  mkStats
    (calculateDecay c (saved_hunger saved) 1 hoursElapsed)
    (calculateDecay c (saved_happiness saved) 0.5 hoursElapsed)
    (calculateDecay c (saved_hygiene saved) 0.3 hoursElapsed)
    (calculateDecay c (saved_energy saved) 0.4 hoursElapsed)
    (calculateDecay c (JS.or_default (saved_thirst saved) 80) 2
       hoursElapsed).

Definition minutesElapsed (c : Clock) (parsed : SavedData) : Q :=
  inject_Z (now c - lastSaved parsed) / (1000 * 60).

(** The restore effect, for a record that parsed.  [pet st] is still the
    [initialPet] the component was mounted with when it runs. *)
Definition restore (parsed : SavedData) (c : Clock) (st : State) : State :=
  let initialPet := pet st in
  if String.eqb (saved_name parsed) (name initialPet)
     && String.eqb (saved_type parsed) (type initialPet)
  then
    let minutesElapsed := minutesElapsed c parsed in
    let hoursElapsed := minutesElapsed / 60 in
    let newStats := catchUpStats c (saved_stats parsed) hoursElapsed in
    let st :=
      setPet
        (mkPet (saved_type parsed) (saved_name parsed) newStats
           (updateEmotion newStats false)) st in
    let st := setTotalSpent (saved_totalSpent parsed) st in
    let st := setEvents (saved_events parsed) st in
    let st := setHasToy (saved_hasToy parsed) st in
    let st := setLastWalkTime (saved_lastWalkTime parsed) st in
    let st := setLastBathTime (saved_lastBathTime parsed) st in
    let st := setLastTrimNailsTime (saved_lastTrimNailsTime parsed) st in
    let st := setFeedCount (saved_feedCount parsed) st in
    if JS.ltb 5 minutesElapsed then
      addEvent
        ("Welcome back! " +++ JS.string_of_Z (JS.Math_floor minutesElapsed)
         +++ " minutes have passed.") c st
    else st
  else st.

Definition handleInitialPurchaseComplete (cost : Z) (c : Clock)
    (st : State) : State :=
  let st := setTotalSpent (totalSpent st + cost) st in
  let st := setHasToy true st in
  addEvent ("Purchased all essentials for $" +++ JS.string_of_Z cost) c st.

(** *** Idle events *)

(** The callback of the idle-event interval, which runs every two minutes
    while the pet is awake and no action is active.  [rand] and [rand2]
    are the two results of [Math.random()], each in [0,1), so that the
    index into [idleEvents] is 0, 1 or 2. *)
Definition idleEvent (rand rand2 : Q) (c : Clock) (st : State) : State :=
  if JS.ltb rand 0.02 then
    if JS.ltb (happiness (stats (pet st))) 50 then
      addEvent (name (pet st) +++ " is waiting for attention 🥺") c st
    else
      let idleEvents :=
        [name (pet st) +++ " is napping peacefully 😴";
         name (pet st) +++ " barked at a sound 🐕";
         name (pet st) +++ " is watching you curiously 👀"] in
      addEvent
        (nth (Z.to_nat (JS.Math_floor (rand2 * 3))) idleEvents "undefined")
        c st
  else st.

(** *** The component as a state machine *)

(** The state of a freshly mounted component. *)
Definition mount (initialPet : Pet) (c : Clock) : State :=
  mkState initialPet 0 [] None 0 false (now c) None false 0 0 0 0 [] [] 0.

(** What can happen to a mounted component: a click, a timer firing (the
    countdown of an action, a scheduled sub-event, the decay tick, the
    sleep check, the countdown refresh, the idle-event interval with the
    two results of [Math.random()]), or one of the mount-time callbacks. *)
Inductive Event : Type :=
| Click (k : ActionKind) (rnd : nat -> Q)
| IntervalFire (id : nat)
| TimeoutFire (id : nat)
| DecayTick
| SleepCheck
| CountdownRefresh
| IdleTick (rand rand2 : Q)
| InitialPurchaseComplete (cost : Z)
| Restore (parsed : SavedData).

Definition handle (ev : Event) (c : Clock) (st : State) : State :=
  match ev with
  | Click k rnd => attempt k rnd c st
  | IntervalFire id =>
      match find (fun r => Nat.eqb (run_id r) id) (intervals st) with
      | Some r => countdown r c st
      | None => st
      end
  | TimeoutFire id =>
      match find (fun t => Nat.eqb (timeout_id t) id) (timeouts st) with
      | Some t => runTimeout (timeout_callback t) c (clearTimeout id st)
      | None => st
      end
  | DecayTick => decayInterval c st
  | SleepCheck => checkSleepCycle c st
  | CountdownRefresh => updateCountdowns c st
  | IdleTick rand rand2 =>
      (* the interval exists only while [isSleeping || activeAction] is
         false *)
      if isSleeping st || isActive st then st
      else idleEvent rand rand2 c st
  | InitialPurchaseComplete cost => handleInitialPurchaseComplete cost c st
  | Restore parsed => restore parsed c st
  end.

(** The dependency list of the countdown effect: it re-runs
    [updateCountdowns] after a render in which one of them changed. *)
Definition countdownDepsChanged (a b : State) : bool :=
  negb (Qeq_bool (hunger (stats (pet a))) (hunger (stats (pet b)))
        && Qeq_bool (thirst (stats (pet a))) (thirst (stats (pet b)))
        && (lastWalkTime a =? lastWalkTime b)%Z
        && (lastBathTime a =? lastBathTime b)%Z
        && (lastTrimNailsTime a =? lastTrimNailsTime b)%Z).

Definition step (ev : Event) (c : Clock) (st : State) : State :=
  let st' := handle ev c st in
  if countdownDepsChanged st st' then updateCountdowns c st' else st'.

Definition run (trace : list (Event * Clock)) (st : State) : State :=
  fold_left (fun s ec => step (fst ec) (snd ec) s) trace st.

Definition isRestore (ev : Event) : bool :=
  match ev with Restore _ => true | _ => false end.

(** The states the component can be in, when the records it restores are
    those an earlier session wrote and [accepts savedAt c] holds of the
    time [savedAt] stamped on the record and the clock [c] of the
    restore.  The restore effect itself compares nothing: [reachable]
    below accepts every record. *)
Inductive reachable_when (accepts : Z -> Clock -> Prop) : State -> Prop :=
| reach_mount (initialPet : Pet) (c : Clock) :
    stats_in_range (stats initialPet) ->
    reachable_when accepts (mount initialPet c)
| reach_step (ev : Event) (c : Clock) (st : State) :
    reachable_when accepts st ->
    isRestore ev = false ->
    reachable_when accepts (step ev c st)
| reach_restore (earlier : State) (savedAt : Z) (c : Clock) (st : State) :
    reachable_when accepts earlier ->
    reachable_when accepts st ->
    accepts savedAt c ->
    reachable_when accepts (step (Restore (dataToSave savedAt earlier)) c st).

(** Every state the component can reach: a record is restored whatever
    its time stamp, also one stamped later than the clock reads. *)
Definition reachable : State -> Prop := reachable_when (fun _ _ => True).

(** The states reached when no restored record is stamped later than the
    clock reads at the restore, so that no elapsed time is negative. *)
Definition reachable_on_time : State -> Prop :=
  reachable_when (fun savedAt c => (savedAt <= now c)%Z).

End Dashboard.

(** ** reportLogic.ts: averages and feedback; Report.tsx: grade colours *)

Module ReportFeedback.

Import ReportLogic.

Record StatHistoryEntry : Type := mkSnapshot { t : Z; stats : PetStats }.

(** [keyof PetStats]. *)
Inductive StatKey : Type :=
  KHunger | KHappiness | KHygiene | KEnergy | KThirst.

(** [stats[statKey]]. *)
Definition getStat (s : PetStats) (k : StatKey) : Q :=
  match k with
  | KHunger => hunger s
  | KHappiness => happiness s
  | KHygiene => hygiene s
  | KEnergy => energy s
  | KThirst => thirst s
  end.

Definition filterStatHistoryByRange (now : Z)
    (history : list StatHistoryEntry) (range : ReportTimeRange)
    : list StatHistoryEntry :=
  let start := getRangeStartMs now range in
  filter (fun h => (start <=? t h)%Z) history.

Definition getAverageStat (history : list StatHistoryEntry)
    (statKey : StatKey) (currentValue : Q) : Q :=
  match history with
  | [] => currentValue
  | _ =>
      let sum := fold_left (fun s h => s + getStat (stats h) statKey)
                   history 0 in
      inject_Z
        (JS.Math_round (sum / inject_Z (Z.of_nat (List.length history))))
  end.

(** [assessments[statName] ?? "Keep an eye on this."] and
    [tips[statName] ?? "Consistent care keeps stats healthy."], for a
    [statName] that is not a property every object inherits (such as
    [toString]); [counts] is a parameter the function never reads. *)
Definition getStatFeedback (statName : string) (value : Q)
    (counts : ActionCounts) : string * string :=
  let v := JS.Math_round value in
  let good := (v >=? 70)%Z in
  let low := (v <? 40)%Z in
  let pick (g l m : string) := if good then g else if low then l else m in
  let assessment :=
    if String.eqb statName "hunger" then
      pick "Well fed." "Often hungry. Feed more regularly."
        "Could eat sooner sometimes."
    else if String.eqb statName "thirst" then
      pick "Hydration on track." "Often thirsty. Offer water more often."
        "Keep water topped up."
    else if String.eqb statName "happiness" then
      pick "Pet is happy." "Pet is unhappy. More play and attention needed."
        "A bit more playtime would help."
    else if String.eqb statName "hygiene" then
      pick "Clean and groomed." "Hygiene is low. Bath/groom soon."
        "Consider a bath or groom soon."
    else if String.eqb statName "energy" then
      pick "Good energy levels."
        "Pet is tired. Rest and then gentle activity."
        "Balance activity with rest."
    else "Keep an eye on this." in
  let tip :=
    if String.eqb statName "hunger" then
      "Feed when hunger drops below ~35%. Dogs need meals ~twice a day."
    else if String.eqb statName "thirst" then
      "Water should be refilled when thirst is under 70%. Always have fresh water."
    else if String.eqb statName "happiness" then
      "Play, walks, and attention raise happiness. Neglect and low hunger/hygiene lower it."
    else if String.eqb statName "hygiene" then
      "Bath when hygiene is low; trim nails or brush per pet type on a schedule."
    else if String.eqb statName "energy" then
      "Sleep restores energy. Daytime activity drains it; don’t over-exercise when low."
    else "Consistent care keeps stats healthy." in
  (assessment, tip).

(** The [tips] of [getMoodFeedback]; its [summary] prints the happiness
    value and is not modelled. *)
Definition getMoodFeedback_tips (stats : PetStats) (counts : ActionCounts)
    : list string :=
  let tips := [] in
  let tips :=
    if (c_play counts <? 2)%Z && (c_walk counts <? 2)%Z
    then tips ++ ["Try more play sessions or walks to boost mood."]
    else tips in
  let tips :=
    if JS.ltb (hunger stats) 50
    then tips ++ ["Low hunger can make pets unhappy. Feed regularly."]
    else tips in
  let tips :=
    if JS.ltb (hygiene stats) 50
    then tips
         ++ ["Poor hygiene can affect mood. Schedule baths and grooming."]
    else tips in
  match tips with
  | [] =>
      ["Keep up the variety: feed, water, play, and walks all support happiness."]
  | _ => tips
  end.

Record Improvement : Type := mkImprovement { wrong : string; better : string }.

Definition hungerItem : Improvement :=
  mkImprovement "Hunger has been low and feeding has been infrequent."
    "Feed when hunger is below 35% and aim for at least two feeding times per day.".

Definition thirstItem : Improvement :=
  mkImprovement "Thirst has been low; water wasn’t offered often enough."
    "Refill water when thirst is under 70% and keep a consistent watering routine.".

Definition happinessItem : Improvement :=
  mkImprovement "Happiness is low and there’s been little play or exercise."
    "Add daily play and walks (or flight/runs for other pets) to keep your pet happy.".

Definition hygieneItem : Improvement :=
  mkImprovement "Hygiene is low with no recent bath or grooming."
    "Give a bath when hygiene drops and groom (brush/trim) on a regular schedule.".

Definition energyItem : Improvement :=
  mkImprovement "Energy has been very low."
    "Let your pet rest; avoid long activities until energy recovers (e.g. after sleep).".

Definition noIssueItem : Improvement :=
  mkImprovement "No major issues right now."
    "Keep up consistent feeding, water, play, and grooming to maintain this level.".

(** [if (cond) out.push(item)]. *)
Definition pushIf (cond : bool) (item : Improvement)
    (out : list Improvement) : list Improvement :=
  if cond then out ++ [item] else out.

Definition getImprovements (stats : PetStats) (counts : ActionCounts)
    : list Improvement :=
  let out := [] in
  let out :=
    pushIf (JS.ltb (hunger stats) 50 && (c_feed counts <? 3)%Z)
      hungerItem out in
  let out :=
    pushIf (JS.ltb (thirst stats) 50 && (c_water counts <? 3)%Z)
      thirstItem out in
  let out :=
    pushIf (JS.ltb (happiness stats) 60
            && (c_play counts + c_walk counts <? 2)%Z)
      happinessItem out in
  let out :=
    pushIf (JS.ltb (hygiene stats) 50 && (c_bath counts =? 0)%Z
            && (c_groom counts =? 0)%Z)
      hygieneItem out in
  let out := pushIf (JS.ltb (energy stats) 30) energyItem out in
  let out := match out with [] => [noIssueItem] | _ => out end in
  firstn 4 out.

Definition getMoodRatingFromHappiness (avgHappiness : Q) : string :=
  getGrade avgHappiness.

(** [gradeColor] of Report.tsx. *)
Definition gradeColor (grade : string) : string :=
  if String.prefix "A" grade then "text-primary"
  else if String.prefix "B" grade then "text-green-500"
  else if String.prefix "C" grade then "text-yellow-500"
  else if String.prefix "D" grade then "text-orange-500"
  else "text-destructive".

End ReportFeedback.

(** ** Dashboard.tsx: the effects the state machine above leaves out *)

Module DashboardEffects.

Import PetConfig Dashboard ReportFeedback.




(** *** Countdown labels

    The labels are the one place where the digits of a computed number
    are printed, so here the rounding of the code's double arithmetic is
    written out: [fl x] is the double that an arithmetic operation with
    exact result [x] returns.  Comparisons, [Math.floor], [Math.ceil] and
    [%] are exact on doubles. *)

(** What the statements assume of [fl], and rounding to nearest gives:
    it is monotone, and exact on the integers up to 2^53. *)
Definition rounding (fl : Q -> Q) : Prop :=
  (forall x y : Q, x <= y -> fl x <= fl y) /\
  (forall z : Z, (Z.abs z <= 2 ^ 53)%Z -> fl (inject_Z z) == inject_Z z).

(** [x % 60] for a number that is not negative. *)
Definition mod60 (x : Q) : Q := x - 60 * inject_Z (Qfloor (x / 60)).

(** The hours and minutes that the feed and water countdowns print, for a
    stat [value], its trigger [threshold] and its decay rate; [None] when
    the action is already due. *)
Definition needCountdown (fl : Q -> Q) (value threshold decayRate : Q)
    : option (Z * Z) :=
  if JS.ltb value threshold then None
  else
    let difference := fl (value - threshold) in
    let minutesUntil := fl (difference * decayRate) in
    let hours := JS.Math_floor (fl (minutesUntil / 60)) in
    let minutes := JS.Math_ceil (mod60 minutesUntil) in
    Some (hours, minutes).

(** [hours > 0 ? `${hours}h ${minutes}m` : `${minutes}m`]. *)
Definition showCountdown (hm : Z * Z) : string :=
  if (fst hm >? 0)%Z
  then JS.string_of_Z (fst hm) +++ "h " +++ JS.string_of_Z (snd hm) +++ "m"
  else JS.string_of_Z (snd hm) +++ "m".

Definition feedCountdown (fl : Q -> Q) (st : State) : option string :=
  option_map showCountdown
    (needCountdown fl (hunger (Dashboard.stats (pet st)))
       (feed_triggerThreshold (feed (actions (petConfig st))))
       (decay_hunger (decayRates (petConfig st)))).

Definition waterCountdown (fl : Q -> Q) (st : State) : option string :=
  option_map showCountdown
    (needCountdown fl (thirst (Dashboard.stats (pet st)))
       (water_triggerThreshold (water (actions (petConfig st))))
       (decay_thirst (decayRates (petConfig st)))).

(** The hours and minutes of the exercise countdown of
    [updateCountdowns]. *)
Definition walkCountdownParts (fl : Q -> Q) (c : Clock) (st : State)
    : option (Z * Z) :=
  let config := actions (petConfig st) in
  let hoursSinceLastExercise :=
    fl (inject_Z (now c - lastWalkTime st) / (1000 * 60 * 60)) in
  if JS.geb hoursSinceLastExercise (exercise_cooldownHours (exercise config))
     || (lastWalkTime st =? 0)%Z
  then None
  else
    let hoursUntilExercise :=
      fl (exercise_cooldownHours (exercise config)
          - hoursSinceLastExercise) in
    let hours := JS.Math_floor hoursUntilExercise in
    let minutes :=
      JS.Math_ceil (fl (fl (hoursUntilExercise - inject_Z hours) * 60)) in
    Some (hours, minutes).

End DashboardEffects.

(** ** Index.tsx: the stats a new pet starts with *)

Module Index.

Import PetConfig Dashboard.

Definition calculateInitialStats (type : string) (c : Clock) : PetStats :=
  let petConfig := petConfigs type in
  if String.eqb type "dog" then
    let currentHour := getHours c in
    let currentMinute := getMinutes c in
    let totalMinutesFromMidnight := (currentHour * 60 + currentMinute)%Z in
    let sixAM := 360%Z in
    let sevenAM := 420%Z in
    let eightAM := 480%Z in
    let sevenPM := 1140%Z in
    let tenPM := 1320%Z in
    let hunger :=
      if (totalMinutesFromMidnight <? sixAM)%Z then 25
      else if (totalMinutesFromMidnight <? eightAM)%Z then
        let minutesSinceSixAM := (totalMinutesFromMidnight - sixAM)%Z in
        let minutesUntilEightAM := (eightAM - sixAM)%Z in
        JS.Math_max 20
          (25 - (inject_Z minutesSinceSixAM / inject_Z minutesUntilEightAM
                 * 5))
      else if (totalMinutesFromMidnight <? sevenPM)%Z then
        let minutesSinceSevenAM := (totalMinutesFromMidnight - sevenAM)%Z in
        let decayRate := 6.75 in
        JS.Math_max 0 (90 - (inject_Z minutesSinceSevenAM / decayRate))
      else if (totalMinutesFromMidnight <? tenPM)%Z then
        let minutesSinceSevenPM := (totalMinutesFromMidnight - sevenPM)%Z in
        let decayRate := 6.75 in
        JS.Math_max 0 (90 - (inject_Z minutesSinceSevenPM / decayRate))
      else
        let minutesSinceTenPM := (totalMinutesFromMidnight - tenPM)%Z in
        let totalSleepMinutes := 480 in
        let hungerAtTenPM := 90 - (inject_Z (tenPM - sevenPM) / 6.75) in
        let hungerDecayDuringSleep :=
          (hungerAtTenPM - 20) / totalSleepMinutes in
        JS.Math_max 20
          (hungerAtTenPM
           - (inject_Z minutesSinceTenPM * hungerDecayDuringSleep)) in
    let energy :=
      if (totalMinutesFromMidnight >=? tenPM)%Z
         || (totalMinutesFromMidnight <? sixAM)%Z
      then
        let minutesIntoSleep :=
          if (totalMinutesFromMidnight >=? tenPM)%Z
          then (totalMinutesFromMidnight - tenPM)%Z
          else (totalMinutesFromMidnight + (1440 - tenPM))%Z in
        let totalSleepMinutes := 480 in
        let energyGainDuringSleep := 60 / totalSleepMinutes in
        JS.Math_min 85
          (25 + (inject_Z minutesIntoSleep * energyGainDuringSleep))
      else
        let minutesSinceSixAM := (totalMinutesFromMidnight - sixAM)%Z in
        let totalDayMinutes := 960 in
        let energyDrainRate := 60 / totalDayMinutes in
        JS.Math_max 25 (85 - (inject_Z minutesSinceSixAM * energyDrainRate))
    in
    mkStats (inject_Z (JS.Math_round hunger))
      (happiness (initialStats petConfig))
      (hygiene (initialStats petConfig))
      (inject_Z (JS.Math_round energy))
      (thirst (initialStats petConfig))
  else initialStats petConfig.

(** The pet [handlePetSelect] hands to the dashboard. *)
Definition handlePetSelect (type name : string) (c : Clock) : Pet :=
  mkPet type name (calculateInitialStats type c) happy.

End Index.

(** ** StatBar.tsx *)

Module StatBar.

Definition clampedValue (value : Q) : Q :=
  JS.Math_max 0 (JS.Math_min 100 value).

(** The percentage printed next to the bar. *)
Definition shownPercent (value : Q) : Z := JS.Math_round (clampedValue value).

End StatBar.

(** ** Predicates the statements below are written with *)

Module Contracts.

Import PetConfig Dashboard.

Definition opt_band (o : option Q) : Prop :=
  match o with Some v => in_band v | None => True end.

Definition opt_nonneg (o : option Q) : Prop :=
  match o with Some v => 0 <= v | None => True end.

Definition changes_in_range (c : StatChanges) : Prop :=
  opt_band (ch_hunger c) /\ opt_band (ch_happiness c) /\
  opt_band (ch_hygiene c) /\ opt_band (ch_energy c) /\
  opt_band (ch_thirst c).

Definition callback_ok (cb : TimeoutCallback) : Prop :=
  match cb with
  | HappinessBonus _ amount => 0 <= amount
  | HygieneMess _ loss => 0 <= loss
  | ToyPenalty _ _ => True
  end.

(** The stats are in range, and so is everything a pending countdown or
    timeout is going to write into them. *)
Definition stats_invariant (st : State) : Prop :=
  stats_in_range (stats (pet st)) /\
  Forall (fun r => changes_in_range (run_statChanges r)) (intervals st) /\
  Forall (fun t => callback_ok (timeout_callback t)) (timeouts st).

(** At most one countdown runs, and one runs exactly while an action is
    shown as active. *)
Definition run_invariant (st : State) : Prop :=
  (List.length (intervals st) <= 1)%nat /\
  (isActive st = true <-> intervals st <> []).

(** The sign conventions the four profiles follow: rates are positive,
    the sleep window is not empty, and the deltas of feeding, watering,
    washing and the vet are gains. *)
Definition profile_ok (cfg : PetConfig) : Prop :=
  let d := decayRates cfg in
  let a := actions cfg in
  (0 <= decay_hunger d /\ 0 <= decay_happiness d /\ 0 <= decay_hygiene d
   /\ 0 <= decay_thirst d) /\
  1 <= inject_Z (totalSleepMinutes (sleepHours cfg)) /\
  (0 <= feed_hunger (feed a) /\ opt_nonneg (feed_happiness (feed a))
   /\ opt_nonneg (feed_energy (feed a))) /\
  (0 <= water_thirst (water a) /\ opt_nonneg (water_happiness (water a))) /\
  0 <= exercise_happiness (exercise a) /\
  0 <= play_happiness (play a) /\
  0 <= wash_hygiene (bath a) /\
  0 <= wash_hygiene (grooming a) /\
  (0 <= vet_hygiene (vetVisit a) /\ 0 <= vet_happiness (vetVisit a)
   /\ 0 <= vet_energy (vetVisit a)).

(** The [cost] attribute of each button. *)
Definition buttonCost (k : ActionKind) (st : State) : Z :=
  let a := actions (petConfig st) in
  match k with
  | Feed => feedCost st
  | Water => water_cost (water a)
  | Exercise => exercise_cost (exercise a)
  | Play => play_cost (play a)
  | BuyToy => 15
  | Bath => wash_cost (bath a)
  | VetVisit => vet_cost (vetVisit a)
  | Grooming => wash_cost (grooming a)
  end.

(** The duration each handler passes to [handleAction]. *)
Definition actionDuration (k : ActionKind) (st : State) : Z :=
  let a := actions (petConfig st) in
  match k with
  | Feed =>
      if isDog st && (feedCount st >=? 120)%Z then (5 + 60)%Z
      else feed_duration (feed a)
  | Water => water_duration (water a)
  | Exercise => exercise_duration (exercise a)
  | Play => play_duration (play a)
  | BuyToy => (5 * 60)%Z
  | Bath => wash_duration (bath a)
  | VetVisit => vet_duration (vetVisit a)
  | Grooming => wash_duration (grooming a)
  end.

(** The preconditions of an attempt, as the buttons test them.  The
    exercise cooldown is read off the countdown string that
    [updateCountdowns] last left behind; the bath and grooming cooldowns
    are not tested. *)
Definition precondition_fails (k : ActionKind) (st : State) : Prop :=
  let a := actions (petConfig st) in
  let s := stats (pet st) in
  isActive st = true \/ isSleeping st = true \/
  match k with
  | Feed => feed_triggerThreshold (feed a) <= hunger s
  | Water => water_triggerThreshold (water a) <= thirst s
  | Exercise =>
      energy s < exercise_minEnergy (exercise a) \/
      ((0 < lastWalkTime st)%Z /\ walkCountdown st <> None)
  | Play =>
      energy s < play_minEnergy (play a) \/
      (play_requiresToy (play a) = true /\ hasToy st = false)
  | BuyToy => hasToy st = true
  | Bath => wash_triggerThreshold (bath a) <= hygiene s
  | VetVisit => False
  | Grooming => wash_triggerThreshold (grooming a) <= hygiene s
  end.

(** The spec's preconditions of an exercise attempt at time [c]: no action
    in progress, not asleep, enough energy, and the cooldown since
    [lastWalkTime] has elapsed. *)
Definition spec_exercise_ready (c : Clock) (st : State) : Prop :=
  let ex := exercise (actions (petConfig st)) in
  isActive st = false /\ isSleeping st = false /\
  exercise_minEnergy ex <= energy (stats (pet st)) /\
  (lastWalkTime st = 0%Z \/
   exercise_cooldownHours ex
   <= inject_Z (now c - lastWalkTime st) / (1000 * 60 * 60)).

(** [n] ticks of the awake branch, 30 seconds apart, under one reading of
    the clock.  The ticks are iterated in exact arithmetic, while the
    code's doubles round at every tick; what is stated of a run of
    several ticks is therefore how one tick follows from the one before,
    or an inequality that holds with a margin. *)
Fixpoint awakeTicks (n : nat) (cfg : PetConfig) (daytime : bool)
    (minutesSinceRest : Q) (s : PetStats) : PetStats :=
  match n with
  | O => s
  | S m =>
      awakeStats cfg daytime minutesSinceRest
        (awakeTicks m cfg daytime minutesSinceRest s)
  end.

(** The hours that [n] ticks span. *)
Definition hoursOfTicks (n : nat) : Q := inject_Z (Z.of_nat n) / 120.

(** The factor the catch-up applies to the hunger and happiness rates:
    0.2 when the hour of the restore is in [22, 6). *)
Definition nightFactor (c : Clock) : Q :=
  if (getHours c >=? 22)%Z || (getHours c <? 6)%Z then 0.2 else 1.

(** A stat vector as it is found in a saved record. *)
Definition savedOf (s : PetStats) : SavedStats :=
  mkSavedStats (hunger s) (happiness s) (hygiene s) (energy s)
    (Some (thirst s)).

(** [st0] is [st] after a handler has logged its opening event and
    scheduled its sub-events: only [events], [timeouts] and the timer
    counter may differ. *)
Definition prelude_of (st0 st : State) : Prop :=
  pet st0 = pet st /\ totalSpent st0 = totalSpent st /\
  intervals st0 = intervals st /\ isSleeping st0 = isSleeping st /\
  hasToy st0 = hasToy st /\ feedCount st0 = feedCount st /\
  activeAction st0 = activeAction st /\
  lastWalkTime st0 = lastWalkTime st /\
  lastBathTime st0 = lastBathTime st /\
  lastTrimNailsTime st0 = lastTrimNailsTime st /\
  walkCountdown st0 = walkCountdown st /\
  (Forall (fun t => callback_ok (timeout_callback t)) (timeouts st) ->
   Forall (fun t => callback_ok (timeout_callback t)) (timeouts st0)).

End Contracts.

(** ** Concrete pets, clocks and traces used in the statements below *)

Module Scenarios.

Import PetConfig Dashboard.

(** A dog whose five stats are all at 50. *)
Definition rex : Pet := mkPet "dog" "Rex" (mkStats 50 50 50 50 50) happy.

(** Local time 12:00, [ms] milliseconds after the epoch. *)
Definition noonAt (ms : Z) : Clock := mkClock ms 12 0.

(** Local time 23:00. *)
Definition lateAt (ms : Z) : Clock := mkClock ms 23 0.

Definition allTen : PetStats := mkStats 10 10 10 10 10.

Definition allFifty : PetStats := mkStats 50 50 50 50 50.

(** One vet visit and nothing else. *)
Definition vetOnly : ActionCounts := mkCounts 0 0 0 0 0 1 0.

Definition day : Z := 24 * 60 * 60 * 1000.

(** Feed, water, play and bath, each leaving one event in the last day;
    an older walk lies outside the one-day range. *)
Definition careLog (now : Z) : list EventEntry :=
  [ mkEvent "Finished bath" (now - 1000);
    mkEvent "Finished playing" (now - 2000);
    mkEvent "Finished giving water" (now - 3000);
    mkEvent "Finished feeding" (now - 4000);
    mkEvent "Finished walking" (now - 3 * day) ].

(** Every call of [Math.random()] returns 0.5: no sub-event, no broken
    toy. *)
Definition calm (i : nat) : Q := 0.5.

(** The third call of [Math.random()] returns 0.05: the toy breaks. *)
Definition toyBreaking (i : nat) : Q :=
  match i with 2%nat => 0.05 | _ => 0.5 end.

(** The five one-second firings of countdown [id], starting at [ms]. *)
Definition fiveSeconds (id : nat) (ms : Z) : list (Event * Clock) :=
  [ (IntervalFire id, noonAt (ms + 1000));
    (IntervalFire id, noonAt (ms + 2000));
    (IntervalFire id, noonAt (ms + 3000));
    (IntervalFire id, noonAt (ms + 4000));
    (IntervalFire id, noonAt (ms + 5000)) ].

Definition hour : Z := 60 * 60 * 1000.

(** Rex is walked at time 0; the walk ends at 5 s.  The cooldown
    projection is refreshed ten seconds before the twelve-hour cooldown
    runs out, and not again so far. *)
Definition walkedTwelveHoursAgo : State :=
  run ((Click Exercise calm, noonAt 0)
       :: fiveSeconds 0 0
       ++ [(CountdownRefresh, noonAt (5000 + 12 * hour - 10000))])
      (mount rex (noonAt 0)).

(** Five seconds after the cooldown ran out. *)
Definition fiveSecondsLate : Clock := noonAt (5000 + 12 * hour + 5000).

(** Rex gets his toy with the initial purchase and plays; the toy breaks
    when the play session ends. *)
Definition toyJustBroke : State :=
  run ((InitialPurchaseComplete 100, noonAt 0)
       :: (Click Play toyBreaking, noonAt 0)
       :: fiveSeconds 0 0)
      (mount rex (noonAt 0)).

(** A dog at thirst 30 is walked; the walk costs 35 thirst. *)
Definition parched : State :=
  run ((Click Exercise calm, noonAt 0) :: fiveSeconds 0 0)
      (mount (mkPet "dog" "Rex" (mkStats 50 50 50 50 30) happy) (noonAt 0)).

(** A hungry dog that has been fed 120 times. *)
Definition restockDue : State :=
  setFeedCount 120
    (mount (mkPet "dog" "Rex" (mkStats 20 50 50 50 50) sad) (noonAt 0)).

(** A hungry dog is fed when the clock reads nine hours; the meal ends
    five seconds later and leaves hunger at 100. *)
Definition justFed : State :=
  run ((Click Feed calm, noonAt (9 * hour)) :: fiveSeconds 0 (9 * hour))
      (mount (mkPet "dog" "Rex" (mkStats 20 50 50 50 50) sad)
         (noonAt (9 * hour))).

(** The record of [justFed], stamped at the end of the meal, is restored
    by a session that starts when the clock reads five seconds: the clock
    was set back by nine hours in between. *)
Definition restoredAheadOfClock : State :=
  step (Restore (dataToSave (9 * hour + 5000) justFed)) (noonAt 5000)
    (mount rex (noonAt 5000)).

End Scenarios.

(** ** Further predicates and scenarios *)

Module Observations.

Import ReportLogic PetConfig Dashboard Contracts Scenarios.

(** What one step may do to the identity of the pet and to the event
    log: the type and name stay, and the log is either untouched or has
    just been cut to its first 20 entries. *)
Definition log_capped (st' st : State) : Prop :=
  events st' = events st \/ exists l, events st' = firstn 20 l.

Definition same_pet (st' st : State) : Prop :=
  type (pet st') = type (pet st) /\ name (pet st') = name (pet st).

(** [n] firings of the one-second countdown [id]; [clock i] is the time of
    firing number [i]. *)
Fixpoint fires (n : nat) (id : nat) (clock : nat -> Clock) (st : State)
    : State :=
  match n with
  | O => st
  | S m => step (IntervalFire id) (clock m) (fires m id clock st)
  end.

(** Field-wise sum of two count records. *)
Definition addCounts (a b : ActionCounts) : ActionCounts :=
  mkCounts (c_feed a + c_feed b) (c_water a + c_water b)
    (c_walk a + c_walk b) (c_play a + c_play b) (c_bath a + c_bath b)
    (c_vet a + c_vet b) (c_groom a + c_groom b).

(** Every count of [b] is at least the one of [a] and at most [n] more. *)
Definition counts_within (a b : ActionCounts) (n : Z) : Prop :=
  (c_feed a <= c_feed b <= c_feed a + n)%Z /\
  (c_water a <= c_water b <= c_water a + n)%Z /\
  (c_walk a <= c_walk b <= c_walk a + n)%Z /\
  (c_play a <= c_play b <= c_play a + n)%Z /\
  (c_bath a <= c_bath b <= c_bath a + n)%Z /\
  (c_vet a <= c_vet b <= c_vet a + n)%Z /\
  (c_groom a <= c_groom b <= c_groom a + n)%Z.

(** The three bands of [getStatFeedback], cut on the value before
    rounding. *)
Inductive Band : Type := Good | Middling | Low.

Definition bandOf (value : Q) : Band :=
  if JS.geb value (139 # 2) then Good
  else if JS.ltb value (79 # 2) then Low
  else Middling.

(** The five tests of [getImprovements], in the order of the source. *)
Definition improvementTests (s : PetStats) (counts : ActionCounts)
    : list bool :=
  [JS.ltb (hunger s) 50 && (c_feed counts <? 3)%Z;
   JS.ltb (thirst s) 50 && (c_water counts <? 3)%Z;
   JS.ltb (happiness s) 60 && (c_play counts + c_walk counts <? 2)%Z;
   JS.ltb (hygiene s) 50 && (c_bath counts =? 0)%Z
     && (c_groom counts =? 0)%Z;
   JS.ltb (energy s) 30].

(** What [Date] guarantees of the local time. *)
Definition clock_of_day (c : Clock) : Prop :=
  (0 <= getHours c <= 23)%Z /\ (0 <= getMinutes c <= 59)%Z.

(** Local time 18:00. *)
Definition sixPM : Clock := mkClock 0 18 0.

(** The events whose handlers compute a new emotion. *)
Definition redrawsFace (ev : Event) : bool :=
  match ev with
  | DecayTick | IntervalFire _ | Restore _ => true
  | _ => false
  end.

(** A dog that fell asleep one second before its meal was done. *)
Definition asleepAtLastSecond : State :=
  setIsSleeping true
    (setActionTimer 1 (step (Click Feed calm) (noonAt 0) restockDue)).

(** Every count of [a] is at most the one of [b]. *)
Definition counts_le (a b : ActionCounts) : Prop :=
  (c_feed a <= c_feed b)%Z /\ (c_water a <= c_water b)%Z /\
  (c_walk a <= c_walk b)%Z /\ (c_play a <= c_play b)%Z /\
  (c_bath a <= c_bath b)%Z /\ (c_vet a <= c_vet b)%Z /\
  (c_groom a <= c_groom b)%Z.

(** Period [long] starts no later than period [short]. *)
Definition covers (now : Z) (long short : ReportTimeRange) : Prop :=
  (getRangeStartMs now long <= getRangeStartMs now short)%Z.

End Observations.

(** * Properties *)

Import PetConfig Dashboard Contracts Scenarios Observations.

(** ** Comparisons and clamps *)

Lemma geb_true (a b : Q) : JS.geb a b = true -> b <= a.
Proof. unfold JS.geb. apply Qle_bool_iff. Qed.

Lemma geb_false (a b : Q) : JS.geb a b = false -> a < b.
Proof.
  unfold JS.geb. intros H. apply Qnot_le_lt. intros L.
  apply Qle_bool_iff in L. congruence.
Qed.

Lemma ltb_true (a b : Q) : JS.ltb a b = true -> a < b.
Proof.
  unfold JS.ltb. intros H. apply negb_true_iff in H.
  now apply geb_false in H.
Qed.

Lemma ltb_false (a b : Q) : JS.ltb a b = false -> b <= a.
Proof.
  unfold JS.ltb. intros H. apply negb_false_iff in H.
  now apply geb_true in H.
Qed.

(** Turn every recorded outcome of a comparison into an inequality. *)
Ltac cmp_facts :=
  repeat match goal with
         | H : JS.geb _ _ = true |- _ => apply geb_true in H
         | H : JS.geb _ _ = false |- _ => apply geb_false in H
         | H : JS.ltb _ _ = true |- _ => apply ltb_true in H
         | H : JS.ltb _ _ = false |- _ => apply ltb_false in H
         end.

Lemma band_max_floor (f x d : Q) :
  in_band f -> in_band x -> 0 <= d -> in_band (JS.Math_max f (x - d)).
Proof.
  unfold in_band, JS.Math_max. intros [Hf0 Hf1] [Hx0 Hx1] Hd. split.
  - apply Qle_trans with f; [assumption | apply Q.le_max_l].
  - apply Q.max_lub; lra.
Qed.

Lemma band_max_zero (x d : Q) :
  in_band x -> 0 <= d -> in_band (JS.Math_max 0 (x - d)).
Proof. intros. apply band_max_floor; auto. unfold in_band. lra. Qed.

Lemma band_min_cap (x d : Q) :
  in_band x -> 0 <= d -> in_band (JS.Math_min 100 (x + d)).
Proof.
  unfold in_band, JS.Math_min. intros [Hx0 Hx1] Hd. split.
  - apply Q.min_glb; lra.
  - apply Q.le_min_l.
Qed.

Lemma band_min_max (y : Q) : in_band (JS.Math_min 100 (JS.Math_max 0 y)).
Proof.
  unfold in_band, JS.Math_min, JS.Math_max. split.
  - apply Q.min_glb; [lra | apply Q.le_max_l].
  - apply Q.le_min_l.
Qed.

Lemma band_max_min (y : Q) : in_band (JS.Math_max 0 (JS.Math_min 100 y)).
Proof.
  unfold in_band, JS.Math_min, JS.Math_max. split.
  - apply Q.le_max_l.
  - apply Q.max_lub; [lra | apply Q.le_min_l].
Qed.

Lemma half_rate_nonneg (r : Q) : 0 <= r -> 0 <= 1 / r * 0.5.
Proof.
  intros H. unfold Qdiv.
  assert (0 <= / r) by (apply Qinv_le_0_compat; assumption). nra.
Qed.

(** ** reportLogic.ts: grades *)

Ltac split_grade s :=
  unfold getGrade;
  repeat match goal with
         | |- context [JS.geb s ?t] => destruct (JS.geb s t) eqn:?
         end.

Lemma getGrade_rank_mono (s1 s2 : Q) :
  s1 <= s2 -> (gradeRank (getGrade s1) <= gradeRank (getGrade s2))%nat.
Proof.
  intros L. split_grade s1; split_grade s2; cmp_facts;
    first [ exfalso; lra | vm_compute; lia ].
Qed.

(** C5. The grade follows the threshold table row by row (the first
    threshold, from 97 down to 60, that the score reaches names the grade,
    and a score under 60 is an F); it never gets worse when the score
    grows; and 96, 97, 59 grade as A, A+, F. *)
Theorem getGrade_table_monotone :
  (forall s : Q,
     (97 <= s -> getGrade s = "A+") /\
     (93 <= s -> s < 97 -> getGrade s = "A") /\
     (90 <= s -> s < 93 -> getGrade s = "A-") /\
     (87 <= s -> s < 90 -> getGrade s = "B+") /\
     (83 <= s -> s < 87 -> getGrade s = "B") /\
     (80 <= s -> s < 83 -> getGrade s = "B-") /\
     (77 <= s -> s < 80 -> getGrade s = "C+") /\
     (73 <= s -> s < 77 -> getGrade s = "C") /\
     (70 <= s -> s < 73 -> getGrade s = "C-") /\
     (67 <= s -> s < 70 -> getGrade s = "D+") /\
     (63 <= s -> s < 67 -> getGrade s = "D") /\
     (60 <= s -> s < 63 -> getGrade s = "D-") /\
     (s < 60 -> getGrade s = "F")) /\
  (forall s1 s2 : Q,
     s1 <= s2 -> (gradeRank (getGrade s1) <= gradeRank (getGrade s2))%nat) /\
  getGrade 96 = "A" /\ getGrade 97 = "A+" /\ getGrade 59 = "F".
Proof.
  split; [| split; [exact getGrade_rank_mono | now vm_compute]].
  intros s.
  repeat split; intros; split_grade s; cmp_facts;
    first [reflexivity | exfalso; lra].
Qed.

Lemma getGrade_table_monotone_witness :
  96 <= 97 /\ (gradeRank (getGrade 96) <= gradeRank (getGrade 97))%nat.
Proof.
  assert (H : 96 <= 97) by (unfold Qle; simpl; lia).
  split; [exact H |].
  exact (proj1 (proj2 getGrade_table_monotone) 96 97 H).
Defined.

(** ** reportLogic.ts: the overall score *)





(** ** Dashboard.tsx: the sleep cycle *)

Lemma shouldBeSleeping_spec (h : SleepHours) (hr : Z) :
  shouldBeSleeping h hr = true <->
  ((sleep_start h > sleep_end h ->
    hr >= sleep_start h \/ hr < sleep_end h) /\
   (sleep_start h <= sleep_end h ->
    hr >= sleep_start h /\ hr < sleep_end h))%Z.
Proof.
  unfold shouldBeSleeping.
  destruct (Z.gtb_spec (sleep_start h) (sleep_end h)) as [G | G].
  - rewrite orb_true_iff, Z.geb_le, Z.ltb_lt. split.
    + intros H. split; [intros _ | lia]. destruct H; [left | right]; lia.
    + intros [H _]. destruct (H ltac:(lia)); [left | right]; lia.
  - rewrite andb_true_iff, Z.geb_le, Z.ltb_lt. split.
    + intros H. split; [lia | intros _; lia].
    + intros [_ H]. specialize (H G). lia.
Qed.

Lemma checkSleepCycle_flag (c : Clock) (st : State) :
  isSleeping (checkSleepCycle c st)
  = shouldBeSleeping (sleepHours (petConfig st)) (getHours c).
Proof.
  unfold checkSleepCycle.
  destruct (shouldBeSleeping _ _), (isSleeping st) eqn:E; simpl; auto.
Qed.

(** C8. For every sleep window and every hour [h], the asleep predicate
    holds exactly when: if start > end then h >= start or h < end, and if
    start <= end then h >= start and h < end.  After the sleep check the
    pet is flagged asleep exactly when the predicate holds of the window
    of its profile and the hour of the check. *)
Theorem checkSleepCycle_asleep_iff (window : SleepHours) (h : Z) (c : Clock)
    (st : State) :
  (shouldBeSleeping window h = true <->
   ((sleep_start window > sleep_end window ->
     h >= sleep_start window \/ h < sleep_end window) /\
    (sleep_start window <= sleep_end window ->
     h >= sleep_start window /\ h < sleep_end window))%Z) /\
  isSleeping (checkSleepCycle c st)
  = shouldBeSleeping (sleepHours (petConfig st)) (getHours c) /\
  (let window := sleepHours (petConfig st) in
   let h := getHours c in
   isSleeping (checkSleepCycle c st) = true <->
   ((sleep_start window > sleep_end window ->
     h >= sleep_start window \/ h < sleep_end window) /\
    (sleep_start window <= sleep_end window ->
     h >= sleep_start window /\ h < sleep_end window))%Z).
Proof.
  split; [apply shouldBeSleeping_spec |].
  split; [apply checkSleepCycle_flag |].
  cbv zeta. rewrite checkSleepCycle_flag. apply shouldBeSleeping_spec.
Qed.

(** ** Dashboard.tsx: the asleep branch *)

(** C7, as the code has it.  Asleep, happiness drops by 30% of the awake
    per-tick amount [1 / decay.happiness * 0.5], hygiene by 50% of the
    awake per-tick amount [1 / (decay.hygiene * 2) * 0.5], both floored at
    0, and energy gains 0.8 capped at 100.  The awake branch is restated
    alongside to fix what the awake amounts are. *)
Theorem asleepStats_rates (cfg : PetConfig) (s : PetStats) :
  let happinessRate := 1 / decay_happiness (decayRates cfg) * 0.5 in
  let hygieneRate := 1 / (decay_hygiene (decayRates cfg) * 2) * 0.5 in
  (forall (daytime : bool) (minutesSinceRest : Q),
     happiness (awakeStats cfg daytime minutesSinceRest s)
     == Qmax 0 (happiness s
                - happinessRate * (if JS.ltb (hunger s) 25 then 1.5 else 1)
                  * (if JS.ltb (hygiene s) 40 then 1.5 else 1)) /\
     hygiene (awakeStats cfg daytime minutesSinceRest s)
     == Qmax 0 (hygiene s - hygieneRate)) /\
  happiness (asleepStats cfg s)
  == Qmax 0 (happiness s - (30 # 100) * happinessRate) /\
  hygiene (asleepStats cfg s)
  == Qmax 0 (hygiene s - (50 # 100) * hygieneRate) /\
  energy (asleepStats cfg s) == Qmin 100 (energy s + 0.8).
Proof.
  intros happinessRate hygieneRate. unfold asleepStats, awakeStats.
  cbn [happiness hygiene energy]. unfold JS.Math_max, JS.Math_min.
  repeat split; try reflexivity;
    apply Q.max_compat; try reflexivity;
    unfold happinessRate, hygieneRate, Qdiv; ring.
Qed.

(** ** petConfig.ts: the four profiles *)

Lemma petConfigs_cases (t : string) :
  petConfigs t = dog \/ petConfigs t = cat \/ petConfigs t = parrot
  \/ petConfigs t = rabbit.
Proof.
  unfold petConfigs.
  destruct (String.eqb t "dog"); auto.
  destruct (String.eqb t "cat"); auto.
  destruct (String.eqb t "parrot"); auto.
  destruct (String.eqb t "rabbit"); auto.
Qed.

Lemma petConfigs_ok (t : string) : profile_ok (petConfigs t).
Proof.
  destruct (petConfigs_cases t) as [-> | [-> | [-> | ->]]];
    unfold profile_ok; cbn; repeat split; try lra; try (unfold Qle; simpl; lia).
Qed.

(** ** Dashboard.tsx: what the handlers do to the state *)

Lemma handleAction_shape (action : string) (cost duration : Z)
    (ch : StatChanges) (e : ExtraEffects) (c : Clock) (st : State) :
  let st' := handleAction action cost duration ch e c st in
  activeAction st' = Some action /\
  actionTimer st' = duration /\
  totalSpent st' = (totalSpent st + cost)%Z /\
  intervals st' = intervals st ++ [mkRun (nextTimerId st) action ch e] /\
  pet st' = pet st /\ timeouts st' = timeouts st /\
  isSleeping st' = isSleeping st /\ hasToy st' = hasToy st /\
  feedCount st' = feedCount st.
Proof.
  unfold handleAction. destruct (cost >? 0)%Z; cbn; repeat split; reflexivity.
Qed.

Lemma absIfSet_nonneg (o : option Q) : 0 <= absIfSet o.
Proof.
  unfold absIfSet. destruct (JS.truthy o); [apply Qabs_nonneg | lra].
Qed.

Lemma absIfNonzero_nonneg (x : Q) : 0 <= absIfNonzero x.
Proof.
  unfold absIfNonzero. destruct (JS.truthy _); [apply Qabs_nonneg | lra].
Qed.

Lemma or_default_nonneg (x d : Q) :
  0 <= x -> 0 <= d -> 0 <= JS.or_default (Some x) d.
Proof. intros. unfold JS.or_default. destruct (Qeq_bool x 0); assumption. Qed.

Lemma whenPositive_band (x v d : Q) :
  in_band v -> 0 <= d -> opt_band (whenPositive x (JS.Math_max 0 (v - d))).
Proof.
  intros. unfold whenPositive. destruct (JS.ltb 0 x); simpl; auto.
  now apply band_max_zero.
Qed.

Lemma whenSet_band (delta : option Q) (v : Q) :
  in_band v -> opt_nonneg delta ->
  opt_band (whenSet delta (JS.Math_min 100 (v + JS.num delta))).
Proof.
  intros Hv Hd. unfold whenSet. destruct (JS.truthy delta); simpl; auto.
  apply band_min_cap; auto. destruct delta; simpl in *; auto. lra.
Qed.

Lemma washChanges_band (w : WashCfg) (s : PetStats) :
  stats_in_range s -> 0 <= wash_hygiene w ->
  changes_in_range (washChanges w s).
Proof.
  intros (Hh & Hha & Hhy & He & Ht) Hw. unfold washChanges, changes_in_range.
  cbn [ch_hunger ch_happiness ch_hygiene ch_energy ch_thirst opt_band].
  repeat split; try exact I.
  - unfold whenSet. destruct (JS.truthy _); simpl; auto. apply band_max_min.
  - apply band_min_cap; auto.
  - apply band_min_cap; auto.
Qed.

Lemma prelude_refl (st : State) : prelude_of st st.
Proof. unfold prelude_of. repeat split; auto. Qed.

Lemma prelude_addEvent (m : string) (c : Clock) (st : State) :
  prelude_of (addEvent m c st) st.
Proof. unfold prelude_of. repeat split; auto. Qed.

Lemma Forall_snoc {A} (P : A -> Prop) (l : list A) (x : A) :
  Forall P l -> P x -> Forall P (l ++ [x]).
Proof. intros. apply Forall_app. split; auto. Qed.

Lemma prelude_push (b : bool) (cb : TimeoutCallback) (d : Q)
    (acc : list nat * State) (st : State) :
  callback_ok cb -> prelude_of (snd acc) st ->
  prelude_of (snd (pushTimeoutIf b cb d acc)) st.
Proof.
  intros Hcb H. unfold pushTimeoutIf. destruct b; auto.
  unfold setTimeout. cbn [snd].
  unfold prelude_of in *. cbn.
  destruct H as (? & ? & ? & ? & ? & ? & ? & ? & ? & ? & ? & HF).
  repeat split; auto. intros HT. apply Forall_snoc; auto.
Qed.

Lemma onClick_shape (k : ActionKind) (rnd : nat -> Q) (c : Clock)
    (st : State) :
  exists st0 label ch e,
    onClick k rnd c st
    = handleAction label (buttonCost k st) (actionDuration k st) ch e c st0
    /\ label <> "" /\ prelude_of st0 st
    /\ (profile_ok (petConfig st) -> stats_in_range (stats (pet st)) ->
        changes_in_range ch).
Proof.
  destruct k; cbn [onClick buttonCost actionDuration].
  - (* Feed *)
    unfold onFeed. do 4 eexists. split; [reflexivity |].
    split; [destruct (isDog st && _); discriminate |].
    split; [apply prelude_refl |].
    intros (_ & _ & (Hf & Hfh & Hfe) & _) (Hh & Hha & Hhy & He & Ht).
    unfold changes_in_range; cbn [ch_hunger ch_happiness ch_hygiene ch_energy ch_thirst opt_band].
    split; [apply band_min_cap; auto |].
    split; [apply whenSet_band; auto |].
    split; [exact I |]. split; [apply whenSet_band; auto | exact I].
  - (* Water *)
    unfold onWater. do 4 eexists. split; [reflexivity |].
    split; [discriminate |]. split; [apply prelude_refl |].
    intros (_ & _ & _ & (Hw & Hwh) & _) (Hh & Hha & Hhy & He & Ht).
    unfold changes_in_range; cbn [ch_hunger ch_happiness ch_hygiene ch_energy ch_thirst opt_band].
    split; [exact I |]. split; [apply whenSet_band; auto |].
    split; [exact I |]. split; [exact I | apply band_min_cap; auto].
  - (* Exercise *)
    unfold onExercise.
    destruct (exerciseMessages _ _) as [[m0 m1] m2].
    match goal with
    | |- context [let '(_, _) := ?acc in _] => destruct acc as [timers st3] eqn:E
    end.
    do 4 eexists. split; [reflexivity |].
    split; [repeat match goal with |- context [if ?b then _ else _] => destruct b end; discriminate |].
    split.
    + replace st3 with (snd (timers, st3)) by reflexivity. rewrite <- E.
      apply prelude_push; [apply or_default_nonneg; [apply absIfSet_nonneg | lra] |].
      apply prelude_push; [simpl; lra |].
      apply prelude_push; [simpl; lra |].
      apply prelude_addEvent.
    + intros (_ & _ & _ & _ & Hx & _) (Hh & Hha & Hhy & He & Ht).
      unfold changes_in_range; cbn [ch_hunger ch_happiness ch_hygiene ch_energy ch_thirst opt_band].
      split; [apply whenPositive_band; auto using absIfNonzero_nonneg |].
      split; [apply band_min_cap; auto |].
      split; [apply whenPositive_band; auto using absIfSet_nonneg |].
      split; [apply band_max_zero; auto; apply Qabs_nonneg |].
      apply whenPositive_band; auto using absIfNonzero_nonneg.
  - (* Play *)
    unfold onPlay.
    match goal with
    | |- context [let '(_, _) := ?acc in _] => destruct acc as [timers st3] eqn:E
    end.
    do 4 eexists. split; [reflexivity |].
    split; [discriminate |].
    split.
    + replace st3 with (snd (timers, st3)) by reflexivity. rewrite <- E.
      apply prelude_push; [apply absIfSet_nonneg |].
      apply prelude_push; [simpl; lra |].
      apply prelude_addEvent.
    + intros (_ & _ & _ & _ & _ & Hx & _) (Hh & Hha & Hhy & He & Ht).
      unfold changes_in_range; cbn [ch_hunger ch_happiness ch_hygiene ch_energy ch_thirst opt_band].
      split; [apply whenPositive_band; auto using absIfNonzero_nonneg |].
      split; [apply band_min_cap; auto |].
      split; [apply whenPositive_band; auto using absIfSet_nonneg |].
      split; [apply band_max_zero; auto; apply Qabs_nonneg |].
      apply whenPositive_band; auto using absIfNonzero_nonneg.
  - (* BuyToy *)
    unfold onBuyToy. do 4 eexists. split; [reflexivity |].
    split; [discriminate |]. split; [apply prelude_addEvent |].
    intros _ (Hh & Hha & Hhy & He & Ht).
    unfold changes_in_range; cbn [ch_hunger ch_happiness ch_hygiene ch_energy ch_thirst opt_band].
    repeat split; try exact I; apply band_min_cap; auto; lra.
  - (* Bath *)
    unfold onBath. do 4 eexists. split; [reflexivity |].
    split; [repeat match goal with |- context [if ?b then _ else _] => destruct b end; discriminate |].
    split; [apply prelude_addEvent |].
    intros (_ & _ & _ & _ & _ & _ & Hb & _) Hs. apply washChanges_band; auto.
  - (* Vet *)
    unfold onVetVisit. do 4 eexists. split; [reflexivity |].
    split; [discriminate |]. split; [apply prelude_addEvent |].
    intros (_ & _ & _ & _ & _ & _ & _ & _ & Hv1 & Hv2 & Hv3) (Hh & Hha & Hhy & He & Ht).
    unfold changes_in_range; cbn [ch_hunger ch_happiness ch_hygiene ch_energy ch_thirst opt_band].
    repeat split; try exact I; apply band_min_cap; auto.
  - (* Grooming *)
    unfold onGrooming. do 4 eexists. split; [reflexivity |].
    split; [repeat match goal with |- context [if ?b then _ else _] => destruct b end; discriminate |].
    split; [apply prelude_addEvent |].
    intros (_ & _ & _ & _ & _ & _ & _ & Hg & _) Hs. apply washChanges_band; auto.
Qed.

Lemma awakeStats_band (cfg : PetConfig) (daytime : bool) (m : Q)
    (s : PetStats) :
  profile_ok cfg -> stats_in_range s ->
  stats_in_range (awakeStats cfg daytime m s).
Proof.
  intros ((Dh & Dha & Dhy & Dt) & _) (Hh & Hha & Hhy & He & Ht).
  unfold awakeStats, stats_in_range. cbn [hunger happiness hygiene energy thirst].
  split; [| split; [| split; [| split]]].
  - apply band_max_zero; auto. now apply half_rate_nonneg.
  - apply band_max_zero; auto.
    pose proof (half_rate_nonneg _ Dha).
    destruct (JS.ltb (hunger s) 25), (JS.ltb (hygiene s) 40); nra.
  - apply band_max_zero; auto. apply half_rate_nonneg. lra.
  - apply band_min_max.
  - apply band_max_zero; auto. now apply half_rate_nonneg.
Qed.

Lemma asleepStats_band (cfg : PetConfig) (s : PetStats) :
  profile_ok cfg -> stats_in_range s -> stats_in_range (asleepStats cfg s).
Proof.
  intros ((Dh & Dha & Dhy & Dt) & HT & _) (Hh & Hha & Hhy & He & Ht).
  unfold asleepStats, stats_in_range. cbn [hunger happiness hygiene energy thirst].
  set (T := inject_Z (totalSleepMinutes (sleepHours cfg))) in *.
  split; [| split; [| split; [| split]]].
  - apply band_max_floor; auto; [unfold in_band; lra |].
    assert (0 <= JS.Math_max 0 ((hunger s - 20) / T)) by apply Q.le_max_l.
    nra.
  - apply band_max_zero; auto. pose proof (half_rate_nonneg _ Dha). nra.
  - apply band_max_zero; auto.
    assert (0 <= 1 / (decay_hygiene (decayRates cfg) * 2) * 0.5)
      by (apply half_rate_nonneg; lra).
    nra.
  - apply band_min_cap; auto. lra.
  - unfold in_band, JS.Math_max. split.
    + apply Qle_trans with 15; [lra | apply Q.le_max_l].
    + apply Q.max_lub; [lra |].
      assert (U1 : / T <= 1) by (apply Qle_shift_inv_r; lra).
      assert (U0 : 0 <= / T) by (apply Qinv_le_0_compat; lra).
      destruct Ht as [T0 T1]. unfold Qdiv.
      assert (0 <= (100 - thirst s) * (1 - 0.5 * / T)) by nra.
      nra.
Qed.

Lemma applyChanges_band (s : PetStats) (ch : StatChanges) :
  stats_in_range s -> changes_in_range ch ->
  stats_in_range (applyChanges s ch).
Proof.
  intros (Hh & Hha & Hhy & He & Ht) (Ch & Cha & Chy & Ce & Ct).
  unfold applyChanges, stats_in_range, over.
  cbn [hunger happiness hygiene energy thirst].
  destruct ch as [[?|] [?|] [?|] [?|] [?|]]; cbn in *; unfold in_band in *;
    tauto.
Qed.

Lemma calculateDecay_band (c : Clock) (stat rate hours : Q) :
  in_band stat -> 0 <= rate -> 0 <= hours ->
  in_band (calculateDecay c stat rate hours).
Proof.
  intros Hs Hr Hh. unfold calculateDecay.
  destruct (_ && _); apply band_max_zero; auto; nra.
Qed.

Lemma hours_nonneg (a b : Z) :
  (a <= b)%Z -> 0 <= inject_Z (b - a) / (1000 * 60) / 60.
Proof.
  intros H. assert (0 <= inject_Z (b - a)).
  { change 0 with (inject_Z 0). rewrite <- Zle_Qle. lia. }
  apply Qle_shift_div_l; [lra |]. rewrite Qmult_0_l.
  apply Qle_shift_div_l; [lra |]. now rewrite Qmult_0_l.
Qed.

Lemma catchUpStats_band (c : Clock) (s : PetStats) (hours : Q) :
  stats_in_range s -> 0 <= hours ->
  stats_in_range (catchUpStats c (savedOf s) hours).
Proof.
  intros (Hh & Hha & Hhy & He & Ht) H.
  unfold catchUpStats, savedOf, stats_in_range.
  cbn [hunger happiness hygiene energy thirst saved_hunger saved_happiness
       saved_hygiene saved_energy saved_thirst].
  split; [| split; [| split; [| split]]];
    apply calculateDecay_band; auto; try lra.
  unfold JS.or_default. destruct (Qeq_bool _ _); auto. unfold in_band; lra.
Qed.

(** Reduce projections of updated states, and nothing else. *)
Ltac state_simpl :=
  cbn [pet totalSpent events activeAction actionTimer isSleeping lastRestTime
       walkCountdown hasToy lastWalkTime lastBathTime lastTrimNailsTime
       feedCount intervals timeouts nextTimerId
       setPet setTotalSpent setEvents setActiveAction setActionTimer
       setIsSleeping setLastRestTime setWalkCountdown setHasToy
       setLastWalkTime setLastBathTime setLastTrimNailsTime setFeedCount
       setIntervals setTimeouts setNextTimerId setStats addEvent
       type name stats emotion clearTimeout clearInterval setTimeout
       fst snd].

Lemma happiness_update_band (s : PetStats) (v : Q) :
  stats_in_range s -> in_band v ->
  stats_in_range (mkStats (hunger s) v (hygiene s) (energy s) (thirst s)).
Proof. unfold stats_in_range. cbn [hunger happiness hygiene energy thirst]. tauto. Qed.

Lemma hygiene_update_band (s : PetStats) (v : Q) :
  stats_in_range s -> in_band v ->
  stats_in_range (mkStats (hunger s) (happiness s) v (energy s) (thirst s)).
Proof. unfold stats_in_range. cbn [hunger happiness hygiene energy thirst]. tauto. Qed.

(** ** The stats invariant *)

Lemma stats_invariant_frame (st st' : State) :
  stats (pet st') = stats (pet st) -> intervals st' = intervals st ->
  timeouts st' = timeouts st -> stats_invariant st -> stats_invariant st'.
Proof.
  unfold stats_invariant. intros -> -> ->. auto.
Qed.

Lemma petConfig_ok (st : State) : profile_ok (petConfig st).
Proof. apply petConfigs_ok. Qed.

Lemma attempt_stats_invariant (k : ActionKind) (rnd : nat -> Q) (c : Clock)
    (st : State) :
  stats_invariant st -> stats_invariant (attempt k rnd c st).
Proof.
  intros Inv. unfold attempt. destruct (disabled k st); [exact Inv |].
  destruct Inv as (Hs & Hr & Ht).
  destruct (onClick_shape k rnd c st)
    as (st0 & label & ch & e & -> & _ & P & Hch).
  destruct P as (Hp & _ & Hi & _ & _ & _ & _ & _ & _ & _ & _ & HT).
  pose proof (handleAction_shape label (buttonCost k st)
                (actionDuration k st) ch e c st0) as H.
  cbv zeta in H. destruct H as (_ & _ & _ & Ei & Ep & Et & _).
  unfold stats_invariant. rewrite Ei, Ep, Et, Hp, Hi.
  split; [assumption |]. split; [| auto].
  apply Forall_snoc; auto. cbn. apply Hch; auto using petConfig_ok.
Qed.

Lemma clearTimeouts_shape (l : list nat) (st : State) (P : Timeout -> Prop) :
  let st' := fold_left (fun s t => clearTimeout t s) l st in
  pet st' = pet st /\ intervals st' = intervals st /\
  activeAction st' = activeAction st /\
  (Forall P (timeouts st) -> Forall P (timeouts st')).
Proof.
  revert st. induction l as [| t l IH]; intros st; cbn.
  - auto.
  - destruct (IH (clearTimeout t st)) as (-> & -> & -> & H).
    repeat split; auto. intros HF. apply H. cbn.
    apply Forall_forall. intros x Hx. apply filter_In in Hx.
    rewrite Forall_forall in HF. apply HF. tauto.
Qed.

Lemma runExtraEffects_stats_invariant (e : ExtraEffects) (c : Clock)
    (st : State) :
  stats_invariant st -> stats_invariant (runExtraEffects e c st).
Proof.
  intros Inv. pose proof Inv as (Hs & Hr & Ht).
  destruct e; cbn [runExtraEffects]; try exact Inv.
  - destruct (clearTimeouts_shape eventTimers st
                (fun t => callback_ok (timeout_callback t)))
      as (Ep & Ei & _ & H).
    unfold stats_invariant. cbn. rewrite Ep, Ei. auto.
  - destruct (clearTimeouts_shape eventTimers st
                (fun t => callback_ok (timeout_callback t)))
      as (Ep & Ei & _ & H).
    destruct toyBreaks; unfold stats_invariant; cbn; rewrite Ep, Ei;
      (split; [assumption | split; [assumption |]]); auto.
    apply Forall_snoc; auto. exact I.
Qed.

Lemma countdown_stats_invariant (r : ActionRun) (c : Clock) (st : State) :
  In r (intervals st) -> stats_invariant st ->
  stats_invariant (countdown r c st).
Proof.
  intros Hin Inv. pose proof Inv as (Hs & Hr & Ht). unfold countdown.
  destruct (actionTimer st <=? 1)%Z; [| exact Inv].
  apply stats_invariant_frame
    with (st := runExtraEffects (run_extraEffects r) c
                  (setStats
                     (applyChanges (stats (pet st)) (run_statChanges r))
                     (updateEmotion
                        (applyChanges (stats (pet st)) (run_statChanges r))
                        false)
                     (setActiveAction None (clearInterval (run_id r) st))));
    try reflexivity.
  apply runExtraEffects_stats_invariant.
  unfold stats_invariant. cbn. split; [| split; auto].
  - apply applyChanges_band; auto.
    rewrite Forall_forall in Hr. apply (Hr r Hin).
  - apply Forall_forall. intros x Hx. apply filter_In in Hx.
    rewrite Forall_forall in Hr. apply Hr. tauto.
Qed.

Lemma runTimeout_stats_invariant (cb : TimeoutCallback) (c : Clock)
    (st : State) :
  callback_ok cb -> stats_invariant st -> stats_invariant (runTimeout cb c st).
Proof.
  intros Hcb Inv. pose proof Inv as (Hs & Hr & Ht).
  pose proof Hs as (Hh & Hha & Hhy & He & Hth).
  destruct cb as [msg amount | msg loss | cap petName]; cbn in Hcb;
    cbn [runTimeout].
  - split; [| split; assumption]. state_simpl.
    apply happiness_update_band; auto. apply band_min_cap; auto.
  - split; [| split; assumption]. state_simpl.
    apply hygiene_update_band; auto. apply band_max_zero; auto.
  - destruct cap; [exact Inv |].
    split; [| split; assumption]. state_simpl.
    apply happiness_update_band; auto. apply band_max_zero; auto. lra.
Qed.

Lemma decayInterval_stats_invariant (c : Clock) (st : State) :
  stats_invariant st -> stats_invariant (decayInterval c st).
Proof.
  intros Inv. pose proof Inv as (Hs & Hr & Ht). unfold decayInterval.
  destruct (negb (isActive st) && negb (isSleeping st)).
  - split; [| split; assumption]. state_simpl.
    apply awakeStats_band; auto using petConfig_ok.
  - destruct (isSleeping st); [| exact Inv].
    split; [| split; assumption]. state_simpl.
    apply asleepStats_band; auto using petConfig_ok.
Qed.

Lemma updateCountdowns_shape (c : Clock) (st : State) :
  let st' := updateCountdowns c st in
  pet st' = pet st /\ intervals st' = intervals st /\
  timeouts st' = timeouts st /\ activeAction st' = activeAction st.
Proof.
  unfold updateCountdowns. destruct (_ || _); cbn; auto.
Qed.

Lemma restore_stats_invariant (earlier : State) (savedAt : Z) (c : Clock)
    (st : State) :
  stats_invariant earlier -> (savedAt <= now c)%Z -> stats_invariant st ->
  stats_invariant (restore (dataToSave savedAt earlier) c st).
Proof.
  intros (He & _) Hle Inv. pose proof Inv as (Hs & Hr & Ht). unfold restore.
  destruct (_ && _); [| exact Inv].
  set (m := minutesElapsed c (dataToSave savedAt earlier)).
  assert (B : stats_in_range
                (catchUpStats c (saved_stats (dataToSave savedAt earlier))
                   (m / 60))).
  { apply (catchUpStats_band c (stats (pet earlier))); auto.
    unfold m, minutesElapsed. cbn. now apply hours_nonneg. }
  destruct (JS.ltb 5 m); split; try (split; assumption); exact B.
Qed.

Lemma idleEvent_frame (rand rand2 : Q) (c : Clock) (st : State) :
  idleEvent rand rand2 c st
  = setEvents (events (idleEvent rand rand2 c st)) st.
Proof.
  unfold idleEvent. cbv zeta.
  destruct (JS.ltb rand 0.02); [destruct (JS.ltb _ 50) |];
    destruct st; reflexivity.
Qed.

Lemma handle_stats_invariant (ev : Event) (c : Clock) (st : State) :
  isRestore ev = false -> stats_invariant st ->
  stats_invariant (handle ev c st).
Proof.
  intros NR H. destruct ev; cbn [handle]; try discriminate NR.
  - now apply attempt_stats_invariant.
  - destruct (find _ _) as [r |] eqn:F; auto.
    apply find_some in F. apply countdown_stats_invariant; tauto.
  - destruct (find _ _) as [t |] eqn:F; auto.
    apply find_some in F. destruct F as [Hin _].
    destruct H as (Hs & Hr & Ht).
    apply runTimeout_stats_invariant.
    + rewrite Forall_forall in Ht. now apply Ht.
    + split; [assumption | split; [assumption |]]. cbn.
      apply Forall_forall. intros x Hx. apply filter_In in Hx.
      rewrite Forall_forall in Ht. apply Ht. tauto.
  - now apply decayInterval_stats_invariant.
  - unfold checkSleepCycle.
    destruct (_ && _); [| destruct (_ && _)]; exact H.
  - destruct (updateCountdowns_shape c st) as (Ep & Ei & Et & _).
    apply stats_invariant_frame with st; auto. now rewrite Ep.
  - destruct (_ || _); [exact H |]. rewrite idleEvent_frame. exact H.
  - exact H.
Qed.

Lemma step_settles (ev : Event) (c : Clock) (st : State) (P : State -> Prop) :
  P (handle ev c st) ->
  (forall s, P s -> P (updateCountdowns c s)) -> P (step ev c st).
Proof.
  intros H U. unfold step. destruct (countdownDepsChanged _ _); auto.
Qed.

Lemma updateCountdowns_stats_invariant (c : Clock) (s : State) :
  stats_invariant s -> stats_invariant (updateCountdowns c s).
Proof.
  intros H. destruct (updateCountdowns_shape c s) as (Ep & Ei & Et & _).
  apply stats_invariant_frame with s; auto. now rewrite Ep.
Qed.

Lemma reachable_stats_invariant (st : State) :
  reachable_on_time st -> stats_invariant st.
Proof.
  induction 1 as [p c Hp | ev c st _ IH NR | earlier savedAt c st _ IHe _ IH L].
  - split; [exact Hp | split; constructor].
  - apply step_settles; [| apply updateCountdowns_stats_invariant].
    now apply handle_stats_invariant.
  - apply step_settles; [| apply updateCountdowns_stats_invariant].
    cbn [handle]. now apply restore_stats_invariant.
Qed.

(** ** One countdown at a time *)

Lemma run_invariant_frame (st st' : State) :
  activeAction st' = activeAction st -> intervals st' = intervals st ->
  run_invariant st -> run_invariant st'.
Proof.
  unfold run_invariant, isActive. intros -> ->. auto.
Qed.

Lemma disabled_false_inactive (k : ActionKind) (st : State) :
  disabled k st = false -> isActive st = false.
Proof.
  destruct k; unfold disabled; destruct (isActive st); auto.
Qed.

Lemma isActive_label (st : State) (l : string) :
  activeAction st = Some l -> l <> "" -> isActive st = true.
Proof.
  unfold isActive. intros -> H. destruct l; [contradiction | reflexivity].
Qed.

Lemma idle_no_runs (st : State) :
  run_invariant st -> isActive st = false -> intervals st = [].
Proof.
  intros [_ H] Hi. destruct (intervals st) as [| r l]; auto.
  assert (isActive st = true) by (apply H; discriminate). congruence.
Qed.

Lemma attempt_run_invariant (k : ActionKind) (rnd : nat -> Q) (c : Clock)
    (st : State) :
  run_invariant st -> run_invariant (attempt k rnd c st).
Proof.
  intros Inv. unfold attempt. destruct (disabled k st) eqn:D; [exact Inv |].
  apply disabled_false_inactive in D.
  pose proof (idle_no_runs st Inv D) as E.
  destruct (onClick_shape k rnd c st)
    as (st0 & label & ch & e & -> & Hl & P & _).
  destruct P as (_ & _ & Hi & _).
  pose proof (handleAction_shape label (buttonCost k st)
                (actionDuration k st) ch e c st0) as H.
  cbv zeta in H. destruct H as (Ea & _ & _ & Ei & _).
  unfold run_invariant. rewrite Ei, Hi, E. cbn [app List.length]. split; [lia |].
  split; [discriminate | intros _]. now apply isActive_label with label.
Qed.

Lemma runExtraEffects_shape (e : ExtraEffects) (c : Clock) (st : State) :
  let st' := runExtraEffects e c st in
  activeAction st' = activeAction st /\ intervals st' = intervals st /\
  stats (pet st') = stats (pet st).
Proof.
  destruct e; cbn [runExtraEffects]; auto.
  - destruct (clearTimeouts_shape eventTimers st (fun _ => True))
      as (Ep & Ei & Ea & _).
    state_simpl. rewrite Ep, Ei, Ea. auto.
  - destruct (clearTimeouts_shape eventTimers st (fun _ => True))
      as (Ep & Ei & Ea & _).
    destruct toyBreaks; state_simpl; rewrite Ep, Ei, Ea; auto.
Qed.

Lemma countdown_run_invariant (r : ActionRun) (c : Clock) (st : State) :
  In r (intervals st) -> run_invariant st -> run_invariant (countdown r c st).
Proof.
  intros Hin Inv. unfold countdown.
  destruct (actionTimer st <=? 1)%Z; [| exact Inv].
  match goal with
  | |- run_invariant (setActionTimer 0 (addEvent _ _ (runExtraEffects ?e c ?s))) =>
      destruct (runExtraEffects_shape e c s) as (Ea & Ei & _);
      apply run_invariant_frame with (runExtraEffects e c s);
      [reflexivity | reflexivity |];
      apply run_invariant_frame with s; [exact Ea | exact Ei |]
  end.
  destruct Inv as [Hlen _].
  destruct (intervals st) as [| r0 [| r1 l]] eqn:E;
    [contradiction | | cbn in Hlen; lia].
  destruct Hin as [-> | []].
  unfold run_invariant, isActive. state_simpl. rewrite E. cbn [filter].
  rewrite Nat.eqb_refl. cbn. split; [lia |]. split; [discriminate | tauto].
Qed.

Lemma handle_run_invariant (ev : Event) (c : Clock) (st : State) :
  run_invariant st -> run_invariant (handle ev c st).
Proof.
  intros H. destruct ev; cbn [handle].
  - now apply attempt_run_invariant.
  - destruct (find _ _) as [r |] eqn:F; auto.
    apply find_some in F. apply countdown_run_invariant; tauto.
  - destruct (find _ _) as [t |] eqn:F; auto.
    apply run_invariant_frame with st; auto;
      destruct (timeout_callback t) as [? ? | ? ? | [] ?]; reflexivity.
  - unfold decayInterval.
    destruct (_ && _); [| destruct (isSleeping st)]; exact H.
  - unfold checkSleepCycle.
    destruct (_ && _); [| destruct (_ && _)]; exact H.
  - destruct (updateCountdowns_shape c st) as (_ & Ei & _ & Ea).
    now apply run_invariant_frame with st.
  - destruct (_ || _); [exact H |]. rewrite idleEvent_frame. exact H.
  - exact H.
  - unfold restore. destruct (_ && _); [| exact H].
    destruct (JS.ltb _ _); exact H.
Qed.

Lemma updateCountdowns_run_invariant (c : Clock) (s : State) :
  run_invariant s -> run_invariant (updateCountdowns c s).
Proof.
  intros H. destruct (updateCountdowns_shape c s) as (_ & Ei & _ & Ea).
  now apply run_invariant_frame with s.
Qed.

Lemma reachable_run_invariant {accepts : Z -> Clock -> Prop} (st : State) :
  reachable_when accepts st -> run_invariant st.
Proof.
  induction 1 as [p c Hp | ev c st _ IH NR | earlier savedAt c st _ IHe _ IH L].
  - split; [cbn; lia |]. cbn. split; [discriminate | intros H; now elim H].
  - apply step_settles; [| apply updateCountdowns_run_invariant].
    now apply handle_run_invariant.
  - apply step_settles; [| apply updateCountdowns_run_invariant].
    now apply handle_run_invariant.
Qed.

Lemma reachable_run (accepts : Z -> Clock -> Prop)
    (trace : list (Event * Clock)) (st : State) :
  Forall (fun ec => isRestore (fst ec) = false) trace ->
  reachable_when accepts st -> reachable_when accepts (run trace st).
Proof.
  revert st. induction trace as [| [ev c] trace IH]; intros st HF Hr.
  - exact Hr.
  - cbn [run fold_left]. inversion HF; subst. apply IH; auto.
    now apply reach_step.
Qed.

(** ** The claims about the running component *)

Lemma rex_in_range : stats_in_range (stats rex).
Proof. repeat split; unfold Qle; simpl; lia. Defined.

Lemma reachable_on_time_reachable (st : State) :
  reachable_on_time st -> reachable st.
Proof.
  induction 1 as [p c Hp | ev c st _ IH NR | earlier savedAt c st _ IHe _ IH L].
  - now apply reach_mount.
  - now apply reach_step.
  - now apply reach_restore.
Qed.

Lemma hours_negative (a b : Z) :
  (b < a)%Z -> inject_Z (b - a) / (1000 * 60) / 60 < 0.
Proof.
  intros H. assert (N : inject_Z (b - a) < 0).
  { change 0 with (inject_Z 0). rewrite <- Zlt_Qlt. lia. }
  assert (E : inject_Z (b - a) / (1000 * 60) / 60
              == inject_Z (b - a) * (1 # 3600000)).
  { unfold Qdiv. change (/ (1000 * 60)) with (1 # 60000).
    change (/ 60) with (1 # 60). ring. }
  rewrite E. lra.
Qed.

Lemma calculateDecay_raises (c : Clock) (x r h : Q) :
  0 <= x -> 0 < r -> h < 0 -> x < calculateDecay c x r h.
Proof.
  intros Hx Hr Hh.
  assert (P : 0 < r * (- h)) by (apply Qmult_lt_0_compat; lra).
  unfold calculateDecay, JS.Math_max. cbv zeta.
  destruct (_ && _).
  - apply Qlt_le_trans with (x - r * 0.2 * h); [| apply Q.le_max_r].
    setoid_replace (x - r * 0.2 * h) with (x + 0.2 * (r * (- h))) by ring.
    lra.
  - apply Qlt_le_trans with (x - r * h); [| apply Q.le_max_r].
    setoid_replace (x - r * h) with (x + r * (- h)) by ring. lra.
Qed.

Lemma justFed_reachable (accepts : Z -> Clock -> Prop) :
  reachable_when accepts justFed.
Proof.
  unfold justFed. apply reachable_run.
  - repeat constructor.
  - apply reach_mount. repeat split; unfold Qle; simpl; lia.
Qed.

(** C1. The five stats lie in [0,100] in every state reached without
    restoring a record stamped later than the clock reads, and they still
    do after a decay tick (whichever branch it takes, and for either
    branch taken on its own), after the countdown of an action fires and
    applies its stat changes, and after such a record of an earlier
    session is restored with the offline catch-up.  The catch-up itself
    clamps at 0 only: the restore effect does not compare the record's
    stamp with the clock, and a record stamped later than the clock
    reads is restored with every stat above its saved value: stamped
    nine hours ahead and saved with hunger 100, with hunger 109. *)
Theorem stats_in_range_unless_clock_is_behind :
  (forall st : State,
     reachable_on_time st ->
     stats_in_range (stats (pet st)) /\
     (forall c : Clock, stats_in_range (stats (pet (step DecayTick c st))))
     /\
     (forall (daytime : bool) (minutesSinceRest : Q),
        stats_in_range
          (awakeStats (petConfig st) daytime minutesSinceRest
             (stats (pet st)))) /\
     stats_in_range (asleepStats (petConfig st) (stats (pet st))) /\
     (forall (id : nat) (c : Clock),
        stats_in_range (stats (pet (step (IntervalFire id) c st)))) /\
     (forall r : ActionRun,
        In r (intervals st) ->
        stats_in_range (applyChanges (stats (pet st)) (run_statChanges r)))
     /\
     (forall (earlier : State) (savedAt : Z) (c : Clock),
        reachable_on_time earlier -> (savedAt <= now c)%Z ->
        let parsed := dataToSave savedAt earlier in
        stats_in_range (stats (pet (step (Restore parsed) c st))) /\
        stats_in_range
          (catchUpStats c (saved_stats parsed)
             (minutesElapsed c parsed / 60)))) /\
  (forall (earlier : State) (savedAt : Z) (c : Clock),
     stats_in_range (stats (pet earlier)) -> (now c < savedAt)%Z ->
     let parsed := dataToSave savedAt earlier in
     let restored :=
       catchUpStats c (saved_stats parsed) (minutesElapsed c parsed / 60) in
     hunger (stats (pet earlier)) < hunger restored /\
     happiness (stats (pet earlier)) < happiness restored /\
     hygiene (stats (pet earlier)) < hygiene restored /\
     energy (stats (pet earlier)) < energy restored /\
     thirst (stats (pet earlier)) < thirst restored) /\
  (reachable justFed /\ stats_in_range (stats (pet justFed)) /\
   hunger (stats (pet justFed)) == 100) /\
  (reachable restoredAheadOfClock /\
   hunger (stats (pet restoredAheadOfClock)) == 109 /\
   ~ stats_in_range (stats (pet restoredAheadOfClock))).
Proof.
  split; [| split; [| split]].
  - intros st R.
    pose proof (reachable_stats_invariant st R) as (Hs & Hr & Ht).
    split; [exact Hs |].
    split.
    { intros c. apply reachable_stats_invariant. now apply reach_step. }
    split.
    { intros. apply awakeStats_band; auto using petConfig_ok. }
    split.
    { apply asleepStats_band; auto using petConfig_ok. }
    split.
    { intros id c. apply reachable_stats_invariant. now apply reach_step. }
    split.
    { intros r Hin. apply applyChanges_band; auto.
      rewrite Forall_forall in Hr. now apply Hr. }
    intros earlier savedAt c Re Hle parsed. split.
    + apply reachable_stats_invariant. now apply reach_restore.
    + apply (catchUpStats_band c (stats (pet earlier))).
      * apply (reachable_stats_invariant earlier Re).
      * unfold minutesElapsed, parsed. cbn [lastSaved dataToSave].
        now apply hours_nonneg.
  - intros earlier savedAt c
      ((H1 & _) & (H2 & _) & (H3 & _) & (H4 & _) & (H5 & _)) L parsed restored.
    pose proof (hours_negative savedAt (now c) L) as N.
    unfold restored, parsed, catchUpStats, minutesElapsed.
    cbn [saved_stats dataToSave lastSaved saved_hunger saved_happiness
         saved_hygiene saved_energy saved_thirst hunger happiness hygiene
         energy thirst].
    repeat (match goal with |- _ /\ _ => split end);
      try (apply calculateDecay_raises; [assumption | lra | exact N]).
    unfold JS.or_default.
    destruct (Qeq_bool (thirst (stats (pet earlier))) 0) eqn:E.
    + apply Qeq_bool_iff in E. rewrite E.
      apply Qlt_trans with 80; [lra |].
      apply calculateDecay_raises; [lra | lra | exact N].
    + apply calculateDecay_raises; [assumption | lra | exact N].
  - split; [apply justFed_reachable |].
    split; [| vm_compute; reflexivity].
    apply (reachable_stats_invariant justFed). apply justFed_reachable.
  - split; [| split].
    + unfold restoredAheadOfClock.
      apply reach_restore; [apply justFed_reachable | | exact I].
      apply reach_mount. exact rex_in_range.
    + vm_compute. reflexivity.
    + intros ((_ & H) & _). vm_compute in H. now apply H.
Qed.

Lemma geb_iff (a b : Q) : JS.geb a b = true <-> b <= a.
Proof. unfold JS.geb. apply Qle_bool_iff. Qed.

Lemma ltb_iff (a b : Q) : JS.ltb a b = true <-> a < b.
Proof.
  split; [apply ltb_true |]. intros H.
  destruct (JS.ltb a b) eqn:E; auto. apply ltb_false in E. lra.
Qed.

Lemma disabled_spec (k : ActionKind) (st : State) :
  disabled k st = true <-> precondition_fails k st.
Proof.
  unfold precondition_fails.
  destruct k; cbn [disabled]; rewrite ?orb_true_iff, ?andb_true_iff,
    ?geb_iff, ?ltb_iff, ?negb_true_iff; try tauto.
  (* only the exercise gate is left *)
  rewrite Z.gtb_ltb, Z.ltb_lt.
  destruct (walkCountdown st); intuition (congruence || discriminate).
Qed.

(** C3, as the code has it.  A button is disabled exactly when one of its
    preconditions fails: an action is active, the pet sleeps, the stat is
    at or above the trigger threshold (feed, water, bath, groom), energy is
    under the minimum (exercise, play), the toy is missing (play) or owned
    (buy toy), or, for exercise, a walk was taken and the cooldown countdown
    as last refreshed is still showing.  A failed attempt leaves the whole
    state untouched; a passing one adds the button's cost to the total
    spent, shows the action as active, sets the timer to the action's
    duration and starts one countdown.  An attempt while an action is
    active is always a no-op, and in every reachable state at most one
    countdown is running, before and after an attempt. *)
Theorem attempt_gate (k : ActionKind) (rnd : nat -> Q) (c : Clock)
    (st : State) :
  (disabled k st = true <-> precondition_fails k st) /\
  (precondition_fails k st -> attempt k rnd c st = st) /\
  (~ precondition_fails k st ->
   totalSpent (attempt k rnd c st) = (totalSpent st + buttonCost k st)%Z /\
   isActive (attempt k rnd c st) = true /\
   actionTimer (attempt k rnd c st) = actionDuration k st /\
   exists r : ActionRun, intervals (attempt k rnd c st) = intervals st ++ [r])
  /\
  (isActive st = true -> attempt k rnd c st = st) /\
  (reachable st ->
   (List.length (intervals st) <= 1)%nat /\
   (isActive st = true <-> intervals st <> []) /\
   (List.length (intervals (attempt k rnd c st)) <= 1)%nat).
Proof.
  split; [apply disabled_spec |].
  split.
  { intros F. apply disabled_spec in F. unfold attempt. now rewrite F. }
  split.
  { intros NF. unfold attempt.
    destruct (disabled k st) eqn:D; [elim NF; now apply disabled_spec |].
    destruct (onClick_shape k rnd c st)
      as (st0 & label & ch & e & -> & Hl & P & _).
    destruct P as (_ & Ets & Hi & _).
    pose proof (handleAction_shape label (buttonCost k st)
                  (actionDuration k st) ch e c st0) as H.
    cbv zeta in H. destruct H as (Ea & Et & Es & Ei & _).
    rewrite Es, Et, Ei, Ets, Hi.
    repeat split; auto.
    - now apply isActive_label with label.
    - eexists; reflexivity. }
  split.
  { intros A. unfold attempt.
    destruct (disabled k st) eqn:D; [reflexivity |].
    apply disabled_false_inactive in D. congruence. }
  intros R. pose proof (reachable_run_invariant st R) as [L A].
  split; [exact L | split; [exact A |]].
  apply (attempt_run_invariant k rnd c st (conj L A)).
Qed.

Lemma attempt_gate_witness :
  precondition_fails Exercise walkedTwelveHoursAgo /\
  attempt Exercise calm fiveSecondsLate walkedTwelveHoursAgo
  = walkedTwelveHoursAgo.
Proof.
  assert (F : precondition_fails Exercise walkedTwelveHoursAgo).
  { right. right. right. split; [now vm_compute | now vm_compute]. }
  split; [exact F |].
  exact (proj1 (proj2 (attempt_gate Exercise calm fiveSecondsLate
                         walkedTwelveHoursAgo)) F).
Defined.

(** C3, as the spec words it, fails for the exercise cooldown.  Rex was
    walked, more than twelve hours have passed since, he is awake, idle and
    has the energy, so every precondition of the spec passes; but the
    countdown string was last refreshed ten seconds before the cooldown ran
    out, the button is still disabled, and the attempt changes nothing. *)
Lemma stale_cooldown_rejects_ready_exercise :
  reachable walkedTwelveHoursAgo /\
  spec_exercise_ready fiveSecondsLate walkedTwelveHoursAgo /\
  attempt Exercise calm fiveSecondsLate walkedTwelveHoursAgo
  = walkedTwelveHoursAgo /\
  isActive (attempt Exercise calm fiveSecondsLate walkedTwelveHoursAgo)
  = false.
Proof.
  split.
  { unfold walkedTwelveHoursAgo. apply reachable_run.
    - repeat constructor.
    - apply reach_mount. exact rex_in_range. }
  split.
  { unfold spec_exercise_ready.
    split; [now vm_compute | split; [now vm_compute | split]].
    - vm_compute. discriminate.
    - right. vm_compute. discriminate. }
  assert (D : disabled Exercise walkedTwelveHoursAgo = true)
    by now vm_compute.
  unfold attempt. rewrite D. split; [reflexivity | now vm_compute].
Qed.

(** ** The dog's restock surcharge *)

(** C6. For a dog whose Feed button is enabled: below 120 completed feeds
    the attempt charges nothing and runs for the base 5 seconds; from 120
    on it charges 25 and runs for 5 + 60 seconds, against a base cost of 0
    and a base duration of 5.  The countdown it starts adds one to the feed
    counter when it completes, so the 121st attempt is the first to find
    the counter at 120. *)
Theorem dog_feed_restock (rnd : nat -> Q) (c : Clock) (st : State) :
  type (pet st) = "dog" ->
  disabled Feed st = false ->
  let st' := attempt Feed rnd c st in
  ((feedCount st < 120)%Z ->
   totalSpent st' = totalSpent st /\ actionTimer st' = 5%Z /\
   activeAction st' = Some "Feeding") /\
  ((120 <= feedCount st)%Z ->
   totalSpent st' = (totalSpent st + 25)%Z /\ actionTimer st' = (5 + 60)%Z /\
   activeAction st' = Some "Getting food & Feeding") /\
  feed_cost (feed (actions (petConfig st))) = 0%Z /\
  feed_duration (feed (actions (petConfig st))) = 5%Z /\
  exists r : ActionRun,
    intervals st' = intervals st ++ [r] /\
    forall (c' : Clock) (s : State),
      (actionTimer s <= 1)%Z ->
      feedCount (countdown r c' s) = (feedCount s + 1)%Z.
Proof.
  intros T D st'. unfold st', attempt. rewrite D. cbn [onClick].
  unfold onFeed, feedCost, isDog, petConfig. rewrite T.
  change (String.eqb "dog" "dog") with true. cbn [andb petConfigs].
  change (petConfigs "dog") with dog.
  split; [| split; [| split; [| split]]].
  - intros L. destruct (Z.geb_spec (feedCount st) 120); [lia |].
    destruct (handleAction_shape "Feeding" 0 5
      (mkChanges
         (Some (JS.Math_min 100 (hunger (stats (pet st)) + feed_hunger (feed (actions dog)))))
         (whenSet (feed_happiness (feed (actions dog)))
            (JS.Math_min 100 (happiness (stats (pet st)) + JS.num (feed_happiness (feed (actions dog))))))
         None
         (whenSet (feed_energy (feed (actions dog)))
            (JS.Math_min 100 (energy (stats (pet st)) + JS.num (feed_energy (feed (actions dog))))))
         None) FeedDone c st) as (Ea & Et & Es & _).
    cbn [feed_duration feed actions dog] in *.
    rewrite Ea, Et, Es. repeat split; auto. lia.
  - intros L. destruct (Z.geb_spec (feedCount st) 120); [| lia].
    unfold handleAction. cbn. repeat split; auto.
  - reflexivity.
  - reflexivity.
  - destruct (feedCount st >=? 120)%Z; unfold handleAction; cbn;
      eexists; (split; [reflexivity |]); intros c' s Hs;
      unfold countdown; apply Z.leb_le in Hs; rewrite Hs; reflexivity.
Qed.

Lemma dog_feed_restock_witness :
  type (pet restockDue) = "dog" /\ disabled Feed restockDue = false /\
  totalSpent (attempt Feed calm (noonAt 0) restockDue)
  = (totalSpent restockDue + 25)%Z.
Proof.
  assert (T : type (pet restockDue) = "dog") by now vm_compute.
  assert (D : disabled Feed restockDue = false) by now vm_compute.
  split; [exact T | split; [exact D |]].
  refine (proj1 (proj1 (proj2 (dog_feed_restock calm (noonAt 0) restockDue
                                  T D)) _)).
  now vm_compute.
Defined.

(** ** The two decay engines *)

Lemma max0_step (x d k : Q) :
  0 <= d -> 0 <= k ->
  Qmax 0 (Qmax 0 (x - k * d) - d) == Qmax 0 (x - (k + 1) * d).
Proof.
  intros Hd Hk. assert (0 <= k * d) by nra.
  destruct (Q.max_spec 0 (x - k * d)) as [[H1 E] | [H1 E]]; rewrite E.
  - apply Q.max_compat; [reflexivity | ring].
  - rewrite Q.max_l by lra. rewrite Q.max_l by nra. reflexivity.
Qed.

Lemma max0_iter (x d : Q) (n : nat) (f : nat -> Q) :
  0 <= x -> 0 <= d ->
  f O == x ->
  (forall k, f (S k) == Qmax 0 (f k - d)) ->
  f n == Qmax 0 (x - inject_Z (Z.of_nat n) * d).
Proof.
  intros Hx Hd H0 HS. induction n as [| n IH].
  - rewrite H0. cbn [Z.of_nat]. rewrite Q.max_r; [ring | ].
    setoid_replace (x - inject_Z 0 * d) with x by ring. exact Hx.
  - rewrite HS. rewrite IH.
    assert (Hn : 0 <= inject_Z (Z.of_nat n)).
    { change 0 with (inject_Z 0). rewrite <- Zle_Qle. lia. }
    rewrite (max0_step x d _ Hd Hn).
    apply Q.max_compat; [reflexivity |].
    rewrite Nat2Z.inj_succ. unfold Z.succ. rewrite inject_Z_plus. ring.
Qed.

Lemma calculateDecay_form (c : Clock) (x r h : Q) :
  calculateDecay c x r h
  == Qmax 0 (x - r * (if Qeq_bool r 1 || Qeq_bool r 0.5
                      then nightFactor c else 1) * h).
Proof.
  unfold calculateDecay, nightFactor, JS.Math_max.
  destruct ((getHours c >=? 22)%Z || (getHours c <? 6)%Z);
    destruct (Qeq_bool r 1 || Qeq_bool r 0.5); cbn [andb];
    apply Q.max_compat; try reflexivity; ring.
Qed.

Lemma max0_between (x d : Q) :
  0 <= x -> 0 <= d -> 0 <= Qmax 0 (x - d) /\ Qmax 0 (x - d) <= x.
Proof.
  intros Hx Hd. split; [apply Q.le_max_l | apply Q.max_lub; lra].
Qed.

Lemma awakeTicks_never_raise (n : nat) (cfg : PetConfig) (daytime : bool)
    (minutesSinceRest : Q) (s : PetStats) :
  profile_ok cfg -> stats_in_range s ->
  let ticked := awakeTicks n cfg daytime minutesSinceRest s in
  (0 <= hunger ticked /\ hunger ticked <= hunger s) /\
  (0 <= hygiene ticked /\ hygiene ticked <= hygiene s) /\
  (0 <= thirst ticked /\ thirst ticked <= thirst s).
Proof.
  intros ((Dh & Dha & Dhy & Dt) & _) ((Hh & _) & _ & (Hhy & _) & _ & (Ht & _)).
  cbv zeta. induction n as [| n ((A1 & A2) & (B1 & B2) & (C1 & C2))].
  - cbn [awakeTicks]. repeat split; lra.
  - cbn [awakeTicks]. unfold awakeStats at 1 2 3 4 5 6. cbv zeta.
    cbn [hunger hygiene thirst]. unfold JS.Math_max.
    destruct (max0_between
                (hunger (awakeTicks n cfg daytime minutesSinceRest s))
                (1 / decay_hunger (decayRates cfg) * 0.5) A1)
      as [X1 X2]; [now apply half_rate_nonneg |].
    destruct (max0_between
                (hygiene (awakeTicks n cfg daytime minutesSinceRest s))
                (1 / (decay_hygiene (decayRates cfg) * 2) * 0.5) B1)
      as [Y1 Y2]; [apply half_rate_nonneg; lra |].
    destruct (max0_between
                (thirst (awakeTicks n cfg daytime minutesSinceRest s))
                (1 / decay_thirst (decayRates cfg) * 0.5) C1)
      as [Z1 Z2]; [now apply half_rate_nonneg |].
    repeat split; try assumption; lra.
Qed.

Lemma ticks_take_more_hunger (t : string) (daytime : bool)
    (minutesSinceRest : Q) (n : nat) (c : Clock) (s : PetStats) :
  stats_in_range s -> (1 <= n)%nat ->
  0 < hunger (catchUpStats c (savedOf s) (hoursOfTicks n)) ->
  hunger (awakeTicks n (petConfigs t) daytime minutesSinceRest s)
  < hunger (catchUpStats c (savedOf s) (hoursOfTicks n)).
Proof.
  intros ((Hh & _) & _) Hn.
  assert (N : 1 <= inject_Z (Z.of_nat n)).
  { change 1 with (inject_Z 1). rewrite <- Zle_Qle. lia. }
  assert (T : hunger (awakeTicks n (petConfigs t) daytime minutesSinceRest s)
              == Qmax 0 (hunger s
                         - inject_Z (Z.of_nat n)
                           * (1 / decay_hunger (decayRates (petConfigs t))
                              * 0.5))).
  { apply (max0_iter (hunger s) _ n
             (fun k => hunger (awakeTicks k (petConfigs t) daytime
                                 minutesSinceRest s)));
      [exact Hh | apply half_rate_nonneg; apply (petConfigs_ok t)
      | reflexivity | reflexivity]. }
  rewrite T. unfold catchUpStats, savedOf, hoursOfTicks.
  cbn [hunger saved_hunger]. rewrite calculateDecay_form.
  change (Qeq_bool 1 1 || Qeq_bool 1 0.5) with true. cbv iota.
  set (N' := inject_Z (Z.of_nat n)) in *.
  assert (D : N' / 120 == N' * (1 # 120)) by reflexivity. rewrite D.
  assert (F : nightFactor c == 0.2 \/ nightFactor c == 1).
  { unfold nightFactor. destruct (_ || _); [left | right]; reflexivity. }
  assert (R : 1 / decay_hunger (decayRates (petConfigs t)) * 0.5 == 2 # 27 \/
              1 / decay_hunger (decayRates (petConfigs t)) * 0.5 == 1 # 16 \/
              1 / decay_hunger (decayRates (petConfigs t)) * 0.5 == 1 # 10 \/
              1 / decay_hunger (decayRates (petConfigs t)) * 0.5 == 1 # 8).
  { destruct (petConfigs_cases t) as [-> | [-> | [-> | ->]]];
      [left | right; left | right; right; left | right; right; right];
      reflexivity. }
  intros P.
  destruct (Q.max_spec 0 (hunger s - 1 * nightFactor c * (N' * (1 # 120))))
    as [[_ E] | [L E]]; rewrite E in *; [| lra].
  apply Q.max_lub_lt; [exact P |].
  destruct F as [F | F]; rewrite F;
    destruct R as [R | [R | [R | R]]]; rewrite R; lra.
Qed.

(** C2, as the code has it.  The two engines lower the stats by different
    amounts.  Every awake tick, the first and any later one, takes
    [1 / decayRate * 0.5] off hunger and thirst and
    [1 / (decayRate * 2) * 0.5] off hygiene, with the rates of the
    profile, floored at 0, so that a run of ticks never raises them.  The
    catch-up over [h] hours takes [1 * h], [0.5 * h], [0.3 * h], [0.4 * h]
    and [2 * h] off hunger, happiness, hygiene, energy and thirst,
    whatever the profile, floored at 0, the first two scaled by 0.2 when
    the hour of the restore is in the night band; the thirst amount is
    stated for a saved thirst other than 0.  Over any [n >= 1] ticks, and
    for each of the four profiles, the ticks leave strictly less hunger
    than the catch-up over the same [n] half minutes, unless the catch-up
    has itself reached 0. *)
Theorem decay_engines_rates (t : string) (daytime : bool)
    (minutesSinceRest : Q) (n : nat) (c : Clock) (h : Q) (s : PetStats) :
  stats_in_range s ->
  let d := decayRates (petConfigs t) in
  let before := awakeTicks n (petConfigs t) daytime minutesSinceRest s in
  let after := awakeTicks (S n) (petConfigs t) daytime minutesSinceRest s in
  let caught := catchUpStats c (savedOf s) h in
  (hunger after == Qmax 0 (hunger before - 1 / decay_hunger d * 0.5) /\
   hygiene after
   == Qmax 0 (hygiene before - 1 / (decay_hygiene d * 2) * 0.5) /\
   thirst after == Qmax 0 (thirst before - 1 / decay_thirst d * 0.5)) /\
  ((0 <= hunger before /\ hunger before <= hunger s) /\
   (0 <= hygiene before /\ hygiene before <= hygiene s) /\
   (0 <= thirst before /\ thirst before <= thirst s)) /\
  (hunger caught == Qmax 0 (hunger s - 1 * nightFactor c * h) /\
   happiness caught == Qmax 0 (happiness s - 0.5 * nightFactor c * h) /\
   hygiene caught == Qmax 0 (hygiene s - 0.3 * h) /\
   energy caught == Qmax 0 (energy s - 0.4 * h) /\
   (~ thirst s == 0 -> thirst caught == Qmax 0 (thirst s - 2 * h))) /\
  ((1 <= n)%nat ->
   0 < hunger (catchUpStats c (savedOf s) (hoursOfTicks n)) ->
   hunger before < hunger (catchUpStats c (savedOf s) (hoursOfTicks n))).
Proof.
  intros Hs d before after caught.
  split; [| split; [| split]].
  - unfold after, before. cbn [awakeTicks].
    repeat split; reflexivity.
  - apply awakeTicks_never_raise; [apply petConfigs_ok | exact Hs].
  - unfold caught, catchUpStats, savedOf.
    cbn [hunger happiness hygiene energy thirst saved_hunger saved_happiness
         saved_hygiene saved_energy saved_thirst].
    rewrite !calculateDecay_form.
    split; [| split; [| split; [| split]]].
    + reflexivity.
    + reflexivity.
    + apply Q.max_compat; [reflexivity |].
      change (Qeq_bool 0.3 1 || Qeq_bool 0.3 0.5) with false. cbv iota. ring.
    + apply Q.max_compat; [reflexivity |].
      change (Qeq_bool 0.4 1 || Qeq_bool 0.4 0.5) with false. cbv iota. ring.
    + intros NZ. apply Q.max_compat; [reflexivity |].
      change (Qeq_bool 2 1 || Qeq_bool 2 0.5) with false. cbv iota.
      unfold JS.or_default. destruct (Qeq_bool (thirst s) 0) eqn:E.
      * apply Qeq_bool_iff in E. contradiction.
      * cbv iota. ring.
  - intros Hn P. unfold before. now apply ticks_take_more_hunger.
Qed.

Lemma allFifty_in_range : stats_in_range allFifty.
Proof. repeat split; unfold Qle; simpl; lia. Defined.

Lemma decay_engines_rates_witness :
  stats_in_range allFifty /\
  hunger (awakeTicks 3 dog true 0 allFifty)
  == Qmax 0 (hunger (awakeTicks 2 dog true 0 allFifty)
             - 1 / decay_hunger (decayRates dog) * 0.5) /\
  hunger (catchUpStats (noonAt 0) (savedOf allFifty) 1)
  == Qmax 0 (hunger allFifty - 1 * nightFactor (noonAt 0) * 1).
Proof.
  split; [exact allFifty_in_range |].
  pose proof (decay_engines_rates "dog" true 0 2 (noonAt 0) 1 allFifty
                allFifty_in_range) as H.
  cbv zeta in H.
  exact (conj (proj1 (proj1 H)) (proj1 (proj1 (proj2 (proj2 H))))).
Defined.

(** C2, as the spec words it, fails.  One awake tick of the dog profile at
    noon takes 2/27 off a hunger of 50; the catch-up over the same thirty
    seconds takes 1/120 off it. *)
Lemma decay_engines_disagree :
  let before := mount rex (noonAt 0) in
  let ticked := stats (pet (step DecayTick (noonAt 30000) before)) in
  let caught :=
    stats (pet (step (Restore (dataToSave 0 before)) (noonAt 30000)
                  (mount rex (noonAt 30000)))) in
  hunger ticked == 50 - (2 # 27) /\
  hunger caught == 50 - (1 # 120) /\
  ~ stats_eq ticked caught /\
  ~ stats_eq (awakeTicks 1 dog true 0 allFifty)
      (catchUpStats (noonAt 30000) (savedOf allFifty) (hoursOfTicks 1)).
Proof.
  cbv zeta. split; [now vm_compute | split; [now vm_compute | split]].
  - intros [H _]. vm_compute in H. discriminate H.
  - intros [H _]. vm_compute in H. discriminate H.
Qed.

(** C7, as the spec words it, fails for hygiene.  For the dog at hygiene
    50 an asleep tick takes half of what an awake tick takes, not a
    quarter. *)
Lemma asleep_hygiene_is_half_not_quarter :
  let awakeDrop := hygiene allFifty - hygiene (awakeStats dog true 0 allFifty) in
  let asleepDrop := hygiene allFifty - hygiene (asleepStats dog allFifty) in
  asleepDrop == (50 # 100) * awakeDrop /\
  ~ asleepDrop == (25 # 100) * awakeDrop.
Proof.
  cbv zeta. split; [now vm_compute |].
  intros H. vm_compute in H. discriminate H.
Qed.

(** ** The toy-break penalty *)

Lemma play_captures_toy (rnd : nat -> Q) (c : Clock) (st : State) :
  disabled Play st = false ->
  exists id ch timers breaks,
    intervals (attempt Play rnd c st)
    = intervals st
      ++ [mkRun id "Playing" ch
            (PlayDone timers breaks (hasToy st) (name (pet st)))]
    /\ (breaks = true -> hasToy st = true).
Proof.
  intros D. unfold attempt. rewrite D. cbn [onClick]. unfold onPlay.
  match goal with
  | |- context [let '(_, _) := ?acc in _] => destruct acc as [timers st3] eqn:E
  end.
  assert (Hi : intervals st3 = intervals st).
  { replace st3 with (snd (timers, st3)) by reflexivity. rewrite <- E.
    unfold pushTimeoutIf.
    repeat match goal with |- context [if ?b then _ else _] => destruct b end;
      reflexivity. }
  destruct (handleAction_shape "Playing"
              (play_cost (play (actions (petConfig st))))
              (play_duration (play (actions (petConfig st))))
              (mkChanges
        (whenPositive (absIfNonzero (play_hunger (play (actions (petConfig st)))))
           (JS.Math_max 0 (hunger (stats (pet st)) - absIfNonzero (play_hunger (play (actions (petConfig st)))))))
        (Some (JS.Math_min 100 (happiness (stats (pet st)) + play_happiness (play (actions (petConfig st))))))
        (whenPositive (absIfSet (play_hygiene (play (actions (petConfig st)))))
           (JS.Math_max 0 (hygiene (stats (pet st)) - absIfSet (play_hygiene (play (actions (petConfig st)))))))
        (Some (JS.Math_max 0 (energy (stats (pet st)) - JS.Math_abs (play_energy (play (actions (petConfig st)))))))
        (whenPositive (absIfNonzero (play_thirst (play (actions (petConfig st)))))
           (JS.Math_max 0 (thirst (stats (pet st)) - absIfNonzero (play_thirst (play (actions (petConfig st))))))))
              (PlayDone timers
                 (JS.ltb (rnd 2%nat) 0.10
                  && play_requiresToy (play (actions (petConfig st))))
                 (hasToy st) (name (pet st))) c st3) as (_ & _ & _ & Ei & _).
  rewrite Ei, Hi. do 4 eexists. split; [reflexivity |].
  intros B. apply andb_true_iff in B. destruct B as [_ B].
  cbn [disabled] in D. rewrite B in D.
  destruct (hasToy st); auto.
  rewrite !orb_false_iff in D. cbn in D. intuition discriminate.
Qed.

Lemma captured_toy_penalty_is_noop (petName : string) (c : Clock)
    (st : State) :
  runTimeout (ToyPenalty true petName) c st = st.
Proof. reflexivity. Qed.

(** C9 on the code.  Rex's toy breaks at the end of a play session and no
    other toy is bought.  The only timeout left pending is the penalty
    check, holding the [hasToy = true] of the render in which Play was
    clicked; when it fires an hour later the pet still has no toy, yet
    happiness and the event log are unchanged and nothing remains
    scheduled: the penalty is applied zero times. *)
Theorem broken_toy_penalty_never_applies :
  let fired := step (TimeoutFire 1) (noonAt (5000 + hour)) toyJustBroke in
  reachable toyJustBroke /\
  hasToy toyJustBroke = false /\
  map timeout_callback (timeouts toyJustBroke) = [ToyPenalty true "Rex"] /\
  map timeout_id (timeouts toyJustBroke) = [1%nat] /\
  hasToy fired = false /\
  stats (pet fired) = stats (pet toyJustBroke) /\
  events fired = events toyJustBroke /\
  timeouts fired = [].
Proof.
  cbv zeta. split.
  { unfold toyJustBroke. apply reachable_run.
    - repeat constructor.
    - apply reach_mount. exact rex_in_range. }
  repeat (match goal with |- _ /\ _ => split end); now vm_compute.
Qed.

(** ** Catch-up and a thirst of zero *)

(** C10 on the code.  A walk takes Rex's thirst from 30 to 0 and the state
    is saved.  Restoring that record at the very moment it was written
    gives a thirst of 80: [thirst || 80] reads the saved 0 as a missing
    field. *)
Theorem catchup_revives_zero_thirst :
  let restored :=
    step (Restore (dataToSave 5000 parched)) (noonAt 5000)
      (mount (pet parched) (noonAt 5000)) in
  reachable parched /\
  thirst (stats (pet parched)) == 0 /\
  saved_thirst (saved_stats (dataToSave 5000 parched)) = Some 0 /\
  thirst (stats (pet restored)) == 80 /\
  thirst (catchUpStats (noonAt 5000) (savedOf (stats (pet parched))) 0) == 80.
Proof.
  cbv zeta. split.
  { unfold parched. apply reachable_run.
    - repeat constructor.
    - apply reach_mount. repeat split; unfold Qle; simpl; lia. }
  repeat (match goal with |- _ /\ _ => split end); now vm_compute.
Qed.

(** * Further properties of the code *)

Tactic Notation "state_simpl" "in" hyp(H) :=
  cbn [pet totalSpent events activeAction actionTimer isSleeping lastRestTime
       walkCountdown hasToy lastWalkTime lastBathTime lastTrimNailsTime
       feedCount intervals timeouts nextTimerId
       setPet setTotalSpent setEvents setActiveAction setActionTimer
       setIsSleeping setLastRestTime setWalkCountdown setHasToy
       setLastWalkTime setLastBathTime setLastTrimNailsTime setFeedCount
       setIntervals setTimeouts setNextTimerId setStats addEvent
       type name stats emotion clearTimeout clearInterval setTimeout
       fst snd] in H.

(** ** The event log and the identity of the pet *)

Lemma log_capped_refl (st : State) : log_capped st st.
Proof. now left. Qed.

Lemma log_capped_trans (a b c : State) :
  log_capped c b -> log_capped b a -> log_capped c a.
Proof.
  intros [E | [l E]] H.
  - destruct H as [E' | [l' E']]; [left | right; exists l']; congruence.
  - right. now exists l.
Qed.

Lemma log_capped_addEvent (m : string) (c : Clock) (st : State) :
  log_capped (addEvent m c st) st.
Proof. right. now eexists. Qed.

Lemma log_capped_handleAction (a : string) (cost d : Z) (ch : StatChanges)
    (e : ExtraEffects) (c : Clock) (st : State) :
  log_capped (handleAction a cost d ch e c st) st.
Proof.
  unfold handleAction. destruct (cost >? 0)%Z.
  - right. now eexists.
  - now left.
Qed.

Lemma events_push (b : bool) (cb : TimeoutCallback) (d : Q)
    (acc : list nat * State) :
  events (snd (pushTimeoutIf b cb d acc)) = events (snd acc).
Proof. unfold pushTimeoutIf. now destruct b. Qed.

Lemma log_capped_onClick (k : ActionKind) (rnd : nat -> Q) (c : Clock)
    (st : State) :
  log_capped (onClick k rnd c st) st.
Proof.
  destruct k; cbn [onClick].
  - apply log_capped_handleAction.
  - apply log_capped_handleAction.
  - unfold onExercise.
    destruct (exerciseMessages _ _) as [[m0 m1] m2].
    match goal with
    | |- context [let '(_, _) := ?acc in _] =>
        destruct acc as [timers st3] eqn:E
    end.
    eapply log_capped_trans; [apply log_capped_handleAction |].
    replace st3 with (snd (timers, st3)) by reflexivity. rewrite <- E.
    right. rewrite !events_push. now eexists.
  - unfold onPlay.
    match goal with
    | |- context [let '(_, _) := ?acc in _] =>
        destruct acc as [timers st3] eqn:E
    end.
    eapply log_capped_trans; [apply log_capped_handleAction |].
    replace st3 with (snd (timers, st3)) by reflexivity. rewrite <- E.
    right. rewrite !events_push. now eexists.
  - eapply log_capped_trans;
      [apply log_capped_handleAction | apply log_capped_addEvent].
  - eapply log_capped_trans;
      [apply log_capped_handleAction | apply log_capped_addEvent].
  - eapply log_capped_trans;
      [apply log_capped_handleAction | apply log_capped_addEvent].
  - eapply log_capped_trans;
      [apply log_capped_handleAction | apply log_capped_addEvent].
Qed.

Lemma clearTimeouts_events (l : list nat) (st : State) :
  events (fold_left (fun s t => clearTimeout t s) l st) = events st
  /\ totalSpent (fold_left (fun s t => clearTimeout t s) l st)
     = totalSpent st.
Proof.
  revert st. induction l as [| t l IH]; intros st; cbn; auto.
  destruct (IH (clearTimeout t st)) as [-> ->]. auto.
Qed.

Lemma log_capped_runExtraEffects (e : ExtraEffects) (c : Clock) (st : State) :
  log_capped (runExtraEffects e c st) st.
Proof.
  destruct e as [| | timers label petName | timers breaks cap petName
                 | | | petName | finishLabel petName];
    cbn [runExtraEffects].
  - now left.
  - now left.
  - right. now eexists.
  - destruct breaks; [right; now eexists |].
    left. apply clearTimeouts_events.
  - right. now eexists.
  - now left.
  - right. now eexists.
  - right. now eexists.
Qed.

Lemma log_capped_handle (ev : Event) (c : Clock) (st : State) :
  isRestore ev = false -> log_capped (handle ev c st) st.
Proof.
  intros NR. destruct ev; cbn [handle]; try discriminate NR.
  - unfold attempt. destruct (disabled k st);
      [apply log_capped_refl | apply log_capped_onClick].
  - destruct (find _ _) as [r |]; [| apply log_capped_refl].
    unfold countdown. destruct (actionTimer st <=? 1)%Z;
      [right; now eexists | now left].
  - destruct (find _ _) as [t |]; [| apply log_capped_refl].
    destruct (timeout_callback t) as [? ? | ? ? | [] ?]; cbn [runTimeout];
      try (right; now eexists); now left.
  - unfold decayInterval.
    destruct (_ && _); [now left |]. destruct (isSleeping st); now left.
  - unfold checkSleepCycle.
    destruct (_ && _); [right; now eexists |].
    destruct (_ && _); [right; now eexists | now left].
  - unfold updateCountdowns. destruct (_ || _); now left.
  - destruct (_ || _); [now left |]. unfold idleEvent. cbv zeta.
    destruct (JS.ltb rand 0.02); [| now left].
    destruct (JS.ltb _ 50); right; now eexists.
  - right. now eexists.
Qed.

Lemma events_updateCountdowns (c : Clock) (st : State) :
  events (updateCountdowns c st) = events st.
Proof. unfold updateCountdowns. now destruct (_ || _). Qed.

Lemma events_capped_step (ev : Event) (c : Clock) (st : State) :
  isRestore ev = false ->
  (List.length (events st) <= 20)%nat ->
  (List.length (events (step ev c st)) <= 20)%nat.
Proof.
  intros NR H. apply step_settles.
  - destruct (log_capped_handle ev c st NR) as [-> | [l ->]]; auto.
    apply firstn_le_length.
  - intros s. now rewrite events_updateCountdowns.
Qed.

Lemma reachable_log_length {accepts : Z -> Clock -> Prop} (st : State) :
  reachable_when accepts st -> (List.length (events st) <= 20)%nat.
Proof.
  induction 1 as [p c Hp | ev c st _ IH NR | earlier savedAt c st _ IHe _ IH L].
  - cbn. lia.
  - now apply events_capped_step.
  - apply step_settles.
    + cbn [handle]. unfold restore. destruct (_ && _); [| exact IH].
      destruct (JS.ltb _ _);
        [unfold addEvent; cbn [events setEvents]; apply firstn_le_length
        | exact IHe].
    + intros s. now rewrite events_updateCountdowns.
Qed.

(** X1. The event log never holds more than 20 entries, in any reachable
    state: every append cuts it, and a restore takes over a log that an
    earlier session had already cut. *)
Theorem events_never_exceed_20 (st : State) :
  reachable st -> (List.length (events st) <= 20)%nat.
Proof. apply reachable_log_length. Qed.

Lemma events_never_exceed_20_witness :
  reachable walkedTwelveHoursAgo /\
  (List.length (events walkedTwelveHoursAgo) <= 20)%nat.
Proof.
  assert (R : reachable walkedTwelveHoursAgo).
  { unfold walkedTwelveHoursAgo. apply reachable_run.
    - repeat constructor.
    - apply reach_mount. exact rex_in_range. }
  split; [exact R | exact (events_never_exceed_20 _ R)].
Defined.

Lemma attempt_pet_spent (k : ActionKind) (rnd : nat -> Q) (c : Clock)
    (st : State) :
  pet (attempt k rnd c st) = pet st /\
  (totalSpent (attempt k rnd c st) = totalSpent st \/
   totalSpent (attempt k rnd c st) = (totalSpent st + buttonCost k st)%Z).
Proof.
  unfold attempt. destruct (disabled k st); [auto |].
  destruct (onClick_shape k rnd c st)
    as (st0 & label & ch & e & -> & _ & P & _).
  destruct P as (Hp & Hs & _).
  pose proof (handleAction_shape label (buttonCost k st)
                (actionDuration k st) ch e c st0) as H.
  cbv zeta in H. destruct H as (_ & _ & Es & _ & Ep & _).
  rewrite Ep, Es, Hp, Hs. auto.
Qed.

Lemma runExtraEffects_pet_spent (e : ExtraEffects) (c : Clock) (st : State) :
  pet (runExtraEffects e c st) = pet st /\
  totalSpent (runExtraEffects e c st) = totalSpent st.
Proof.
  destruct e as [| | timers label petName | timers breaks cap petName
                 | | | petName | finishLabel petName];
    cbn [runExtraEffects]; auto.
  - destruct (clearTimeouts_shape timers st (fun _ => True)) as (Ep & _).
    destruct (clearTimeouts_events timers st) as (_ & Es).
    state_simpl. auto.
  - destruct (clearTimeouts_shape timers st (fun _ => True)) as (Ep & _).
    destruct (clearTimeouts_events timers st) as (_ & Es).
    destruct breaks; state_simpl; auto.
Qed.

Lemma same_pet_handle (ev : Event) (c : Clock) (st : State) :
  same_pet (handle ev c st) st.
Proof.
  unfold same_pet. destruct ev; cbn [handle].
  - destruct (attempt_pet_spent k rnd c st) as [-> _]. auto.
  - destruct (find _ _) as [r |]; [| auto].
    unfold countdown. destruct (actionTimer st <=? 1)%Z; [| auto].
    state_simpl.
    match goal with
    | |- context [runExtraEffects ?e c ?s] =>
        destruct (runExtraEffects_pet_spent e c s) as [-> _]
    end.
    auto.
  - destruct (find _ _) as [t |]; [| auto].
    destruct (timeout_callback t) as [? ? | ? ? | [] ?]; cbn [runTimeout];
      auto.
  - unfold decayInterval.
    destruct (_ && _); [auto |]. destruct (isSleeping st); auto.
  - unfold checkSleepCycle.
    destruct (_ && _); [auto |]. destruct (_ && _); auto.
  - unfold updateCountdowns. destruct (_ || _); auto.
  - destruct (_ || _); [auto |]. rewrite idleEvent_frame. auto.
  - auto.
  - unfold restore.
    destruct (String.eqb (saved_name parsed) (name (pet st))) eqn:En;
      [| auto].
    destruct (String.eqb (saved_type parsed) (type (pet st))) eqn:Et;
      [| auto].
    apply String.eqb_eq in En, Et. cbn [andb].
    destruct (JS.ltb _ _); state_simpl; auto.
Qed.

Lemma same_pet_step (ev : Event) (c : Clock) (st : State) :
  same_pet (step ev c st) st.
Proof.
  apply step_settles; [apply same_pet_handle |].
  intros s [Ht Hn]. destruct (updateCountdowns_shape c s) as (Ep & _).
  unfold same_pet. now rewrite Ep.
Qed.

(** X2. Whatever happens to a mounted dashboard (clicks, timers, a
    restore of any parsed record), the pet keeps the type and the name it
    was mounted with. *)
Theorem pet_identity_is_fixed (trace : list (Event * Clock)) (st : State) :
  type (pet (run trace st)) = type (pet st) /\
  name (pet (run trace st)) = name (pet st).
Proof.
  revert st. induction trace as [| [ev c] trace IH]; intros st.
  - auto.
  - cbn [run fold_left fst snd]. fold (run trace (step ev c st)).
    destruct (IH (step ev c st)) as [-> ->]. apply same_pet_step.
Qed.

Lemma buttonCost_nonneg (k : ActionKind) (st : State) :
  (0 <= buttonCost k st)%Z.
Proof.
  unfold buttonCost, feedCost, petConfig.
  destruct (petConfigs_cases (type (pet st))) as [-> | [-> | [-> | ->]]];
    destruct k; cbn; try lia;
    destruct (isDog st); try lia; destruct (feedCount st >=? 120)%Z; lia.
Qed.

Lemma spent_handle (ev : Event) (c : Clock) (st : State) :
  isRestore ev = false ->
  (forall cost, ev = InitialPurchaseComplete cost -> (0 <= cost)%Z) ->
  (totalSpent st <= totalSpent (handle ev c st))%Z.
Proof.
  intros NR HC. destruct ev; cbn [handle]; try discriminate NR.
  - pose proof (buttonCost_nonneg k st).
    destruct (attempt_pet_spent k rnd c st) as [_ [-> | ->]]; lia.
  - destruct (find _ _) as [r |]; [| lia].
    unfold countdown. destruct (actionTimer st <=? 1)%Z; [| cbn; lia].
    state_simpl.
    match goal with
    | |- context [runExtraEffects ?e c ?s] =>
        destruct (runExtraEffects_pet_spent e c s) as [_ ->]
    end.
    cbn. lia.
  - destruct (find _ _) as [t |]; [| lia].
    destruct (timeout_callback t) as [? ? | ? ? | [] ?]; cbn; lia.
  - unfold decayInterval.
    destruct (_ && _); [cbn; lia |]. destruct (isSleeping st); cbn; lia.
  - unfold checkSleepCycle.
    destruct (_ && _); [cbn; lia |]. destruct (_ && _); cbn; lia.
  - unfold updateCountdowns. destruct (_ || _); cbn; lia.
  - destruct (_ || _); [lia |]. rewrite idleEvent_frame. cbn. lia.
  - specialize (HC cost eq_refl). cbn. lia.
Qed.

(** X3. Money is only ever added: no click and no timer lowers the total
    spent, provided the initial purchase has a cost that is not negative. *)
Theorem totalSpent_never_decreases (ev : Event) (c : Clock) (st : State) :
  isRestore ev = false ->
  (forall cost, ev = InitialPurchaseComplete cost -> (0 <= cost)%Z) ->
  (totalSpent st <= totalSpent (step ev c st))%Z.
Proof.
  intros NR HC. apply step_settles.
  - now apply spent_handle.
  - intros s H. unfold updateCountdowns. destruct (_ || _); exact H.
Qed.

Lemma totalSpent_never_decreases_witness :
  (totalSpent restockDue
   <= totalSpent (step (Click Feed calm) (noonAt 0) restockDue))%Z.
Proof.
  apply totalSpent_never_decreases; [reflexivity |].
  intros cost H. discriminate H.
Defined.

(** ** The decay tick, branch by branch *)

(** X4. An action in progress suspends the decay tick only while the pet
    is awake: then the tick changes nothing.  Once the pet is flagged
    asleep the asleep branch runs on every tick, action or not, and leaves
    the mood at sleeping; an idle, awake pet gets the awake branch, a mood
    other than sleeping and a fresh [lastRestTime]. *)
Theorem decay_tick_branches (c : Clock) (st : State) :
  (isActive st = true -> isSleeping st = false -> decayInterval c st = st) /\
  (isSleeping st = true ->
   stats (pet (decayInterval c st))
   = asleepStats (petConfig st) (stats (pet st)) /\
   emotion (pet (decayInterval c st)) = sleeping /\
   activeAction (decayInterval c st) = activeAction st) /\
  (isActive st = false -> isSleeping st = false ->
   stats (pet (decayInterval c st))
   = awakeStats (petConfig st) (isDaytime (sleepHours (petConfig st)) c)
       (inject_Z (now c - lastRestTime st) / (1000 * 60)) (stats (pet st)) /\
   emotion (pet (decayInterval c st)) <> sleeping /\
   lastRestTime (decayInterval c st) = now c).
Proof.
  unfold decayInterval. split; [| split].
  - intros -> ->. reflexivity.
  - intros ->. rewrite andb_false_r. cbn. auto.
  - intros -> ->. cbn [negb andb]. state_simpl. split; [reflexivity |].
    split; [| reflexivity].
    unfold updateEmotion.
    repeat match goal with
           | |- context [if ?b then _ else _] => destruct b
           end; discriminate.
Qed.

Lemma decay_tick_branches_witness :
  isSleeping (setIsSleeping true walkedTwelveHoursAgo) = true /\
  emotion (pet (decayInterval (lateAt 0)
                  (setIsSleeping true walkedTwelveHoursAgo))) = sleeping.
Proof.
  assert (H : isSleeping (setIsSleeping true walkedTwelveHoursAgo) = true)
    by reflexivity.
  split; [exact H |].
  exact (proj1 (proj2 (proj1 (proj2 (decay_tick_branches (lateAt 0)
                 (setIsSleeping true walkedTwelveHoursAgo))) H))).
Defined.

Lemma max0_le (x d : Q) : 0 <= x -> 0 <= d -> Qmax 0 (x - d) <= x.
Proof. intros. apply Q.max_lub; lra. Qed.

(** X5. An asleep tick never leaves hunger under 20 or thirst under 15: a
    value at or under the floor is set to the floor, so a sleeping pet
    with hunger 5 has hunger 20 after the tick; a value above it only goes
    down, and not below the floor.  Energy never goes down, happiness and
    hygiene never go up. *)
Theorem asleep_tick_floors (cfg : PetConfig) (s : PetStats) :
  profile_ok cfg -> stats_in_range s ->
  let s' := asleepStats cfg s in
  (20 <= hunger s' /\ 15 <= thirst s') /\
  (hunger s <= 20 -> hunger s' == 20) /\
  (20 <= hunger s -> hunger s' <= hunger s) /\
  (thirst s <= 15 -> thirst s' == 15) /\
  (15 <= thirst s -> thirst s' <= thirst s) /\
  energy s <= energy s' /\
  happiness s' <= happiness s /\
  hygiene s' <= hygiene s.
Proof.
  intros ((Dh & Dha & Dhy & Dt) & HT & _) (Hh & Hha & Hhy & He & Ht) s'.
  unfold s', asleepStats. cbn [hunger happiness hygiene energy thirst].
  set (T := inject_Z (totalSleepMinutes (sleepHours cfg))) in *.
  unfold JS.Math_max, JS.Math_min.
  assert (U1 : / T <= 1) by (apply Qle_shift_inv_r; lra).
  assert (U0 : 0 <= / T) by (apply Qinv_le_0_compat; lra).
  destruct Hh as [Hh0 Hh1], Ht as [Ht0 Ht1], He as [He0 He1],
    Hha as [Hha0 Hha1], Hhy as [Hhy0 Hhy1].
  split; [split; apply Q.le_max_l |].
  split.
  { intros L. rewrite (Q.max_l 0) by (unfold Qdiv; nra).
    apply Q.max_l. lra. }
  split.
  { intros L. apply Q.max_lub; [exact L |].
    assert (0 <= Qmax 0 ((hunger s - 20) / T)) by apply Q.le_max_l. nra. }
  split.
  { intros L. apply Q.max_l. unfold Qdiv.
    assert (0 <= (15 - thirst s) * (1 - 0.5 * / T)) by nra. nra. }
  split.
  { intros L. apply Q.max_lub; [exact L |]. unfold Qdiv.
    assert (0 <= (thirst s - 15) * / T) by nra. nra. }
  split.
  { apply Q.min_glb; lra. }
  split.
  - apply max0_le; auto. pose proof (half_rate_nonneg _ Dha). nra.
  - apply max0_le; auto.
    assert (0 <= 1 / (decay_hygiene (decayRates cfg) * 2) * 0.5)
      by (apply half_rate_nonneg; lra).
    nra.
Qed.

Lemma asleep_tick_floors_witness :
  profile_ok dog /\ stats_in_range (mkStats 5 50 50 50 5) /\
  hunger (asleepStats dog (mkStats 5 50 50 50 5)) == 20.
Proof.
  pose proof (petConfigs_ok "dog") as P.
  change (petConfigs "dog") with dog in P.
  assert (R : stats_in_range (mkStats 5 50 50 50 5))
    by (repeat split; unfold Qle; simpl; lia).
  split; [exact P | split; [exact R |]].
  refine (proj1 (proj2 (asleep_tick_floors dog _ P R)) _).
  unfold Qle; simpl; lia.
Defined.

(** X6. An awake tick never raises hunger, happiness, hygiene or thirst;
    energy rises by at most 2, only goes down in the daytime, and only
    goes up at night when the last awake tick is not in the future. *)
Theorem awake_tick_only_drains (cfg : PetConfig) (daytime : bool)
    (minutesSinceRest : Q) (s : PetStats) :
  profile_ok cfg -> stats_in_range s -> 0 <= decay_energy (decayRates cfg) ->
  let s' := awakeStats cfg daytime minutesSinceRest s in
  hunger s' <= hunger s /\ happiness s' <= happiness s /\
  hygiene s' <= hygiene s /\ thirst s' <= thirst s /\
  energy s' <= energy s + 2 /\
  (daytime = true -> energy s' <= energy s) /\
  (daytime = false -> 0 <= minutesSinceRest -> energy s <= energy s').
Proof.
  intros ((Dh & Dha & Dhy & Dt) & _) (Hh & Hha & Hhy & He & Ht) De s'.
  unfold s', awakeStats. cbn [hunger happiness hygiene energy thirst].
  unfold JS.Math_max, JS.Math_min.
  destruct Hh as [Hh0 Hh1], Ht as [Ht0 Ht1], He as [He0 He1],
    Hha as [Hha0 Hha1], Hhy as [Hhy0 Hhy1].
  pose proof (half_rate_nonneg _ De) as Ee.
  split; [apply max0_le; auto using half_rate_nonneg |].
  split.
  { apply max0_le; auto. pose proof (half_rate_nonneg _ Dha).
    destruct (JS.ltb (hunger s) 25), (JS.ltb (hygiene s) 40); nra. }
  split.
  { apply max0_le; auto. apply half_rate_nonneg. lra. }
  split; [apply max0_le; auto using half_rate_nonneg |].
  split.
  { eapply Qle_trans; [apply Q.le_min_r |]. apply Q.max_lub; [lra |].
    destruct daytime.
    - lra.
    - pose proof (Q.le_min_l 2 (minutesSinceRest / 10)). lra. }
  split.
  { intros ->. eapply Qle_trans; [apply Q.le_min_r |].
    apply Q.max_lub; lra. }
  intros -> Hm. apply Q.min_glb; [lra |].
  eapply Qle_trans; [| apply Q.le_max_r].
  assert (0 <= Qmin 2 (minutesSinceRest / 10)).
  { apply Q.min_glb; [lra |]. apply Qle_shift_div_l; lra. }
  lra.
Qed.

Lemma awake_tick_only_drains_witness :
  profile_ok dog /\ stats_in_range allFifty /\
  hunger (awakeStats dog true 0 allFifty) <= hunger allFifty.
Proof.
  pose proof (petConfigs_ok "dog") as P.
  change (petConfigs "dog") with dog in P.
  split; [exact P | split; [exact allFifty_in_range |]].
  refine (proj1 (awake_tick_only_drains dog true 0 allFifty P
                   allFifty_in_range _)).
  unfold Qle; simpl; lia.
Defined.

(** ** The countdown of an action *)

Lemma deps_unchanged (a b : State) :
  pet b = pet a -> lastWalkTime b = lastWalkTime a ->
  lastBathTime b = lastBathTime a ->
  lastTrimNailsTime b = lastTrimNailsTime a ->
  countdownDepsChanged a b = false.
Proof.
  intros Hp Hw Hb Ht. unfold countdownDepsChanged.
  rewrite Hp, Hw, Hb, Ht, !Qeq_bool_refl, !Z.eqb_refl. reflexivity.
Qed.

Lemma fire_before_last (r : ActionRun) (c : Clock) (st : State) :
  intervals st = [r] -> (1 < actionTimer st)%Z ->
  step (IntervalFire (run_id r)) c st
  = setActionTimer (actionTimer st - 1) st.
Proof.
  intros Hi Ht. unfold step. cbn [handle]. rewrite Hi. cbn [find].
  rewrite Nat.eqb_refl. unfold countdown.
  destruct (Z.leb_spec (actionTimer st) 1); [lia |].
  rewrite deps_unchanged; reflexivity.
Qed.

Lemma actionTimer_updateCountdowns (c : Clock) (st : State) :
  actionTimer (updateCountdowns c st) = actionTimer st.
Proof. unfold updateCountdowns. now destruct (_ || _). Qed.

Lemma fire_last (r : ActionRun) (c : Clock) (st : State) :
  intervals st = [r] -> (actionTimer st <= 1)%Z ->
  let done := step (IntervalFire (run_id r)) c st in
  activeAction done = None /\ intervals done = [] /\
  actionTimer done = 0%Z /\
  stats (pet done) = applyChanges (stats (pet st)) (run_statChanges r).
Proof.
  intros Hi Ht done. unfold done. apply step_settles.
  - cbn [handle]. rewrite Hi. cbn [find]. rewrite Nat.eqb_refl.
    unfold countdown. apply Z.leb_le in Ht. rewrite Ht.
    match goal with
    | |- context [runExtraEffects ?e c ?s] =>
        destruct (runExtraEffects_shape e c s) as (Ea & Ei & Es)
    end.
    state_simpl. state_simpl in Ea. state_simpl in Ei. state_simpl in Es.
    rewrite Ea, Ei, Es. rewrite Hi.
    cbn [filter]. rewrite Nat.eqb_refl. cbn [negb]. auto.
  - intros s (Ha & Hi' & Ht' & Hs).
    destruct (updateCountdowns_shape c s) as (Ep & Ei & _ & Ea).
    rewrite Ep, Ei, Ea, actionTimer_updateCountdowns. auto.
Qed.

(** X7. An action whose timer stands at [d] needs exactly [d] firings of
    its countdown.  Through the first [n < d] firings nothing but the timer
    changes: the action stays active, its countdown stays registered, the
    pet and the log are untouched.  Firing number [d] clears the active
    action, removes the countdown, zeroes the timer and overwrites the
    stats with the changes the action carried. *)
Theorem countdown_takes_its_duration (r : ActionRun) (clock : nat -> Clock)
    (st : State) (n : nat) :
  intervals st = [r] ->
  (Z.of_nat n < actionTimer st)%Z ->
  let mid := fires n (run_id r) clock st in
  (actionTimer mid = (actionTimer st - Z.of_nat n)%Z /\
   activeAction mid = activeAction st /\ intervals mid = [r] /\
   pet mid = pet st /\ events mid = events st) /\
  (actionTimer st = (Z.of_nat n + 1)%Z ->
   let done := fires (S n) (run_id r) clock st in
   activeAction done = None /\ intervals done = [] /\
   actionTimer done = 0%Z /\
   stats (pet done) = applyChanges (stats (pet st)) (run_statChanges r)).
Proof.
  intros Hi Hn mid.
  assert (M : actionTimer mid = (actionTimer st - Z.of_nat n)%Z /\
              activeAction mid = activeAction st /\ intervals mid = [r] /\
              pet mid = pet st /\ events mid = events st).
  { unfold mid. clear mid. induction n as [| n IH].
    - cbn [fires]. repeat split; auto. cbn. lia.
    - cbn [fires].
      destruct IH as (Et & Ea & Ei & Ep & Ee); [lia |].
      rewrite (fire_before_last r _ _ Ei) by lia.
      state_simpl. rewrite Et. repeat split; auto. lia. }
  split; [exact M |].
  intros Hd done. unfold done. cbn [fires]. fold mid.
  destruct M as (Et & Ea & Ei & Ep & Ee).
  destruct (fire_last r (clock n) mid Ei ltac:(lia)) as (H1 & H2 & H3 & H4).
  rewrite Ep in H4. auto.
Qed.

Lemma countdown_takes_its_duration_witness :
  let st := step (Click Feed calm) (noonAt 0) restockDue in
  exists r,
    intervals st = [r] /\ (Z.of_nat 64 < actionTimer st)%Z /\
    activeAction (fires 64 (run_id r) (fun _ => noonAt 0) st)
    = activeAction st.
Proof.
  cbv zeta.
  exists (mkRun 0 "Getting food & Feeding"
            (mkChanges (Some (JS.Math_min 100 (20 + 90)))
               (Some (JS.Math_min 100 (50 + 5))) None
               (Some (JS.Math_min 100 (50 + 12))) None) FeedDone).
  assert (Hi : intervals (step (Click Feed calm) (noonAt 0) restockDue)
               = [mkRun 0 "Getting food & Feeding"
                    (mkChanges (Some (JS.Math_min 100 (20 + 90)))
                       (Some (JS.Math_min 100 (50 + 5))) None
                       (Some (JS.Math_min 100 (50 + 12))) None) FeedDone])
    by reflexivity.
  assert (Hn : (Z.of_nat 64
                < actionTimer (step (Click Feed calm) (noonAt 0) restockDue))%Z)
    by reflexivity.
  split; [exact Hi | split; [exact Hn |]].
  exact (proj1 (proj2 (proj1 (countdown_takes_its_duration _
                                (fun _ => noonAt 0) _ 64 Hi Hn)))).
Defined.





(** X8. The values an exercise writes when it completes are fixed at the
    click: whatever the state is when the countdown reaches zero, for
    instance after a sub-event raised happiness by 10, happiness becomes
    min(100, happiness at the click + the configured gain) and energy
    max(0, energy at the click - the configured cost).  A bonus that fired
    during the exercise is overwritten. *)
Theorem exercise_writes_click_time_values (rnd : nat -> Q) (c : Clock)
    (st : State) :
  disabled Exercise st = false ->
  exists r : ActionRun,
    intervals (attempt Exercise rnd c st) = intervals st ++ [r] /\
    forall (c' : Clock) (s : State),
      (actionTimer s <= 1)%Z ->
      let ex := exercise (actions (petConfig st)) in
      happiness (stats (pet (countdown r c' s)))
      = JS.Math_min 100 (happiness (stats (pet st)) + exercise_happiness ex)
      /\
      energy (stats (pet (countdown r c' s)))
      = JS.Math_max 0
          (energy (stats (pet st)) - JS.Math_abs (exercise_energy ex)).
Proof.
  intros D. unfold attempt. rewrite D. cbn [onClick]. unfold onExercise.
  destruct (exerciseMessages _ _) as [[m0 m1] m2].
  match goal with
  | |- context [let '(_, _) := ?acc in _] => destruct acc as [timers st3] eqn:E
  end.
  assert (Hi : intervals st3 = intervals st).
  { replace st3 with (snd (timers, st3)) by reflexivity. rewrite <- E.
    unfold pushTimeoutIf.
    repeat match goal with |- context [if ?b then _ else _] => destruct b end;
      reflexivity. }
  match goal with
  | |- context [handleAction ?a ?co ?d ?ch ?e c st3] =>
      destruct (handleAction_shape a co d ch e c st3) as (_ & _ & _ & Ei & _);
      exists (mkRun (nextTimerId st3) a ch e)
  end.
  rewrite Ei, Hi. split; [reflexivity |].
  intros c' s Hs. cbv zeta. unfold countdown. apply Z.leb_le in Hs. rewrite Hs.
  cbn [run_extraEffects run_statChanges run_id runExtraEffects].
  state_simpl.
  match goal with
  | |- context [fold_left ?f timers ?s0] =>
      destruct (clearTimeouts_shape timers s0 (fun _ => True)) as (Ep & _)
  end.
  state_simpl in Ep. rewrite Ep. split; reflexivity.
Qed.

Lemma exercise_writes_click_time_values_witness :
  disabled Exercise (mount rex (noonAt 0)) = false /\
  exists r : ActionRun,
    intervals (attempt Exercise calm (noonAt 0) (mount rex (noonAt 0)))
    = intervals (mount rex (noonAt 0)) ++ [r].
Proof.
  assert (D : disabled Exercise (mount rex (noonAt 0)) = false)
    by now vm_compute.
  split; [exact D |].
  destruct (exercise_writes_click_time_values calm (noonAt 0)
              (mount rex (noonAt 0)) D) as (r & Hr & _).
  exists r. exact Hr.
Defined.



(** ** The exercise cooldown *)

Lemma cooldown_positive (t : string) :
  JS.geb 0 (exercise_cooldownHours (exercise (actions (petConfigs t))))
  = false.
Proof.
  destruct (petConfigs_cases t) as [-> | [-> | [-> | ->]]]; reflexivity.
Qed.

Lemma geb_proper (a a' b : Q) : a == a' -> JS.geb a b = JS.geb a' b.
Proof.
  intros E. unfold JS.geb.
  destruct (Qle_bool b a) eqn:H, (Qle_bool b a') eqn:H'; auto.
  - apply Qle_bool_iff in H. rewrite E in H. apply Qle_bool_iff in H.
    congruence.
  - apply Qle_bool_iff in H'. rewrite <- E in H'. apply Qle_bool_iff in H'.
    congruence.
Qed.

Lemma refresh_after_walk (c : Clock) (s : State) :
  lastWalkTime s = now c -> (0 < now c)%Z ->
  walkCountdown (updateCountdowns c s) <> None /\
  lastWalkTime (updateCountdowns c s) = now c /\
  isSleeping (updateCountdowns c s) = isSleeping s.
Proof.
  intros E P. unfold updateCountdowns. rewrite E, Z.sub_diag.
  rewrite (geb_proper _ 0) by reflexivity.
  unfold petConfig. rewrite cooldown_positive.
  destruct (Z.eqb_spec (now c) 0); [lia |]. cbn [orb].
  state_simpl. split; [discriminate | auto].
Qed.

Lemma exercise_gate_closed (s : State) :
  (0 < lastWalkTime s)%Z -> walkCountdown s <> None ->
  disabled Exercise s = true.
Proof.
  intros P N. cbn [disabled].
  destruct (walkCountdown s); [| contradiction].
  apply Z.gtb_lt in P. rewrite P. cbn [andb]. apply orb_true_r.
Qed.

(** X10. When the countdown of an exercise completes, the step stamps
    [lastWalkTime] with the time of the completion, the cooldown projection
    is refreshed in the same step, and from then on the exercise button is
    disabled: a further exercise attempt, whenever it is made, changes
    nothing until a later refresh finds the cooldown elapsed. *)
Theorem walk_starts_its_cooldown (r : ActionRun) (timers : list nat)
    (label petName : string) (c : Clock) (st : State) :
  intervals st = [r] ->
  run_extraEffects r = ExerciseDone timers label petName ->
  (actionTimer st <= 1)%Z ->
  (0 <= lastWalkTime st < now c)%Z ->
  let done := step (IntervalFire (run_id r)) c st in
  lastWalkTime done = now c /\ walkCountdown done <> None /\
  forall (rnd : nat -> Q) (c' : Clock), attempt Exercise rnd c' done = done.
Proof.
  intros Hi Hr Ht Hw done.
  assert (H0 : handle (IntervalFire (run_id r)) c st = countdown r c st).
  { cbn [handle]. rewrite Hi. cbn [find]. now rewrite Nat.eqb_refl. }
  assert (W : lastWalkTime (countdown r c st) = now c).
  { unfold countdown. apply Z.leb_le in Ht. rewrite Ht, Hr.
    cbn [runExtraEffects]. state_simpl. reflexivity. }
  assert (D : countdownDepsChanged st (countdown r c st) = true).
  { unfold countdownDepsChanged. rewrite W.
    destruct (Z.eqb_spec (lastWalkTime st) (now c)); [lia |].
    now rewrite andb_false_r. }
  assert (E : done = updateCountdowns c (countdown r c st)).
  { unfold done, step. now rewrite H0, D. }
  destruct (refresh_after_walk c (countdown r c st) W ltac:(lia))
    as (N & L & _).
  rewrite E. split; [exact L | split; [exact N |]].
  intros rnd c'. unfold attempt.
  rewrite exercise_gate_closed; [reflexivity | lia | exact N].
Qed.

Lemma walk_starts_its_cooldown_witness :
  let st := run ((Click Exercise calm, noonAt 0)
                 :: firstn 4 (fiveSeconds 0 0)) (mount rex (noonAt 0)) in
  let r := mkRun 0 "Walking"
             (mkChanges (Some 42) (Some 65) (Some 43) (Some 30) (Some 15))
             (ExerciseDone [] "walk" "Rex") in
  intervals st = [r] /\
  lastWalkTime (step (IntervalFire (run_id r)) (noonAt 5000) st) = 5000%Z.
Proof.
  intros st r.
  assert (Hi : intervals st = [r]) by (vm_compute; reflexivity).
  assert (Hr : run_extraEffects r = ExerciseDone [] "walk" "Rex")
    by reflexivity.
  assert (Ht : (actionTimer st <= 1)%Z) by (vm_compute; discriminate).
  assert (Hw : (0 <= lastWalkTime st < now (noonAt 5000))%Z)
    by (vm_compute; split; [discriminate | reflexivity]).
  split; [exact Hi |].
  exact (proj1 (walk_starts_its_cooldown r [] "walk" "Rex" (noonAt 5000) st
                  Hi Hr Ht Hw)).
Defined.

(** ** Save and restore *)

Lemma zero_hours (a : Z) : inject_Z (a - a) / (1000 * 60) / 60 == 0.
Proof. rewrite Z.sub_diag. reflexivity. Qed.

Lemma calculateDecay_zero (c : Clock) (x r h : Q) :
  0 <= x -> h == 0 -> calculateDecay c x r h == x.
Proof.
  intros Hx Hh. rewrite calculateDecay_form, Hh.
  unfold Qmax. rewrite Q.max_r; [ring |].
  setoid_replace (x - r * (if Qeq_bool r 1 || Qeq_bool r 0.5
                           then nightFactor c else 1) * 0) with x by ring.
  exact Hx.
Qed.

(** X11. Saving and restoring at the same instant is a round trip for a pet
    whose stats are in range and whose thirst is not 0: the stats come
    back equal, and so do the total spent, the event log, the toy flag, the
    three cooldown stamps and the feed counter; no welcome event is added.
    The action in progress, if any, is not part of the record. *)
Theorem save_then_restore_round_trip (st : State) (c c0 : Clock) :
  stats_in_range (stats (pet st)) ->
  ~ thirst (stats (pet st)) == 0 ->
  let back := restore (dataToSave (now c) st) c (mount (pet st) c0) in
  stats_eq (stats (pet back)) (stats (pet st)) /\
  type (pet back) = type (pet st) /\ name (pet back) = name (pet st) /\
  totalSpent back = totalSpent st /\ events back = events st /\
  hasToy back = hasToy st /\ lastWalkTime back = lastWalkTime st /\
  lastBathTime back = lastBathTime st /\
  lastTrimNailsTime back = lastTrimNailsTime st /\
  feedCount back = feedCount st /\ activeAction back = None.
Proof.
  intros ((Hh & _) & (Hha & _) & (Hhy & _) & (He & _) & (Ht & _)) NZ back.
  unfold back, restore. cbn [saved_name saved_type dataToSave mount pet].
  rewrite !String.eqb_refl. cbn [andb].
  unfold minutesElapsed. cbn [lastSaved]. rewrite Z.sub_diag.
  change (JS.ltb 5 (inject_Z 0 / (1000 * 60))) with false. cbv iota.
  state_simpl.
  assert (Z0 : inject_Z 0 / (1000 * 60) / 60 == 0) by reflexivity.
  split.
  { unfold stats_eq, catchUpStats.
    cbn [hunger happiness hygiene energy thirst saved_stats saved_hunger
         saved_happiness saved_hygiene saved_energy saved_thirst dataToSave].
    split; [| split; [| split; [| split]]];
      try (apply calculateDecay_zero; assumption).
    unfold JS.or_default.
    destruct (Qeq_bool (thirst (stats (pet st))) 0) eqn:E.
    - apply Qeq_bool_iff in E. contradiction.
    - apply calculateDecay_zero; assumption. }
  repeat (match goal with |- _ /\ _ => split end); reflexivity.
Qed.

Lemma save_then_restore_round_trip_witness :
  stats_in_range (stats (pet walkedTwelveHoursAgo)) /\
  ~ thirst (stats (pet walkedTwelveHoursAgo)) == 0 /\
  events (restore (dataToSave 0 walkedTwelveHoursAgo) (noonAt 0)
            (mount (pet walkedTwelveHoursAgo) (noonAt 0)))
  = events walkedTwelveHoursAgo.
Proof.
  assert (R : stats_in_range (stats (pet walkedTwelveHoursAgo)))
    by (vm_compute; repeat split; discriminate).
  assert (N : ~ thirst (stats (pet walkedTwelveHoursAgo)) == 0)
    by (vm_compute; discriminate).
  split; [exact R | split; [exact N |]].
  exact (proj1 (proj2 (proj2 (proj2 (proj2
           (save_then_restore_round_trip walkedTwelveHoursAgo (noonAt 0)
              (noonAt 0) R N)))))).
Defined.

Lemma calculateDecay_le (c : Clock) (x r h : Q) :
  0 <= x -> 0 <= r -> 0 <= h ->
  0 <= calculateDecay c x r h /\ calculateDecay c x r h <= x.
Proof.
  intros Hx Hr Hh. unfold calculateDecay, JS.Math_max.
  destruct (_ && _); (split; [apply Q.le_max_l | apply max0_le; nra]).
Qed.

(** X12. Short of the zero-thirst case, the catch-up never raises a stat:
    for saved stats in range with a thirst other than 0 and an elapsed time
    that is not negative, every restored stat lies between 0 and its saved
    value, at any hour of the day. *)
Theorem catchUp_never_raises_a_stat (c : Clock) (s : PetStats) (h : Q) :
  stats_in_range s -> ~ thirst s == 0 -> 0 <= h ->
  let s' := catchUpStats c (savedOf s) h in
  (0 <= hunger s' /\ hunger s' <= hunger s) /\
  (0 <= happiness s' /\ happiness s' <= happiness s) /\
  (0 <= hygiene s' /\ hygiene s' <= hygiene s) /\
  (0 <= energy s' /\ energy s' <= energy s) /\
  (0 <= thirst s' /\ thirst s' <= thirst s).
Proof.
  intros ((Hh & _) & (Hha & _) & (Hhy & _) & (He & _) & (Ht & _)) NZ H s'.
  unfold s', catchUpStats, savedOf.
  cbn [hunger happiness hygiene energy thirst saved_hunger saved_happiness
       saved_hygiene saved_energy saved_thirst].
  split; [| split; [| split; [| split]]];
    try (apply calculateDecay_le; auto; lra).
  unfold JS.or_default. destruct (Qeq_bool (thirst s) 0) eqn:E.
  - apply Qeq_bool_iff in E. contradiction.
  - apply calculateDecay_le; auto; lra.
Qed.

Lemma catchUp_never_raises_a_stat_witness :
  stats_in_range allFifty /\ ~ thirst allFifty == 0 /\ 0 <= 3 /\
  hunger (catchUpStats (lateAt 0) (savedOf allFifty) 3) <= hunger allFifty.
Proof.
  assert (N : ~ thirst allFifty == 0) by (vm_compute; discriminate).
  assert (H : 0 <= 3) by (vm_compute; discriminate).
  split; [exact allFifty_in_range | split; [exact N | split; [exact H |]]].
  exact (proj2 (proj1 (catchUp_never_raises_a_stat (lateAt 0) allFifty 3
                         allFifty_in_range N H))).
Defined.

(** ** The sleep check *)

(** X13. The sleep check is edge-triggered.  When the flag already agrees
    with the hour, the check changes nothing, so no event is logged twice;
    when it disagrees, the flag is flipped and exactly one event is put at
    the head of the log; and a second check at the same hour never changes
    anything. *)
Theorem sleep_check_is_edge_triggered (c : Clock) (st : State) :
  let should := shouldBeSleeping (sleepHours (petConfig st)) (getHours c) in
  (isSleeping st = should -> checkSleepCycle c st = st) /\
  (isSleeping st <> should ->
   isSleeping (checkSleepCycle c st) = should /\
   exists e, events (checkSleepCycle c st) = firstn 20 (e :: events st)
             /\ timestamp e = now c) /\
  checkSleepCycle c (checkSleepCycle c st) = checkSleepCycle c st.
Proof.
  intros should. unfold checkSleepCycle. fold should.
  split; [| split].
  - intros ->. destruct should; reflexivity.
  - intros N. destruct should, (isSleeping st); try congruence; cbn;
      (split; [reflexivity | eexists; split; reflexivity]).
  - destruct should eqn:S, (isSleeping st) eqn:I; cbn [andb negb];
      unfold petConfig; state_simpl; fold (petConfig st);
      unfold should in S; rewrite ?S, ?I; reflexivity.
Qed.

Lemma sleep_check_is_edge_triggered_witness :
  checkSleepCycle (noonAt 0) (mount rex (noonAt 0)) = mount rex (noonAt 0).
Proof.
  refine (proj1 (sleep_check_is_edge_triggered (noonAt 0)
                   (mount rex (noonAt 0))) _).
  vm_compute. reflexivity.
Defined.

(** ** Countdown projections *)

Lemma floor_bounds (x : Q) :
  inject_Z (Qfloor x) <= x /\ x < inject_Z (Qfloor x) + 1.
Proof.
  split; [apply Qfloor_le |].
  pose proof (Qlt_floor x) as H. rewrite inject_Z_plus in H. exact H.
Qed.

Lemma ceiling_bounds (x : Q) :
  x <= inject_Z (Qceiling x) /\ inject_Z (Qceiling x) < x + 1.
Proof.
  split; [apply Qle_ceiling |].
  pose proof (Qceiling_lt x) as H.
  unfold Z.sub in H. rewrite inject_Z_plus in H.
  assert (E : inject_Z (Z.opp 1) == -(1)) by reflexivity.
  rewrite E in H. lra.
Qed.

Lemma inject_Z_nonneg (z : Z) : -(1) < inject_Z z -> (0 <= z)%Z.
Proof.
  intros H. change (-(1)) with (inject_Z (-1)) in H.
  rewrite <- Zlt_Qlt in H. lia.
Qed.

Lemma inject_Z_le_60 (z : Z) : inject_Z z < 61 -> (z <= 60)%Z.
Proof.
  intros H. change 61 with (inject_Z 61) in H.
  rewrite <- Zlt_Qlt in H. lia.
Qed.

Lemma rounding_nonneg (fl : Q -> Q) (x : Q) :
  DashboardEffects.rounding fl -> 0 <= x -> 0 <= fl x.
Proof.
  intros [M E] H. specialize (E 0%Z ltac:(cbn; lia)).
  change (inject_Z 0) with 0 in E. rewrite <- E. now apply M.
Qed.

Lemma rounding_le_int (fl : Q -> Q) (x : Q) (z : Z) :
  DashboardEffects.rounding fl -> (Z.abs z <= 2 ^ 53)%Z ->
  x <= inject_Z z -> fl x <= inject_Z z.
Proof.
  intros [M E] B H. rewrite <- (E z B). now apply M.
Qed.

Lemma floor_nonneg (x : Q) : 0 <= x -> (0 <= Qfloor x)%Z.
Proof.
  intros H. destruct (floor_bounds x) as [_ F].
  apply inject_Z_nonneg. lra.
Qed.

Lemma ceiling_band_60 (y : Q) :
  0 <= y -> y <= 60 -> (0 <= Qceiling y <= 60)%Z.
Proof.
  intros H0 H1. destruct (ceiling_bounds y) as [C0 C1].
  split; [apply inject_Z_nonneg | apply inject_Z_le_60]; lra.
Qed.

Lemma mod60_band (x : Q) :
  0 <= DashboardEffects.mod60 x /\ DashboardEffects.mod60 x < 60.
Proof.
  unfold DashboardEffects.mod60.
  destruct (floor_bounds (x / 60)) as [F0 F1].
  set (q := Qfloor (x / 60)) in *.
  assert (D : x / 60 == x * (1 # 60)) by reflexivity.
  rewrite D in F0, F1. split; lra.
Qed.

(** X14. The feed and water countdowns show nothing exactly while the stat
    is under its trigger threshold, which for an awake pet with no action
    running is exactly while the button is enabled.  When they show a
    time, its hours are not negative and its minutes lie between 0 and
    60, whatever the rounding of the arithmetic does. *)
Theorem need_countdown_in_range (fl : Q -> Q)
    (value threshold decayRate : Q) (st : State) :
  DashboardEffects.rounding fl -> 0 <= decayRate ->
  (DashboardEffects.needCountdown fl value threshold decayRate = None
   <-> value < threshold) /\
  (forall h m : Z,
     DashboardEffects.needCountdown fl value threshold decayRate
     = Some (h, m) ->
     (0 <= h)%Z /\ (0 <= m <= 60)%Z) /\
  (isActive st = false -> isSleeping st = false ->
   (DashboardEffects.feedCountdown fl st = None
    <-> disabled Feed st = false) /\
   (DashboardEffects.waterCountdown fl st = None
    <-> disabled Water st = false)).
Proof.
  intros Hfl Hr.
  assert (G : forall v t r,
            DashboardEffects.needCountdown fl v t r = None
            <-> JS.geb v t = false).
  { intros v t r. unfold DashboardEffects.needCountdown.
    destruct (JS.ltb v t) eqn:L; destruct (JS.geb v t) eqn:G;
      cmp_facts; split; intros H; try reflexivity; try discriminate H; lra. }
  split; [| split].
  - rewrite G. split; intros H.
    + now apply geb_false.
    + destruct (JS.geb value threshold) eqn:E; [| reflexivity].
      apply geb_true in E. lra.
  - unfold DashboardEffects.needCountdown.
    destruct (JS.ltb value threshold) eqn:L; [discriminate |].
    apply ltb_false in L. cbv zeta. intros h m E.
    assert (D0 : 0 <= fl (value - threshold))
      by (apply rounding_nonneg; [exact Hfl | lra]).
    assert (M0 : 0 <= fl (fl (value - threshold) * decayRate))
      by (apply rounding_nonneg; [exact Hfl | nra]).
    set (mu := fl (fl (value - threshold) * decayRate)) in *.
    assert (H0 : 0 <= fl (mu / 60)).
    { apply rounding_nonneg; [exact Hfl |].
      assert (D : mu / 60 == mu * (1 # 60)) by reflexivity.
      rewrite D. lra. }
    destruct (mod60_band mu) as [R0 R1].
    assert (Eh : h = JS.Math_floor (fl (mu / 60))) by congruence.
    assert (Em : m = JS.Math_ceil (DashboardEffects.mod60 mu))
      by congruence.
    rewrite Eh, Em. split.
    + now apply floor_nonneg.
    + apply ceiling_band_60; lra.
  - intros A S.
    unfold DashboardEffects.feedCountdown, DashboardEffects.waterCountdown,
      disabled.
    rewrite A, S. cbn [orb].
    split.
    + rewrite <- (G _ _ (decay_hunger (decayRates (petConfig st)))).
      destruct (DashboardEffects.needCountdown fl _ _ _);
        cbn [option_map]; split; intros H; try reflexivity; discriminate H.
    + rewrite <- (G _ _ (decay_thirst (decayRates (petConfig st)))).
      destruct (DashboardEffects.needCountdown fl _ _ _);
        cbn [option_map]; split; intros H; try reflexivity; discriminate H.
Qed.

Lemma exact_rounding : DashboardEffects.rounding (fun x => x).
Proof. split; [intros x y H; exact H | intros z _; reflexivity]. Defined.

Lemma need_countdown_in_range_witness :
  DashboardEffects.rounding (fun x => x) /\ 0 <= 6.75 /\
  DashboardEffects.needCountdown (fun x => x) 50 35 6.75
  = Some (1, 42)%Z /\
  (0 <= 42 <= 60)%Z.
Proof.
  assert (R : 0 <= 6.75) by (vm_compute; discriminate).
  assert (E : DashboardEffects.needCountdown (fun x => x) 50 35 6.75
              = Some (1, 42)%Z)
    by (vm_compute; reflexivity).
  split; [exact exact_rounding | split; [exact R | split; [exact E |]]].
  exact (proj2 (proj1 (proj2 (need_countdown_in_range (fun x => x) 50 35 6.75
                                (mount rex (noonAt 0)) exact_rounding R))
                  (1)%Z (42)%Z E)).
Defined.

(** X15. The exercise countdown is absent exactly when no walk was taken
    yet or the hours since the walk, as computed, have reached the
    cooldown.  When it shows a time, its hours are not negative and its
    minutes lie between 0 and 60, whatever the rounding of the arithmetic
    does. *)
Theorem walk_countdown_in_range (fl : Q -> Q) (c : Clock) (st : State) :
  DashboardEffects.rounding fl ->
  let cooldown := exercise_cooldownHours (exercise (actions (petConfig st))) in
  let since := fl (inject_Z (now c - lastWalkTime st) / (1000 * 60 * 60)) in
  (DashboardEffects.walkCountdownParts fl c st = None
   <-> cooldown <= since \/ lastWalkTime st = 0%Z) /\
  (forall h m : Z,
     DashboardEffects.walkCountdownParts fl c st = Some (h, m) ->
     (0 <= h)%Z /\ (0 <= m <= 60)%Z).
Proof.
  intros Hfl cooldown since.
  unfold DashboardEffects.walkCountdownParts.
  fold cooldown. fold since. split.
  - destruct (JS.geb since cooldown) eqn:G;
      destruct (Z.eqb_spec (lastWalkTime st) 0) as [Z0 | Z0]; cbn [orb];
      cmp_facts; split; auto; try discriminate; intros [H | H];
      try contradiction; lra.
  - destruct (JS.geb since cooldown) eqn:G; [discriminate |].
    destruct (lastWalkTime st =? 0)%Z; [discriminate |]. cbn [orb].
    cmp_facts. cbv zeta. unfold JS.Math_floor, JS.Math_ceil.
    assert (U0 : 0 <= fl (cooldown - since))
      by (apply rounding_nonneg; [exact Hfl | lra]).
    set (rem := fl (cooldown - since)) in *.
    destruct (floor_bounds rem) as [F0 F1].
    assert (P0 : 0 <= fl (rem - inject_Z (Qfloor rem)))
      by (apply rounding_nonneg; [exact Hfl | lra]).
    assert (P1 : fl (rem - inject_Z (Qfloor rem)) <= 1).
    { change 1 with (inject_Z 1).
      apply rounding_le_int; [exact Hfl | cbn; lia |].
      change (inject_Z 1) with 1. lra. }
    set (frac := fl (rem - inject_Z (Qfloor rem))) in *.
    assert (Q0 : 0 <= fl (frac * 60))
      by (apply rounding_nonneg; [exact Hfl | lra]).
    assert (Q1 : fl (frac * 60) <= 60).
    { change 60 with (inject_Z 60).
      apply rounding_le_int; [exact Hfl | cbn; lia |].
      change (inject_Z 60) with 60. lra. }
    intros h m E.
    assert (Eh : h = Qfloor rem) by congruence.
    assert (Em : m = Qceiling (fl (frac * 60))) by congruence.
    rewrite Eh, Em. split.
    + now apply floor_nonneg.
    + now apply ceiling_band_60.
Qed.

Lemma walk_countdown_in_range_witness :
  DashboardEffects.rounding (fun x => x) /\
  DashboardEffects.walkCountdownParts (fun x => x) (noonAt 5001)
    (setLastWalkTime 5000 (mount rex (noonAt 0)))
  = Some (11, 60)%Z /\
  (0 <= 60 <= 60)%Z.
Proof.
  assert (E : DashboardEffects.walkCountdownParts (fun x => x) (noonAt 5001)
                (setLastWalkTime 5000 (mount rex (noonAt 0)))
              = Some (11, 60)%Z)
    by (vm_compute; reflexivity).
  split; [exact exact_rounding | split; [exact E |]].
  exact (proj2 (proj2 (walk_countdown_in_range (fun x => x) (noonAt 5001)
                         (setLastWalkTime 5000 (mount rex (noonAt 0)))
                         exact_rounding)
                  (11)%Z (60)%Z E)).
Defined.

(** ** reportLogic.ts: bounds *)

Lemma round_band (x : Q) (lo hi : Z) :
  inject_Z lo <= x -> x <= inject_Z hi ->
  (lo <= JS.Math_round x <= hi)%Z.
Proof.
  intros L H. unfold JS.Math_round.
  destruct (floor_bounds (x + (1 # 2))) as [F0 F1]. split.
  - rewrite <- (Qfloor_Z lo). apply Qfloor_resp_le. lra.
  - assert (S : inject_Z (Qfloor (x + (1 # 2))) < inject_Z (hi + 1)).
    { rewrite inject_Z_plus. change (inject_Z 1) with 1. lra. }
    rewrite <- Zlt_Qlt in S. lia.
Qed.

(** X16. For stats in range the overall score is a whole number between 0
    and 100, whatever the action counts are. *)
Theorem overall_score_between_0_and_100 (s : PetStats)
    (counts : ActionCounts) :
  stats_in_range s -> (0 <= getOverallScore s counts <= 100)%Z.
Proof.
  intros ((Hh0 & Hh1) & (Hha0 & Hha1) & (Hhy0 & Hhy1) & (He0 & He1)
          & (Ht0 & Ht1)).
  unfold getOverallScore. apply round_band.
  - change (inject_Z 0) with 0.
    unfold JS.Math_min. apply Q.min_glb; [lra |].
    match goal with
    | |- context [Qmin 10 ?v] =>
        assert (B : 0 <= Qmin 10 v)
    end.
    { apply Q.min_glb; [lra |].
      match goal with
      | |- context [inject_Z (Z.of_nat ?n)] =>
          assert (0 <= inject_Z (Z.of_nat n))
            by (change 0 with (inject_Z 0); rewrite <- Zle_Qle; lia)
      end.
      lra. }
    apply Qle_trans with ((hunger s + thirst s + happiness s + hygiene s
                           + energy s) * (1 # 5)); [lra |].
    match goal with
    | |- _ <= ?a / 5 + _ =>
        assert (D : a / 5 == a * (1 # 5)) by reflexivity; rewrite D
    end.
    lra.
  - change (inject_Z 100) with 100. apply Q.le_min_l.
Qed.

Lemma overall_score_between_0_and_100_witness :
  stats_in_range allTen /\ (0 <= getOverallScore allTen vetOnly <= 100)%Z.
Proof.
  assert (R : stats_in_range allTen)
    by (repeat split; unfold Qle; simpl; lia).
  split; [exact R | exact (overall_score_between_0_and_100 allTen vetOnly R)].
Defined.

Lemma fold_sum_bounds (f : ReportFeedback.StatHistoryEntry -> Q)
    (l : list ReportFeedback.StatHistoryEntry) (lo hi acc : Q) :
  (forall h, In h l -> lo <= f h /\ f h <= hi) ->
  acc + inject_Z (Z.of_nat (List.length l)) * lo
  <= fold_left (fun s h => s + f h) l acc /\
  fold_left (fun s h => s + f h) l acc
  <= acc + inject_Z (Z.of_nat (List.length l)) * hi.
Proof.
  revert acc. induction l as [| x l IH]; intros acc H.
  - cbn [fold_left List.length Z.of_nat]. change (inject_Z 0) with 0.
    split; lra.
  - cbn [fold_left List.length]. rewrite Nat2Z.inj_succ. unfold Z.succ.
    rewrite inject_Z_plus. change (inject_Z 1) with 1.
    destruct (H x (or_introl eq_refl)) as [L U].
    destruct (IH (acc + f x)) as [A B]; [intros h Hh; apply H; now right |].
    split; lra.
Qed.

Lemma average_band (history : list ReportFeedback.StatHistoryEntry)
    (key : ReportFeedback.StatKey) (cur : Q) (lo hi : Z) :
  history <> [] ->
  (forall h, In h history ->
     inject_Z lo <= ReportFeedback.getStat (ReportFeedback.stats h) key /\
     ReportFeedback.getStat (ReportFeedback.stats h) key <= inject_Z hi) ->
  exists z : Z,
    ReportFeedback.getAverageStat history key cur = inject_Z z /\
    (lo <= z <= hi)%Z.
Proof.
  intros NE H. destruct history as [| x l]; [contradiction |].
  unfold ReportFeedback.getAverageStat. eexists. split; [reflexivity |].
  set (hist := x :: l) in *.
  destruct (fold_sum_bounds
              (fun h => ReportFeedback.getStat (ReportFeedback.stats h) key)
              hist (inject_Z lo) (inject_Z hi) 0 H) as [A B].
  set (n := inject_Z (Z.of_nat (List.length hist))) in *.
  assert (P : 0 < n).
  { unfold n, hist. cbn [List.length]. change 0 with (inject_Z 0).
    rewrite <- Zlt_Qlt. lia. }
  apply round_band.
  - apply Qle_shift_div_l; [exact P | lra].
  - apply Qle_shift_div_r; [exact P | lra].
Qed.

(** X17. The average the report shows for a stat stays in [0,100]: with no
    snapshot in the selected range it is the current value, and otherwise
    it is a whole number between 0 and 100, provided the current value and
    every snapshot are in range. *)
Theorem average_stat_stays_in_range (now : Z)
    (history : list ReportFeedback.StatHistoryEntry)
    (range : ReportTimeRange) (key : ReportFeedback.StatKey) (cur : Q) :
  in_band cur ->
  (forall h, In h history -> stats_in_range (ReportFeedback.stats h)) ->
  let shown := ReportFeedback.filterStatHistoryByRange now history range in
  in_band (ReportFeedback.getAverageStat shown key cur) /\
  (shown = [] -> ReportFeedback.getAverageStat shown key cur = cur) /\
  (shown <> [] ->
   exists z : Z, ReportFeedback.getAverageStat shown key cur = inject_Z z).
Proof.
  intros Hc Hh shown.
  assert (B : forall h, In h shown ->
                inject_Z 0
                <= ReportFeedback.getStat (ReportFeedback.stats h) key /\
                ReportFeedback.getStat (ReportFeedback.stats h) key
                <= inject_Z 100).
  { intros h Hin. unfold shown, ReportFeedback.filterStatHistoryByRange in Hin.
    apply filter_In in Hin. destruct Hin as [Hin _].
    destruct (Hh h Hin) as (H1 & H2 & H3 & H4 & H5).
    destruct key; cbn [ReportFeedback.getStat]; assumption. }
  destruct shown as [| x l] eqn:E.
  - split; [exact Hc | split; [reflexivity | intros N; now elim N]].
  - destruct (average_band (x :: l) key cur 0 100) as (z & Ez & Z0 & Z1);
      [discriminate | exact B |].
    split; [| split; [discriminate | intros _; now exists z]].
    rewrite Ez. unfold in_band. split.
    + change 0 with (inject_Z 0). now rewrite <- Zle_Qle.
    + change 100 with (inject_Z 100). now rewrite <- Zle_Qle.
Qed.

Lemma average_stat_stays_in_range_witness :
  in_band 50 /\
  in_band (ReportFeedback.getAverageStat
             (ReportFeedback.filterStatHistoryByRange 0
                [ReportFeedback.mkSnapshot 0 allTen;
                 ReportFeedback.mkSnapshot 5 allFifty] RangeAll)
             ReportFeedback.KHunger 50).
Proof.
  assert (C : in_band 50) by (split; unfold Qle; simpl; lia).
  split; [exact C |].
  refine (proj1 (average_stat_stays_in_range 0 _ RangeAll
                   ReportFeedback.KHunger 50 C _)).
  intros h [<- | [<- | []]]; repeat split; unfold Qle; simpl; lia.
Defined.

(** ** reportLogic.ts: counting events *)

Lemma bump_add (b : bool) (x y : Z) : bump b (x + y) = (x + bump b y)%Z.
Proof. unfold bump. destruct b; lia. Qed.

Lemma countEvent_add (a b : ActionCounts) (e : EventEntry) :
  countEvent (addCounts a b) e = addCounts a (countEvent b e).
Proof.
  unfold countEvent, addCounts.
  cbn [c_feed c_water c_walk c_play c_bath c_vet c_groom].
  now rewrite !bump_add.
Qed.

Lemma fold_count_add (l : list EventEntry) (a b : ActionCounts) :
  fold_left countEvent l (addCounts a b)
  = addCounts a (fold_left countEvent l b).
Proof.
  revert b. induction l as [| e l IH]; intros b; [reflexivity |].
  cbn [fold_left]. now rewrite countEvent_add, IH.
Qed.

Lemma addCounts_zero (a : ActionCounts) :
  addCounts a (mkCounts 0 0 0 0 0 0 0) = a.
Proof.
  destruct a. unfold addCounts.
  cbn [c_feed c_water c_walk c_play c_bath c_vet c_groom].
  now rewrite !Z.add_0_r.
Qed.

Lemma bump_within (b : bool) (x : Z) : (x <= bump b x <= x + 1)%Z.
Proof. unfold bump. destruct b; lia. Qed.

Lemma countEvent_within (a : ActionCounts) (e : EventEntry) :
  counts_within a (countEvent a e) 1.
Proof.
  unfold counts_within, countEvent.
  cbn [c_feed c_water c_walk c_play c_bath c_vet c_groom].
  repeat (match goal with |- _ /\ _ => split end); apply bump_within.
Qed.

Lemma counts_within_trans (a b c : ActionCounts) (n : Z) :
  counts_within a b 1 -> counts_within b c n ->
  counts_within a c (Z.succ n).
Proof. unfold counts_within. lia. Qed.

Lemma fold_count_within (l : list EventEntry) (a : ActionCounts) :
  counts_within a (fold_left countEvent l a) (Z.of_nat (List.length l)).
Proof.
  revert a. induction l as [| e l IH]; intros a.
  - unfold counts_within. cbn [fold_left List.length Z.of_nat]. lia.
  - cbn [fold_left List.length]. rewrite Nat2Z.inj_succ.
    apply counts_within_trans with (countEvent a e);
      [apply countEvent_within | apply IH].
Qed.

(** X18. Counting is additive and bounded.  The counts of two logs put
    together are the sums of their counts, an empty log counts nothing,
    and each of the seven counts lies between 0 and the number of events:
    an event may feed several counts but each of them at most once. *)
Theorem action_counts_add_up (l1 l2 : list EventEntry) :
  getActionCounts (l1 ++ l2)
  = addCounts (getActionCounts l1) (getActionCounts l2) /\
  getActionCounts [] = mkCounts 0 0 0 0 0 0 0 /\
  counts_within (mkCounts 0 0 0 0 0 0 0) (getActionCounts l1)
    (Z.of_nat (List.length l1)).
Proof.
  unfold getActionCounts. split; [| split].
  - rewrite fold_left_app.
    rewrite <- (addCounts_zero (fold_left countEvent l1 _)) at 1.
    apply fold_count_add.
  - reflexivity.
  - apply fold_count_within.
Qed.

(** ** reportLogic.ts: feedback texts *)

Lemma round_geb (v : Q) (k : Z) :
  (JS.Math_round v >=? k)%Z = JS.geb v (inject_Z k - (1 # 2)).
Proof.
  unfold JS.Math_round.
  destruct (floor_bounds (v + (1 # 2))) as [F0 F1].
  apply eq_true_iff_eq. rewrite Z.geb_le, geb_iff. split.
  - intros H. rewrite Zle_Qle in H. lra.
  - intros H. rewrite <- (Qfloor_Z k). apply Qfloor_resp_le. lra.
Qed.

Lemma round_ltb (v : Q) (k : Z) :
  (JS.Math_round v <? k)%Z = JS.ltb v (inject_Z k - (1 # 2)).
Proof.
  pose proof (round_geb v k) as G.
  rewrite Z.geb_leb in G.
  apply eq_true_iff_eq. rewrite Z.ltb_lt, ltb_iff.
  destruct (Z.leb_spec k (JS.Math_round v)) as [L | L];
    symmetry in G; [rewrite geb_iff in G | ].
  - split; [lia | lra].
  - split; [intros _ | intros _; exact L].
    destruct (Qlt_le_dec v (inject_Z k - (1 # 2))) as [A | A]; [exact A |].
    rewrite <- geb_iff in A. congruence.
Qed.

(** X19. The feedback for a stat depends on the value only through its
    band, and the bands are cut at 69.5 and 39.5 of the value as given,
    because the value is rounded before it is compared with 70 and 40;
    the action counts play no part. *)
Theorem stat_feedback_bands (statName : string) (v v' : Q)
    (counts counts' : ActionCounts) :
  (bandOf v = bandOf v' ->
   ReportFeedback.getStatFeedback statName v counts
   = ReportFeedback.getStatFeedback statName v' counts') /\
  fst (ReportFeedback.getStatFeedback "hunger" v counts)
  = match bandOf v with
    | Good => "Well fed."
    | Low => "Often hungry. Feed more regularly."
    | Middling => "Could eat sooner sometimes."
    end.
Proof.
  assert (G : forall x, (JS.Math_round x >=? 70)%Z = JS.geb x (139 # 2)).
  { intros x. rewrite round_geb. reflexivity. }
  assert (L : forall x, (JS.Math_round x <? 40)%Z = JS.ltb x (79 # 2)).
  { intros x. rewrite round_ltb. reflexivity. }
  unfold ReportFeedback.getStatFeedback, bandOf. cbv zeta.
  rewrite !G, !L. split.
  - intros B.
    assert (E1 : JS.geb v (139 # 2) = JS.geb v' (139 # 2)).
    { destruct (JS.geb v (139 # 2)), (JS.geb v' (139 # 2));
        try reflexivity;
        destruct (JS.ltb v (79 # 2)), (JS.ltb v' (79 # 2));
        discriminate. }
    assert (E2 : JS.geb v (139 # 2) = false ->
                 JS.ltb v (79 # 2) = JS.ltb v' (79 # 2)).
    { intros N. rewrite <- E1, N in B.
      destruct (JS.ltb v (79 # 2)), (JS.ltb v' (79 # 2));
        try reflexivity; discriminate. }
    rewrite <- E1.
    destruct (JS.geb v (139 # 2)); [reflexivity |].
    rewrite <- (E2 eq_refl). reflexivity.
  - cbn [String.eqb Ascii.eqb Bool.eqb fst].
    destruct (JS.geb v (139 # 2)); [reflexivity |].
    destruct (JS.ltb v (79 # 2)); reflexivity.
Qed.

Lemma stat_feedback_bands_witness :
  bandOf (139 # 2) = bandOf 100 /\
  ReportFeedback.getStatFeedback "energy" (139 # 2) vetOnly
  = ReportFeedback.getStatFeedback "energy" 100 (mkCounts 0 0 0 0 0 0 0).
Proof.
  split; [reflexivity |].
  exact (proj1 (stat_feedback_bands "energy" (139 # 2) 100 vetOnly
                  (mkCounts 0 0 0 0 0 0 0)) eq_refl).
Defined.

Lemma improvements_shape (s : PetStats) (counts : ActionCounts) :
  let out := ReportFeedback.getImprovements s counts in
  (1 <= List.length out <= 4)%nat /\
  (out = [ReportFeedback.noIssueItem]
   <-> improvementTests s counts = [false; false; false; false; false]) /\
  (In ReportFeedback.energyItem out
   <-> JS.ltb (energy s) 30 = true /\
       improvementTests s counts <> [true; true; true; true; true]) /\
  (In ReportFeedback.noIssueItem out -> List.length out = 1%nat).
Proof.
  unfold ReportFeedback.getImprovements, improvementTests,
    ReportFeedback.pushIf.
  cbv zeta.
  destruct (JS.ltb (hunger s) 50 && (c_feed counts <? 3)%Z);
    destruct (JS.ltb (thirst s) 50 && (c_water counts <? 3)%Z);
    destruct (JS.ltb (happiness s) 60
              && (c_play counts + c_walk counts <? 2)%Z);
    destruct (JS.ltb (hygiene s) 50 && (c_bath counts =? 0)%Z
              && (c_groom counts =? 0)%Z);
    destruct (JS.ltb (energy s) 30);
    cbn [app firstn List.length In];
    (split; [lia |]);
    (split; [split; intros H; first [reflexivity | discriminate H] |]);
    (split;
     [split;
      [intros H; first
         [split; [reflexivity | discriminate]
         | exfalso;
           repeat match type of H with
                  | _ \/ _ => destruct H as [H | H]
                  end; first [discriminate H | exact H]]
      | intros [H N]; first
         [discriminate H
         | exfalso; apply N; reflexivity
         | repeat first [left; reflexivity | right]]]
     | intros H; first
         [reflexivity
         | exfalso;
           repeat match type of H with
                  | _ \/ _ => destruct H as [H | H]
                  end; first [discriminate H | exact H]]]).
Qed.

Lemma mood_tips_shape (s : PetStats) (counts : ActionCounts) :
  let tips := ReportFeedback.getMoodFeedback_tips s counts in
  (1 <= List.length tips <= 3)%nat /\
  (In "Keep up the variety: feed, water, play, and walks all support happiness."
      tips
   <-> ((c_play counts <? 2)%Z && (c_walk counts <? 2)%Z = false /\
        JS.ltb (hunger s) 50 = false /\ JS.ltb (hygiene s) 50 = false)).
Proof.
  unfold ReportFeedback.getMoodFeedback_tips. cbv zeta.
  destruct ((c_play counts <? 2)%Z && (c_walk counts <? 2)%Z);
    destruct (JS.ltb (hunger s) 50);
    destruct (JS.ltb (hygiene s) 50);
    cbn [app List.length In];
    (split; [lia |]);
    (split;
     [intros H; first
        [repeat split; reflexivity
        | exfalso;
          repeat match type of H with
                 | _ \/ _ => destruct H as [H | H]
                 end; first [discriminate H | exact H]]
     | intros (A & B & C); first
        [discriminate A | discriminate B | discriminate C
        | left; reflexivity]]).
Qed.

(** X20. Neither feedback list of the report is ever empty.  The list of
    improvements has between one and four entries: it is the single
    [No major issues] entry exactly when none of the five tests holds, and
    otherwise it holds the entries of the tests that hold, in the order of
    the source, the energy entry being the one dropped when all five
    hold.  The mood tips are between one and three, and the general
    [Keep up the variety] tip is given exactly when no specific tip
    applies. *)
Theorem feedback_lists_shape (s : PetStats) (counts : ActionCounts) :
  (let out := ReportFeedback.getImprovements s counts in
   (1 <= List.length out <= 4)%nat /\
   (out = [ReportFeedback.noIssueItem]
    <-> improvementTests s counts = [false; false; false; false; false]) /\
   (In ReportFeedback.energyItem out
    <-> JS.ltb (energy s) 30 = true /\
        improvementTests s counts <> [true; true; true; true; true]) /\
   (In ReportFeedback.noIssueItem out -> List.length out = 1%nat)) /\
  (let tips := ReportFeedback.getMoodFeedback_tips s counts in
   (1 <= List.length tips <= 3)%nat /\
   (In "Keep up the variety: feed, water, play, and walks all support happiness."
       tips
    <-> ((c_play counts <? 2)%Z && (c_walk counts <? 2)%Z = false /\
         JS.ltb (hunger s) 50 = false /\ JS.ltb (hygiene s) 50 = false))).
Proof.
  split; [apply improvements_shape | apply mood_tips_shape].
Qed.

(** X21. The colour of the grade of a score depends on the decade only:
    the A grades (90 and up) share one colour, and so do the B grades
    (80 to 89), the C grades (70 to 79) and the D grades (60 to 69); F
    has the fifth. *)
Theorem grade_colour_by_decade (score : Q) :
  ReportFeedback.gradeColor (getGrade score)
  = if JS.geb score 90 then "text-primary"
    else if JS.geb score 80 then "text-green-500"
    else if JS.geb score 70 then "text-yellow-500"
    else if JS.geb score 60 then "text-orange-500"
    else "text-destructive".
Proof.
  unfold getGrade.
  repeat match goal with
         | |- context [JS.geb score ?t] =>
             let E := fresh "E" in
             destruct (JS.geb score t) eqn:E
         end;
    first
      [ reflexivity
      | exfalso;
        repeat match goal with
               | H : JS.geb _ _ = true |- _ => rewrite geb_iff in H
               | H : JS.geb _ _ = false |- _ =>
                   apply Bool.not_true_iff_false in H; rewrite geb_iff in H
               end;
        lra ].
Qed.

(** ** Index.tsx: the stats a new pet starts with *)

Lemma max_band (a x lo hi : Q) :
  lo <= a -> a <= hi -> x <= hi ->
  lo <= JS.Math_max a x /\ JS.Math_max a x <= hi.
Proof.
  intros L H X. unfold JS.Math_max. split.
  - apply Qle_trans with a; [exact L | apply Q.le_max_l].
  - apply Q.max_lub; assumption.
Qed.

Lemma min_band (a x lo hi : Q) :
  lo <= a -> a <= hi -> lo <= x ->
  lo <= JS.Math_min a x /\ JS.Math_min a x <= hi.
Proof.
  intros L H X. unfold JS.Math_min. split.
  - apply Q.min_glb; assumption.
  - apply Qle_trans with a; [apply Q.le_min_l | exact H].
Qed.

Lemma inject_Z_sub (a b : Z) : inject_Z (a - b) == inject_Z a - inject_Z b.
Proof.
  unfold Z.sub. rewrite inject_Z_plus, inject_Z_opp. reflexivity.
Qed.

Lemma initialStats_in_range (t : string) :
  stats_in_range (initialStats (petConfigs t)).
Proof.
  destruct (petConfigs_cases t) as [-> | [-> | [-> | ->]]];
    repeat split; unfold Qle; simpl; lia.
Qed.

Ltac clock_arith T :=
  repeat match goal with
         | H : (_ <= T)%Z |- _ => rewrite Zle_Qle in H
         | H : (T < _)%Z |- _ => rewrite Zlt_Qlt in H
         end;
  rewrite ?inject_Z_sub, ?inject_Z_plus;
  generalize dependent (inject_Z T); intros q; intros;
  unfold Qdiv;
  repeat match goal with
         | |- context [Qinv ?d] =>
             let v := eval vm_compute in (Qinv d) in
             change (Qinv d) with v
         end;
  repeat match goal with
         | |- context [inject_Z ?z] =>
             let v := eval vm_compute in (inject_Z z) in
             change (inject_Z z) with v
         | H : context [inject_Z ?z] |- _ =>
             let v := eval vm_compute in (inject_Z z) in
             change (inject_Z z) with v in H
         end.

Lemma dog_start_bounds (c : Clock) :
  clock_of_day c ->
  let s := Index.calculateInitialStats "dog" c in
  (exists h e : Z,
     hunger s = inject_Z h /\ energy s = inject_Z e /\
     (0 <= h <= 90)%Z /\ (25 <= e <= 85)%Z) /\
  happiness s = 80 /\ hygiene s = 90 /\ thirst s = 80.
Proof.
  intros [[H0 H1] [M0 M1]]. unfold Index.calculateInitialStats.
  cbn [String.eqb Ascii.eqb Bool.eqb]. cbv zeta.
  set (T := (getHours c * 60 + getMinutes c)%Z).
  assert (T0 : (0 <= T)%Z) by (unfold T; lia).
  cbn [hunger energy happiness hygiene thirst].
  split; [| repeat split].
  eexists. eexists.
  split; [reflexivity |]. split; [reflexivity |]. split.
  - apply round_band.
    + change (inject_Z 0) with 0.
      destruct (Z.ltb_spec T 360); [lra |].
      destruct (Z.ltb_spec T 480);
        [apply Qle_trans with 20; [lra | apply Q.le_max_l] |].
      destruct (Z.ltb_spec T 1140); [apply Q.le_max_l |].
      destruct (Z.ltb_spec T 1320); [apply Q.le_max_l |].
      apply Qle_trans with 20; [lra | apply Q.le_max_l].
    + change (inject_Z 90) with 90.
      destruct (Z.ltb_spec T 360); [lra |].
      destruct (Z.ltb_spec T 480);
        [apply max_band with (lo := 0); [lra | lra |]; clock_arith T; lra |].
      destruct (Z.ltb_spec T 1140);
        [apply max_band with (lo := 0); [lra | lra |]; clock_arith T; lra |].
      destruct (Z.ltb_spec T 1320);
        [apply max_band with (lo := 0); [lra | lra |]; clock_arith T; lra |].
      apply max_band with (lo := 0); [lra | lra |]; clock_arith T; lra.
  - apply round_band.
    + change (inject_Z 25) with 25.
      destruct (Z.geb_spec T 1320); cbn [orb].
      * apply min_band with (hi := 85); [lra | lra |]; clock_arith T; lra.
      * destruct (Z.ltb_spec T 360).
        -- apply min_band with (hi := 85); [lra | lra |]; clock_arith T; lra.
        -- apply Q.le_max_l.
    + change (inject_Z 85) with 85.
      destruct (Z.geb_spec T 1320); cbn [orb].
      * apply Q.le_min_l.
      * destruct (Z.ltb_spec T 360).
        -- apply Q.le_min_l.
        -- apply max_band with (lo := 25); [lra | lra |];
             clock_arith T; lra.
Qed.

(** X22. Every pet the selection screen hands to the dashboard starts with
    its stats in range, at any time of day, so the dashboard it mounts is
    a reachable state.  A dog starts with whole-number hunger between 0
    and 90 and energy between 25 and 85, and with the happiness, hygiene
    and thirst of its profile. *)
Theorem new_pet_starts_in_range (type name : string) (c c' : Clock) :
  clock_of_day c ->
  stats_in_range (Index.calculateInitialStats type c) /\
  (reachable_on_time (mount (Index.handlePetSelect type name c) c') /\
   reachable (mount (Index.handlePetSelect type name c) c')) /\
  (type = "dog" ->
   exists h e : Z,
     Index.calculateInitialStats type c = mkStats (inject_Z h) 80 90
                                            (inject_Z e) 80 /\
     (0 <= h <= 90)%Z /\ (25 <= e <= 85)%Z).
Proof.
  intros Hc.
  assert (R : stats_in_range (Index.calculateInitialStats type c)).
  { destruct (String.eqb type "dog") eqn:E.
    - apply String.eqb_eq in E. subst type.
      destruct (dog_start_bounds c Hc)
        as ((h & e & Eh & Ee & Bh & Be) & Ha & Hy & Ht).
      unfold stats_in_range, in_band. rewrite Eh, Ee, Ha, Hy, Ht.
      change 0 with (inject_Z 0). change 100 with (inject_Z 100).
      change 80 with (inject_Z 80). change 90 with (inject_Z 90).
      rewrite <- !Zle_Qle. lia.
    - unfold Index.calculateInitialStats. rewrite E.
      apply initialStats_in_range. }
  split; [exact R |].
  split; [split; apply reach_mount; exact R |].
  intros ->.
  destruct (dog_start_bounds c Hc)
    as ((h & e & Eh & Ee & Bh & Be) & Ha & Hy & Ht).
  exists h, e. split; [| split; assumption].
  destruct (Index.calculateInitialStats "dog" c) as [a1 a2 a3 a4 a5].
  cbn [hunger energy happiness hygiene thirst] in *. congruence.
Qed.

Lemma new_pet_starts_in_range_witness :
  clock_of_day sixPM /\
  stats_in_range (Index.calculateInitialStats "dog" sixPM).
Proof.
  assert (C : clock_of_day sixPM) by (unfold clock_of_day, sixPM; simpl; lia).
  split; [exact C |].
  exact (proj1 (new_pet_starts_in_range "dog" "Rex" sixPM sixPM C)).
Defined.

(** X23. A dog adopted from 17:05 to 18:59 starts with hunger 0: the decay
    since the 7 am feed has used up the 90 it began with, and the evening
    feed is not counted before 19:00, when hunger jumps back to 90. *)
Theorem late_afternoon_dog_starts_starving (c : Clock) :
  (1025 <= getHours c * 60 + getMinutes c < 1140)%Z ->
  hunger (Index.calculateInitialStats "dog" c) = 0 /\
  hunger (Index.calculateInitialStats "dog" (mkClock (now c) 19 0)) = 90.
Proof.
  intros [L U]. split; [| vm_compute; reflexivity].
  unfold Index.calculateInitialStats.
  cbn [String.eqb Ascii.eqb Bool.eqb]. cbv zeta.
  set (T := (getHours c * 60 + getMinutes c)%Z) in *.
  cbn [hunger].
  destruct (Z.ltb_spec T 360); [lia |].
  destruct (Z.ltb_spec T 480); [lia |].
  destruct (Z.ltb_spec T 1140); [| lia].
  enough (B : (0 <= JS.Math_round
                      (JS.Math_max 0 (90 - inject_Z (T - 420) / 6.75))
               <= 0)%Z).
  { replace (JS.Math_round (JS.Math_max 0 (90 - inject_Z (T - 420) / 6.75)))
      with 0%Z by lia.
    reflexivity. }
  unfold JS.Math_round.
  match goal with
  | |- (_ <= Qfloor ?x <= _)%Z =>
      destruct (floor_bounds x) as [F0 F1];
      assert (X0 : 0 <= x /\ x < 1)
  end.
  { assert (M : 0 <= JS.Math_max 0 (90 - inject_Z (T - 420) / 6.75) /\
                JS.Math_max 0 (90 - inject_Z (T - 420) / 6.75) <= 2 # 5).
    { apply max_band; [lra | lra |]. clear F0 F1. clock_arith T. lra. }
    lra. }
  split.
  - rewrite <- (Qfloor_Z 0). apply Qfloor_resp_le. apply X0.
  - assert (S : inject_Z (Qfloor (JS.Math_max 0
                  (90 - inject_Z (T - 420) / 6.75) + (1 # 2)))
                < inject_Z 1) by (change (inject_Z 1) with 1; lra).
    rewrite <- Zlt_Qlt in S. lia.
Qed.

Lemma late_afternoon_dog_starts_starving_witness :
  (1025 <= getHours sixPM * 60 + getMinutes sixPM < 1140)%Z /\
  hunger (Index.calculateInitialStats "dog" sixPM) = 0.
Proof.
  assert (C : (1025 <= getHours sixPM * 60 + getMinutes sixPM < 1140)%Z)
    by (unfold sixPM; simpl; lia).
  split; [exact C |].
  exact (proj1 (late_afternoon_dog_starts_starving sixPM C)).
Defined.

(** ** Dashboard.tsx: the stat history kept by the save effect *)





(** ** StatBar.tsx *)

(** X25. The bar never shows a percentage outside 0..100, whatever value
    it is given.  On every state reached without restoring a record
    stamped later than the clock reads, its clamp changes none of the five
    stats; after a restore of such a record the clamp is what keeps the
    bar in range: the hunger of 109 is shown as 100. *)
Theorem stat_bar_clamp (st : State) (v : Q) :
  reachable_on_time st ->
  (0 <= StatBar.shownPercent v <= 100)%Z /\
  stats_eq
    (mkStats (StatBar.clampedValue (hunger (stats (pet st))))
       (StatBar.clampedValue (happiness (stats (pet st))))
       (StatBar.clampedValue (hygiene (stats (pet st))))
       (StatBar.clampedValue (energy (stats (pet st))))
       (StatBar.clampedValue (thirst (stats (pet st)))))
    (stats (pet st)) /\
  (hunger (stats (pet restoredAheadOfClock)) == 109 /\
   StatBar.clampedValue (hunger (stats (pet restoredAheadOfClock))) == 100 /\
   StatBar.shownPercent (hunger (stats (pet restoredAheadOfClock)))
   = 100%Z).
Proof.
  intros R. split; [| split].
  - unfold StatBar.shownPercent, StatBar.clampedValue. apply round_band.
    + change (inject_Z 0) with 0. apply Q.le_max_l.
    + change (inject_Z 100) with 100. unfold JS.Math_max, JS.Math_min.
      apply Q.max_lub; [lra | apply Q.le_min_l].
  - destruct (reachable_stats_invariant st R) as [S _].
    assert (C : forall x, in_band x -> StatBar.clampedValue x == x).
    { intros x [X0 X1]. unfold StatBar.clampedValue, JS.Math_max, JS.Math_min.
      rewrite (Q.min_r 100 x X1). apply Q.max_r. exact X0. }
    destruct S as (S1 & S2 & S3 & S4 & S5).
    unfold stats_eq. cbn [hunger happiness hygiene energy thirst].
    repeat (match goal with |- _ /\ _ => split end); apply C; assumption.
  - repeat (match goal with |- _ /\ _ => split end);
      vm_compute; reflexivity.
Qed.

Lemma stat_bar_clamp_witness :
  reachable_on_time (mount rex (noonAt 0)) /\
  (0 <= StatBar.shownPercent 250 <= 100)%Z.
Proof.
  assert (R : reachable_on_time (mount rex (noonAt 0)))
    by (apply reach_mount; exact rex_in_range).
  split; [exact R |].
  exact (proj1 (stat_bar_clamp (mount rex (noonAt 0)) 250 R)).
Defined.

(** ** Dashboard.tsx: when the emotion is recomputed *)

Lemma runTimeout_emotion (cb : TimeoutCallback) (c : Clock) (st : State) :
  emotion (pet (runTimeout cb c st)) = emotion (pet st).
Proof.
  destruct cb as [msg amount | msg loss | cap petName]; cbn [runTimeout];
    [| | destruct cap; cbn [negb]]; reflexivity.
Qed.

Lemma checkSleepCycle_pet (c : Clock) (st : State) :
  pet (checkSleepCycle c st) = pet st.
Proof.
  unfold checkSleepCycle. cbv zeta.
  destruct (_ && _); [reflexivity |]. destruct (_ && _); reflexivity.
Qed.

Lemma clearTimeouts_isSleeping (l : list nat) (st : State) :
  isSleeping (fold_left (fun s t => clearTimeout t s) l st) = isSleeping st.
Proof.
  revert st. induction l as [| x l IH]; intros st; [reflexivity |].
  cbn [fold_left]. now rewrite IH.
Qed.

Lemma runExtraEffects_isSleeping (e : ExtraEffects) (c : Clock)
    (st : State) :
  isSleeping (runExtraEffects e c st) = isSleeping st.
Proof.
  destruct e as [| | timers label petName | timers breaks cap petName
                 | | | petName | finishLabel petName];
    cbn [runExtraEffects]; try reflexivity.
  - state_simpl. apply clearTimeouts_isSleeping.
  - destruct breaks; [state_simpl |]; apply clearTimeouts_isSleeping.
Qed.

(** X26. The emotion is recomputed only by a decay tick, by the countdown
    of an action and by the restore effect.  Clicks, the random events of
    a walk or a play session, the toy penalty, the sleep check, the
    countdown refresh and the first purchase leave it as it was, also when
    they change the happiness it is computed from or put the pet to sleep;
    the decay tick that follows a pet falling asleep is what draws it
    sleeping. *)
Theorem face_is_redrawn_late (ev : Event) (c c' : Clock) (st : State) :
  redrawsFace ev = false ->
  emotion (pet (step ev c st)) = emotion (pet st) /\
  (isSleeping (step ev c st) = true ->
   emotion (pet (step DecayTick c' (step ev c st))) = sleeping).
Proof.
  intros NF. split.
  - apply step_settles.
    + destruct ev; cbn [handle]; try discriminate NF.
      * now destruct (attempt_pet_spent k rnd c st) as [-> _].
      * destruct (find _ _) as [t |]; [| reflexivity].
        rewrite runTimeout_emotion. reflexivity.
      * now rewrite checkSleepCycle_pet.
      * now destruct (updateCountdowns_shape c st) as (-> & _).
      * destruct (_ || _); [reflexivity |].
        rewrite idleEvent_frame. reflexivity.
      * reflexivity.
    + intros s Hs. now destruct (updateCountdowns_shape c s) as (-> & _).
  - generalize (step ev c st). intros s Hs.
    apply step_settles.
    + cbn [handle]. unfold decayInterval. cbv zeta. rewrite Hs.
      rewrite Bool.andb_false_r. reflexivity.
    + intros s' E. now destruct (updateCountdowns_shape c' s') as (-> & _).
Qed.

Lemma face_is_redrawn_late_witness :
  redrawsFace SleepCheck = false /\
  emotion (pet (step SleepCheck (lateAt 0) (mount rex (noonAt 0))))
  = emotion (pet (mount rex (noonAt 0))) /\
  isSleeping (step SleepCheck (lateAt 0) (mount rex (noonAt 0))) = true.
Proof.
  split; [reflexivity |]. split; [| vm_compute; reflexivity].
  exact (proj1 (face_is_redrawn_late SleepCheck (lateAt 0) (lateAt 0)
                  (mount rex (noonAt 0)) eq_refl)).
Defined.

(** X27. When the countdown of an action runs out, the emotion is computed
    from the new happiness as for a pet that is awake.  A pet that fell
    asleep while the action ran stays asleep but is not drawn sleeping
    until the next decay tick. *)
Theorem finished_action_draws_awake_face (id : nat) (r : ActionRun)
    (c : Clock) (st : State) :
  find (fun r => Nat.eqb (run_id r) id) (intervals st) = Some r ->
  (actionTimer st <= 1)%Z ->
  let st' := step (IntervalFire id) c st in
  stats (pet st') = applyChanges (stats (pet st)) (run_statChanges r) /\
  emotion (pet st') = updateEmotion (stats (pet st')) false /\
  emotion (pet st') <> sleeping /\
  isSleeping st' = isSleeping st.
Proof.
  intros F T. cbv zeta.
  assert (H : pet (handle (IntervalFire id) c st)
              = mkPet (type (pet st)) (name (pet st))
                  (applyChanges (stats (pet st)) (run_statChanges r))
                  (updateEmotion
                     (applyChanges (stats (pet st)) (run_statChanges r))
                     false) /\
              isSleeping (handle (IntervalFire id) c st) = isSleeping st).
  { cbn [handle]. rewrite F. unfold countdown.
    destruct (Z.leb_spec (actionTimer st) 1) as [_ | N]; [| lia].
    cbv zeta. split.
    - state_simpl.
      match goal with
      | |- context [runExtraEffects ?e ?c ?s] =>
          destruct (runExtraEffects_pet_spent e c s) as [-> _]
      end.
      reflexivity.
    - state_simpl. rewrite runExtraEffects_isSleeping. reflexivity. }
  destruct H as [Hp Hs].
  apply step_settles with
    (P := fun s =>
            stats (pet s) = applyChanges (stats (pet st)) (run_statChanges r)
            /\ emotion (pet s) = updateEmotion (stats (pet s)) false
            /\ emotion (pet s) <> sleeping
            /\ isSleeping s = isSleeping st).
  - rewrite Hp, Hs. cbn [stats emotion].
    split; [reflexivity |]. split; [reflexivity |].
    split; [| reflexivity].
    unfold updateEmotion.
    repeat match goal with
           | |- context [if ?b then _ else _] => destruct b
           end; discriminate.
  - intros s (A & B & C & D).
    destruct (updateCountdowns_shape c s) as (-> & _).
    repeat (match goal with |- _ /\ _ => split end); try assumption.
    rewrite <- D. unfold updateCountdowns. now destruct (_ || _).
Qed.

Lemma finished_action_draws_awake_face_witness :
  isSleeping (step (IntervalFire 0) (lateAt 0) asleepAtLastSecond) = true /\
  emotion (pet (step (IntervalFire 0) (lateAt 0) asleepAtLastSecond))
  <> sleeping.
Proof.
  assert (F : find (fun r => Nat.eqb (run_id r) 0)
                (intervals asleepAtLastSecond)
              = Some (mkRun 0 "Getting food & Feeding"
                        (mkChanges (Some (JS.Math_min 100 (20 + 90)))
                           (Some (JS.Math_min 100 (50 + 5))) None
                           (Some (JS.Math_min 100 (50 + 12))) None) FeedDone))
    by reflexivity.
  assert (T : (actionTimer asleepAtLastSecond <= 1)%Z)
    by (vm_compute; discriminate).
  split; [vm_compute; reflexivity |].
  exact (proj1 (proj2 (proj2
           (finished_action_draws_awake_face 0 _ (lateAt 0)
              asleepAtLastSecond F T)))).
Defined.

(** ** Report.tsx: the report over a period *)

Lemma counts_le_refl (a : ActionCounts) : counts_le a a.
Proof. unfold counts_le. lia. Qed.

Lemma counts_le_trans (a b c : ActionCounts) :
  counts_le a b -> counts_le b c -> counts_le a c.
Proof. unfold counts_le. lia. Qed.

Lemma countEvent_grows (a : ActionCounts) (e : EventEntry) :
  counts_le a (countEvent a e).
Proof.
  destruct (countEvent_within a e) as (A & B & C & D & E & F & G).
  unfold counts_le. lia.
Qed.

Lemma countEvent_mono (a b : ActionCounts) (e : EventEntry) :
  counts_le a b -> counts_le (countEvent a e) (countEvent b e).
Proof.
  unfold counts_le, countEvent.
  cbn [c_feed c_water c_walk c_play c_bath c_vet c_groom].
  intros (A & B & C & D & E & F & G).
  assert (M : forall t x y, (x <= y)%Z -> (bump t x <= bump t y)%Z)
    by (intros t x y H; unfold bump; destruct t; lia).
  repeat (match goal with |- _ /\ _ => split end); apply M; assumption.
Qed.

Lemma fold_count_filter_mono (p q : EventEntry -> bool)
    (l : list EventEntry) (a b : ActionCounts) :
  (forall e, p e = true -> q e = true) -> counts_le a b ->
  counts_le (fold_left countEvent (filter p l) a)
    (fold_left countEvent (filter q l) b).
Proof.
  intros I. revert a b. induction l as [| e l IH]; intros a b L.
  - exact L.
  - cbn [filter]. destruct (p e) eqn:P.
    + rewrite (I e P). cbn [fold_left]. apply IH. now apply countEvent_mono.
    + destruct (q e); [| now apply IH].
      cbn [fold_left]. apply IH.
      apply counts_le_trans with b; [exact L | apply countEvent_grows].
Qed.

Lemma variety_mono (l1 l2 : list Z) :
  Forall2 Z.le l1 l2 ->
  (List.length (filter (fun c => (0 <? c)%Z) l1)
   <= List.length (filter (fun c => (0 <? c)%Z) l2))%nat.
Proof.
  induction 1 as [| x y l1 l2 H _ IH]; [reflexivity |].
  cbn [filter].
  destruct (Z.ltb_spec 0 x), (Z.ltb_spec 0 y); cbn [List.length]; lia.
Qed.

Lemma getOverallScore_mono (s : PetStats) (a b : ActionCounts) :
  counts_le a b -> (getOverallScore s a <= getOverallScore s b)%Z.
Proof.
  intros (A & B & C & D & E & F & G). unfold getOverallScore. cbv zeta.
  unfold JS.Math_round. apply Qfloor_resp_le.
  apply Qplus_le_l. unfold JS.Math_min.
  apply Q.min_le_compat_l. apply Qplus_le_r.
  apply Q.min_le_compat_l.
  apply Qmult_le_compat_r; [| discriminate].
  rewrite <- Zle_Qle. apply Nat2Z.inj_le. apply variety_mono.
  repeat (constructor; [assumption |]). constructor.
Qed.

(** X28. A longer report period never hides an event that a shorter one
    shows, never counts fewer actions of any kind, and never gives a lower
    overall score for the same stats. *)
Theorem longer_period_never_lowers_score (now : Z)
    (events : list EventEntry) (long short : ReportTimeRange)
    (s : PetStats) :
  covers now long short ->
  incl (filterEventsByRange now events short)
       (filterEventsByRange now events long) /\
  counts_le (getActionCounts (filterEventsByRange now events short))
            (getActionCounts (filterEventsByRange now events long)) /\
  (getOverallScore s (getActionCounts (filterEventsByRange now events short))
   <= getOverallScore s
        (getActionCounts (filterEventsByRange now events long)))%Z.
Proof.
  unfold covers. intros C.
  assert (I : forall e,
            (getRangeStartMs now short <=? timestamp e)%Z = true ->
            (getRangeStartMs now long <=? timestamp e)%Z = true).
  { intros e H. apply Z.leb_le in H. apply Z.leb_le. lia. }
  assert (L : counts_le
                (getActionCounts (filterEventsByRange now events short))
                (getActionCounts (filterEventsByRange now events long))).
  { unfold getActionCounts, filterEventsByRange. cbv zeta.
    apply fold_count_filter_mono; [exact I | apply counts_le_refl]. }
  split; [| split; [exact L | now apply getOverallScore_mono]].
  unfold filterEventsByRange. cbv zeta. intros e H.
  apply filter_In in H. destruct H as [H1 H2].
  apply filter_In. split; [exact H1 | now apply I].
Qed.

Lemma longer_period_never_lowers_score_witness :
  covers 0 Range7 Range1 /\
  (getOverallScore allTen
     (getActionCounts (filterEventsByRange 0 (careLog 0) Range1))
   <= getOverallScore allTen
        (getActionCounts (filterEventsByRange 0 (careLog 0) Range7)))%Z.
Proof.
  assert (C : covers 0 Range7 Range1) by (unfold covers; simpl; lia).
  split; [exact C |].
  exact (proj2 (proj2 (longer_period_never_lowers_score 0 (careLog 0)
                         Range7 Range1 allTen C))).
Defined.

(** X29. Whatever period is chosen, the report of a running dashboard
    counts at most 20 actions of each kind, because it counts them in the
    event log, and the log keeps only its 20 newest entries. *)
Theorem report_counts_at_most_20 (st : State) (now : Z)
    (range : ReportTimeRange) :
  reachable st ->
  counts_within (mkCounts 0 0 0 0 0 0 0)
    (getActionCounts (filterEventsByRange now (events st) range)) 20.
Proof.
  intros R. pose proof (reachable_log_length st R) as L.
  unfold getActionCounts.
  pose proof (fold_count_within
                (filterEventsByRange now (events st) range)
                (mkCounts 0 0 0 0 0 0 0)) as W.
  assert (F : (List.length (filterEventsByRange now (events st) range)
               <= List.length (events st))%nat)
    by (unfold filterEventsByRange; apply filter_length_le).
  unfold counts_within in *. lia.
Qed.

Lemma report_counts_at_most_20_witness :
  reachable (mount rex (noonAt 0)) /\
  counts_within (mkCounts 0 0 0 0 0 0 0)
    (getActionCounts
       (filterEventsByRange 0 (events (mount rex (noonAt 0))) Range7)) 20.
Proof.
  assert (R : reachable (mount rex (noonAt 0)))
    by (apply reach_mount; exact rex_in_range).
  split; [exact R |].
  exact (report_counts_at_most_20 (mount rex (noonAt 0)) 0 Range7 R).
Defined.

(** ** Dashboard.tsx: idle events *)

(** X30. The idle-event interval touches nothing but the event log.  It
    logs at most one entry, stamped with the current time and holding one
    of its four messages, and cuts the log to 20; with a first random
    number of 0.02 or more it does nothing at all.  It therefore keeps the
    stats in range and the countdown bookkeeping intact. *)
Theorem idle_event_only_logs (rand rand2 : Q) (c : Clock) (st : State) :
  0 <= rand2 -> rand2 < 1 ->
  let st' := idleEvent rand rand2 c st in
  st' = setEvents (events st') st /\
  (events st' = events st \/
   exists m,
     events st' = firstn 20 (mkEvent m (now c) :: events st) /\
     In m [name (pet st) +++ " is waiting for attention 🥺";
           name (pet st) +++ " is napping peacefully 😴";
           name (pet st) +++ " barked at a sound 🐕";
           name (pet st) +++ " is watching you curiously 👀"]) /\
  (List.length (events st') <= Nat.max 20 (List.length (events st)))%nat /\
  (0.02 <= rand -> st' = st) /\
  (stats_invariant st -> stats_invariant st') /\
  (run_invariant st -> run_invariant st').
Proof.
  intros R0 R1. cbv zeta.
  assert (I : (0 <= JS.Math_floor (rand2 * 3) <= 2)%Z).
  { unfold JS.Math_floor. destruct (floor_bounds (rand2 * 3)) as [F0 F1].
    split.
    - rewrite <- (Qfloor_Z 0). apply Qfloor_resp_le.
      change (inject_Z 0) with 0. lra.
    - assert (S : inject_Z (Qfloor (rand2 * 3)) < inject_Z 3)
        by (change (inject_Z 3) with 3; lra).
      rewrite <- Zlt_Qlt in S. lia. }
  assert (E : idleEvent rand rand2 c st
              = setEvents (events (idleEvent rand rand2 c st))
                  st).
  { unfold idleEvent. cbv zeta.
    destruct (JS.ltb rand 0.02); [destruct (JS.ltb _ 50) |];
      destruct st; reflexivity. }
  split; [exact E |]. split; [| split; [| split; [| split]]].
  - unfold idleEvent. cbv zeta.
    destruct (JS.ltb rand 0.02); [| now left].
    right. destruct (JS.ltb _ 50).
    + eexists. split; [reflexivity |]. left. reflexivity.
    + eexists. split; [reflexivity |].
      destruct (Z.to_nat (JS.Math_floor (rand2 * 3)))
        as [| [| [| n]]] eqn:En; cbn [nth In]; [tauto | tauto | tauto | lia].
  - unfold idleEvent. cbv zeta.
    destruct (JS.ltb rand 0.02); [| lia].
    destruct (JS.ltb _ 50); unfold addEvent; cbn [events setEvents];
      match goal with
      | |- (List.length (firstn 20 ?l) <= _)%nat =>
          pose proof (firstn_le_length 20 l); lia
      end.
  - intros H. unfold idleEvent.
    destruct (JS.ltb rand 0.02) eqn:L; [| reflexivity].
    apply ltb_iff in L. lra.
  - intros Inv. rewrite E. exact Inv.
  - intros Inv. rewrite E. exact Inv.
Qed.

Lemma idle_event_only_logs_witness :
  0 <= 1 # 2 /\ (1 # 2) < 1 /\
  (List.length
     (events (idleEvent (1 # 100) (1 # 2) (noonAt 7)
                (mount rex (noonAt 0))))
   <= Nat.max 20 (List.length (events (mount rex (noonAt 0)))))%nat.
Proof.
  assert (A : 0 <= 1 # 2) by (unfold Qle; simpl; lia).
  assert (B : (1 # 2) < 1) by (unfold Qlt; simpl; lia).
  split; [exact A |]. split; [exact B |].
  exact (proj1 (proj2 (proj2
           (idle_event_only_logs (1 # 100) (1 # 2) (noonAt 7)
              (mount rex (noonAt 0)) A B)))).
Defined.
